(** * ThreadAi: the subscription and trial reconciler of [src/services/payment.js]

    A shallow embedding of the [PaymentService] class: the status cache, the
    retried worker requests, trial restoration and registration, the usage
    gate and the checkout URL.  Asynchronous methods become computations in a
    state-and-exception monad over an explicit world; the browser (clock,
    network, storage faults, date and string host functions) is an
    environment the computations read.

    One call runs from start to end without another call of the service
    interleaving at its [await]s; [console] output is left out.

    The last part covers the rest of the class: the initialisation of the
    device token, the usage ledger and its analytics, the restore of a
    purchase, the countdown of a trial and the query for an activation
    notification.  The timers of [startPeriodicSubscriptionCheck] and
    [startSmartSubscriptionCheck] and the popup message of
    [notifySubscriptionActivated] are outside the model. *)

From stdpp Require Import gmap strings list fin_maps.
From Stdlib Require Import ZArith String DecimalString Lia.

Open Scope Z_scope.

Set Warnings "-register-all".

(** ** JavaScript values *)

(** Values that cross the JSON and storage boundaries.  Numbers are the
    integral ones (timestamps, counters); an object lists each key once and
    a lookup takes the first entry. *)
Inductive JVal : Type :=
  | JUndef
  | JNull
  | JBool (b : bool)
  | JNum (n : Z)
  | JStr (s : string)
  | JArr (items : list JVal)
  | JObj (fields : list (string * JVal)).

(** ToBoolean. *)
Definition truthy (v : JVal) : bool :=
  match v with
  | JUndef | JNull => false
  | JBool b => b
  | JNum n => negb (n =? 0)
  | JStr s => negb (String.eqb s "")
  | JArr _ | JObj _ => true
  end.

Definition nullish (v : JVal) : bool :=
  match v with
  | JUndef | JNull => true
  | _ => false
  end.

Fixpoint field (k : string) (fs : list (string * JVal)) : JVal :=
  match fs with
  | [] => JUndef
  | (k', v) :: rest => if String.eqb k k' then v else field k rest
  end.

(** [v.k] for a value that is neither [null] nor [undefined]; none of the
    keys read by the service is defined on the primitive wrappers. *)
Definition prop (v : JVal) (k : string) : JVal :=
  match v with
  | JObj fs => field k fs
  | _ => JUndef
  end.

(** [v && v.k]. *)
Definition andProp (v : JVal) (k : string) : JVal :=
  if truthy v then prop v k else v.

(** [v === 'literal']. *)
Definition strictEqStr (v : JVal) (s : string) : bool :=
  match v with
  | JStr t => String.eqb t s
  | _ => false
  end.

(** [String.prototype.includes]. *)
Definition includes (s needle : string) : bool :=
  match String.index 0 needle s with
  | Some _ => true
  | None => false
  end.

(** ** Exceptions, HTTP, events *)

(** Everything the service throws or catches is an [Error] with a message,
    except the never-assigned [lastError] of an empty retry loop. *)
Inductive Exn : Type :=
  | Error (message : string)
  | Undefined.

Definition nullishName (v : JVal) : string :=
  match v with
  | JNull => "null"
  | _ => "undefined"
  end.

(** The TypeError raised by reading a property of [null] or [undefined]. *)
Definition typeError (v : JVal) (k : string) : Exn :=
  Error ("Cannot read properties of " +:+ nullishName v +:+ " (reading '" +:+ k +:+ "')").

Record Request : Type := {
  url : string;
  method : option string;
  headers : gmap string string;
  reqBody : option JVal
}.

(** A body either parses as JSON or makes [response.json()] reject. *)
Inductive Body : Type :=
  | BodyJson (v : JVal)
  | BodyInvalid (msg : string).

Record Response : Type := {
  httpStatus : Z;
  statusText : string;
  body : Body
}.

(** [response.ok]. *)
Definition ok (r : Response) : bool :=
  (200 <=? httpStatus r) && (httpStatus r <=? 299).

Inductive FetchOutcome : Type :=
  | NetworkFailure (msg : string)
  | Responded (r : Response).

Inductive Event : Type :=
  | EvFetch (req : Request) (out : FetchOutcome)
  | EvSleep (ms : Z)
  | EvLocalSet (items : list (string * JVal))
  | EvLocalRemove (keys : list string)
  | EvSyncSet (items : list (string * JVal)).

(** ** The browser and the world *)

(** What the service cannot control.  The [k]-th reading of the clock, the
    [k]-th fetch, the [k]-th call of each storage area (a fault carries the
    rejection message), and the host's date and string functions
    ([parseDate] is [new Date(v).getTime()], [None] for NaN;
    [encodeURIComponent] is [None] where the host throws a URIError, on a
    string with a lone surrogate). *)
Record Env : Type := {
  clock : nat -> Z;
  network : nat -> Request -> FetchOutcome;
  localFault : nat -> option string;
  syncFault : nat -> option string;
  parseDate : JVal -> option Z;
  toISOString : Z -> string;
  addDays : Z -> Z -> Z;
  toLocaleDateString : option Z -> string;
  toStr : JVal -> string;
  encodeURIComponent : string -> option string
}.

(** [chrome.storage.local], [chrome.storage.sync], the two cache fields of
    the service instance, the interaction counters and the log of effects
    (newest first).  The constructor's [initPromise] has settled. *)
Record World : Type := {
  localStore : gmap string JVal;
  syncStore : gmap string JVal;
  statusCache : JVal;
  cacheTimestamp : Z;
  clockReads : nat;
  fetches : nat;
  localOps : nat;
  syncOps : nat;
  trace : list Event
}.

Inductive Outcome (A : Type) : Type :=
  | Return (a : A)
  | Throw (e : Exn).
Arguments Return {A} a.
Arguments Throw {A} e.

(** ** The monad of async functions *)

Definition Async (A : Type) : Type := Env -> World -> Outcome A * World.

Definition ret {A} (a : A) : Async A := fun _ w => (Return a, w).

Definition throw {A} (e : Exn) : Async A := fun _ w => (Throw e, w).

Definition bind {A B} (m : Async A) (f : A -> Async B) : Async B :=
  fun env w =>
    match m env w with
    | (Return a, w1) => f a env w1
    | (Throw e, w1) => (Throw e, w1)
    end.

(** [try { m } catch (error) { h error }]. *)
Definition tryCatch {A} (m : Async A) (h : Exn -> Async A) : Async A :=
  fun env w =>
    match m env w with
    | (Return a, w1) => (Return a, w1)
    | (Throw e, w1) => h e env w1
    end.

(** A pure host function. *)
Definition host {A} (f : Env -> A) : Async A := fun env w => (Return (f env), w).

Declare Scope async_scope.
Delimit Scope async_scope with async.
Notation "'let*' x ':=' m 'in' k" := (bind m (fun x => k))
  (at level 10, x pattern, m at level 100, k at level 200) : async_scope.
Notation "m1 ';;;' m2" := (bind m1 (fun _ => m2))
  (at level 100, m2 at level 200, right associativity) : async_scope.
Open Scope async_scope.

(** ** Primitive effects *)

(** [Date.now()] and [new Date()]. *)
Definition dateNow : Async Z := fun env w =>
  (Return (clock env (clockReads w)),
   {| localStore := localStore w; syncStore := syncStore w;
      statusCache := statusCache w; cacheTimestamp := cacheTimestamp w;
      clockReads := S (clockReads w); fetches := fetches w;
      localOps := localOps w; syncOps := syncOps w; trace := trace w |}).

Definition fetch (req : Request) : Async Response := fun env w =>
  let out := network env (fetches w) req in
  let w1 :=
    {| localStore := localStore w; syncStore := syncStore w;
       statusCache := statusCache w; cacheTimestamp := cacheTimestamp w;
       clockReads := clockReads w; fetches := S (fetches w);
       localOps := localOps w; syncOps := syncOps w;
       trace := EvFetch req out :: trace w |} in
  match out with
  | NetworkFailure msg => (Throw (Error msg), w1)
  | Responded r => (Return r, w1)
  end.

(** [response.json()]. *)
Definition json (r : Response) : Async JVal :=
  match body r with
  | BodyJson v => ret v
  | BodyInvalid msg => throw (Error msg)
  end.

(** [await new Promise(resolve => setTimeout(resolve, ms))]. *)
Definition sleep (ms : Z) : Async unit := fun _ w =>
  (Return tt,
   {| localStore := localStore w; syncStore := syncStore w;
      statusCache := statusCache w; cacheTimestamp := cacheTimestamp w;
      clockReads := clockReads w; fetches := fetches w;
      localOps := localOps w; syncOps := syncOps w;
      trace := EvSleep ms :: trace w |}).

(** One call of a [chrome.storage.local] method: it either rejects, leaving
    the store alone, or applies [upd] and logs [evs]. *)
Definition localCall {A} (upd : gmap string JVal -> gmap string JVal)
    (evs : list Event) (result : gmap string JVal -> A) : Async A := fun env w =>
  match localFault env (localOps w) with
  | Some msg =>
      (Throw (Error msg),
       {| localStore := localStore w; syncStore := syncStore w;
          statusCache := statusCache w; cacheTimestamp := cacheTimestamp w;
          clockReads := clockReads w; fetches := fetches w;
          localOps := S (localOps w); syncOps := syncOps w; trace := trace w |})
  | None =>
      (Return (result (localStore w)),
       {| localStore := upd (localStore w); syncStore := syncStore w;
          statusCache := statusCache w; cacheTimestamp := cacheTimestamp w;
          clockReads := clockReads w; fetches := fetches w;
          localOps := S (localOps w); syncOps := syncOps w;
          trace := evs ++ trace w |})
  end.

Definition setItems (items : list (string * JVal)) (m : gmap string JVal) : gmap string JVal :=
  foldr (fun kv acc => <[kv.1 := kv.2]> acc) m items.

Definition pick (keys : list string) (m : gmap string JVal) : gmap string JVal :=
  foldr (fun k acc => match m !! k with Some v => <[k := v]> acc | None => acc end) ∅ keys.

(** [result[key]]. *)
Definition item (m : gmap string JVal) (k : string) : JVal := default JUndef (m !! k).

Definition localGet (keys : list string) : Async (gmap string JVal) :=
  localCall id [] (pick keys).

Definition localSet (items : list (string * JVal)) : Async unit :=
  localCall (setItems items) [EvLocalSet items] (fun _ => tt).

Definition localRemove (keys : list string) : Async unit :=
  localCall (fun m => foldr delete m keys) [EvLocalRemove keys] (fun _ => tt).

Definition syncSet (items : list (string * JVal)) : Async unit := fun env w =>
  match syncFault env (syncOps w) with
  | Some msg =>
      (Throw (Error msg),
       {| localStore := localStore w; syncStore := syncStore w;
          statusCache := statusCache w; cacheTimestamp := cacheTimestamp w;
          clockReads := clockReads w; fetches := fetches w;
          localOps := localOps w; syncOps := S (syncOps w); trace := trace w |})
  | None =>
      (Return tt,
       {| localStore := localStore w; syncStore := setItems items (syncStore w);
          statusCache := statusCache w; cacheTimestamp := cacheTimestamp w;
          clockReads := clockReads w; fetches := fetches w;
          localOps := localOps w; syncOps := S (syncOps w);
          trace := EvSyncSet items :: trace w |})
  end.

(** [v.k] where [v] may be [null] or [undefined]. *)
Definition getProp (v : JVal) (k : string) : Async JVal :=
  if nullish v then throw (typeError v k) else ret (prop v k).

(** [error.message]. *)
Definition messageOf (e : Exn) : Async string :=
  match e with
  | Error m => ret m
  | Undefined => throw (typeError JUndef "message")
  end.

(** [String(v)] and template interpolation. *)
Definition str (v : JVal) : Async string :=
  match v with
  | JStr s => ret s
  | _ => host (fun env => toStr env v)
  end.

(** [encodeURIComponent(s)] on a string. *)
Definition encode (s : string) : Async string := fun env w =>
  match encodeURIComponent env s with
  | Some encoded => (Return encoded, w)
  | None => (Throw (Error "URI malformed"), w)
  end.

(** ** The service: constants and small helpers *)

(** The fields the constructor sets (lines 10-21). *)
Definition WORKER_URL : string := "https://lemon-worker.bhaveshlalvani000.workers.dev".
Definition TRIAL_DURATION_DAYS : Z := 3.
Definition DEVICE_TOKEN_KEY : string := "deviceToken".
Definition SUBSCRIPTION_KEY : string := "subscription".
Definition TRIAL_KEY : string := "trial".
Definition USAGE_KEY : string := "usage".
Definition TRIAL_USED_FLAG : string := "trialEverUsed".
Definition CACHE_DURATION : Z := 30000.

(** [this.statusCache = v]. *)
Definition setStatusCache (v : JVal) : Async unit := fun _ w =>
  (Return tt,
   {| localStore := localStore w; syncStore := syncStore w;
      statusCache := v; cacheTimestamp := cacheTimestamp w;
      clockReads := clockReads w; fetches := fetches w;
      localOps := localOps w; syncOps := syncOps w; trace := trace w |}).

(** [this.cacheTimestamp = t]. *)
Definition setCacheTimestamp (t : Z) : Async unit := fun _ w =>
  (Return tt,
   {| localStore := localStore w; syncStore := syncStore w;
      statusCache := statusCache w; cacheTimestamp := t;
      clockReads := clockReads w; fetches := fetches w;
      localOps := localOps w; syncOps := syncOps w; trace := trace w |}).

(** [this.statusCache] and [this.cacheTimestamp]. *)
Definition readCache : Async (JVal * Z) := fun _ w =>
  (Return (statusCache w, cacheTimestamp w), w).

(** [clearStatusCache] (lines 734-737). *)
Definition clearStatusCache : Async unit :=
  setStatusCache JNull ;;; setCacheTimestamp 0.

(** The three lines that end every branch of the status function:
    [this.statusCache = result; this.cacheTimestamp = Date.now(); return result]. *)
Definition cacheAndReturn (result : JVal) : Async JVal :=
  setStatusCache result ;;;
  let* t := dateNow in
  setCacheTimestamp t ;;;
  ret result.

(** [now < trialEnd] on Date objects: false when [trialEnd] is invalid. *)
Definition before (now : Z) (trialEnd : option Z) : bool :=
  match trialEnd with
  | Some e => now <? e
  | None => false
  end.

(** ** getDeviceToken *)

(** Lines 96-109; the awaited [initPromise] has settled. *)
Definition getDeviceToken : Async JVal :=
  tryCatch
    (let* result := localGet [DEVICE_TOKEN_KEY] in
     ret (item result DEVICE_TOKEN_KEY))
    (fun _ => ret JNull).

(** ** makeWorkerRequest *)

(** The [options] argument: [method], [headers] (empty when absent) and
    the JSON document of [body]. *)
Record Options : Type := {
  optMethod : option string;
  optHeaders : gmap string string;
  optBody : option JVal
}.

(** [options = {}]. *)
Definition noOptions : Options :=
  {| optMethod := None; optHeaders := ∅; optBody := None |}.

(** [const maxRetries = 3]. *)
Definition maxRetries : nat := 3.

(** [{...options, headers: {'Content-Type': 'application/json', ...options.headers}}]:
    the caller's headers are spread last and win. *)
Definition workerRequest (endpoint : string) (options : Options) : Request :=
  {| url := WORKER_URL +:+ endpoint;
     method := optMethod options;
     headers := optHeaders options ∪ {["Content-Type" := "application/json"]};
     reqBody := optBody options |}.

(** [new Error(`HTTP ${response.status}: ${response.statusText}`)]. *)
Definition httpError (r : Response) : Exn :=
  Error ("HTTP " +:+ NilZero.string_of_int (Z.to_int (httpStatus r)) +:+ ": " +:+ statusText r).

(** The [for] loop, [attempt] running from 1 while [attempt <= maxRetries];
    [fuel] bounds the iterations. *)
Fixpoint retryLoop (fuel : nat) (endpoint : string) (options : Options)
    (attempt : nat) (lastError : Exn) : Async JVal :=
  match fuel with
  | O => throw lastError
  | S fuel' =>
      if (attempt <=? maxRetries)%nat then
        tryCatch
          (let* response := fetch (workerRequest endpoint options) in
           if negb (ok response) then throw (httpError response)
           else json response)
          (fun error =>
             (if (attempt <? maxRetries)%nat
              then sleep (2 ^ (Z.of_nat attempt - 1) * 1000)
              else ret tt) ;;;
             retryLoop fuel' endpoint options (S attempt) error)
      else throw lastError
  end.

(** Lines 744-776. *)
Definition makeWorkerRequest (endpoint : string) (options : Options) : Async JVal :=
  retryLoop maxRetries endpoint options 1 Undefined.

(** ** _checkServerStatus *)

(** Lines 114-130. *)
Definition _checkServerStatus : Async JVal :=
  let* deviceToken := getDeviceToken in
  if negb (truthy deviceToken) then throw (Error "No device token available")
  else
    tryCatch
      (let* token := str deviceToken in
       let* data := makeWorkerRequest ("/check?token=" +:+ token) noOptions in
       localSet [(SUBSCRIPTION_KEY, data)] ;;;
       ret data)
      (fun error => throw error).

(** ** _getLocalData *)

(** Lines 406-412: the pair of [subscription] and [trial]. *)
Definition _getLocalData : Async (JVal * JVal) :=
  let* result := localGet [SUBSCRIPTION_KEY; TRIAL_KEY] in
  ret (item result SUBSCRIPTION_KEY, item result TRIAL_KEY).

(** ** Status objects *)

(** The object literals the status function returns, by plan and message. *)
Definition trialStatus (trialEndsAt : JVal) : JVal :=
  JObj [("active", JBool false); ("plan", JStr "trial"); ("isTrialing", JBool true);
        ("trialEndsAt", trialEndsAt); ("message", JStr "Free trial active")].

Definition expiredStatus (trialEndsAt : JVal) (message : string) : JVal :=
  JObj [("active", JBool false); ("plan", JStr "trial_expired"); ("isTrialing", JBool false);
        ("trialEndsAt", trialEndsAt); ("message", JStr message)].

Definition dateErrorStatus : JVal :=
  JObj [("active", JBool false); ("plan", JStr "trial_expired"); ("isTrialing", JBool false);
        ("message", JStr "Trial expired (date parsing error)")].

Definition deniedStatus (errorDetails : string) : JVal :=
  JObj [("active", JBool false); ("plan", JStr "trial_denied"); ("isTrialing", JBool false);
        ("message", JStr "Trial not available"); ("errorDetails", JStr errorDetails)].

Definition unverifiedStatus (errorDetails : string) : JVal :=
  JObj [("active", JBool false); ("plan", JStr "error"); ("isTrialing", JBool false);
        ("message", JStr "Unable to verify trial status"); ("errorDetails", JStr errorDetails)].

Definition errorStatus : JVal :=
  JObj [("active", JBool false); ("plan", JStr "error"); ("isTrialing", JBool false);
        ("message", JStr "Error checking subscription")].

(** ** startTrial *)

(** [{ 'Content-Type': 'application/json' }]. *)
Definition jsonHeaders : gmap string string := {["Content-Type" := "application/json"]}.

(** The [POST /trial/check] and [POST /trial/register] requests. *)
Definition trialCheckRequest (deviceToken : JVal) : Request :=
  {| url := WORKER_URL +:+ "/trial/check";
     method := Some "POST";
     headers := jsonHeaders;
     reqBody := Some (JObj [("deviceToken", deviceToken)]) |}.

Definition registerRequest (deviceToken : JVal) (trialEndsAt : string) : Request :=
  {| url := WORKER_URL +:+ "/trial/register";
     method := Some "POST";
     headers := jsonHeaders;
     reqBody := Some (JObj [("deviceToken", deviceToken); ("trialEndsAt", JStr trialEndsAt)]) |}.

(** The message of a refused trial, from [trialCheck.reason]. *)
Definition refusalMessage (trialCheck : JVal) : Async string :=
  let* reason := getProp trialCheck "reason" in
  if strictEqStr reason "device_already_used" then
    let* usedAt := getProp trialCheck "usedAt" in
    host (fun env =>
      "This device has already used a free trial on "
        +:+ toLocaleDateString env (parseDate env usedAt)
        +:+ ". Please upgrade to continue.")
  else if strictEqStr reason "ip_limit_exceeded" then
    let* message := getProp trialCheck "message" in
    if truthy message then str message
    else ret "A trial has already been used from this network. Please upgrade to continue using ThreadAi."
  else if strictEqStr reason "server_error" then
    ret "Unable to verify trial eligibility. Please try again later."
  else
    ret "You have already used your free trial. Please upgrade to continue using ThreadAi.".

(** Lines 418-518.  [registerResponse.text()], read for the log only, is
    left out. *)
Definition startTrial : Async JVal :=
  tryCatch
    (let* deviceToken := getDeviceToken in
     if negb (truthy deviceToken) then throw (Error "No device token available")
     else
       let* trialCheckResponse := fetch (trialCheckRequest deviceToken) in
       if negb (ok trialCheckResponse) then
         throw (Error "Unable to connect to trial verification server. Please check your internet connection and try again.")
       else
         let* trialCheck := json trialCheckResponse in
         let* allowed := getProp trialCheck "allowed" in
         if negb (truthy allowed) then
           let* errorMessage := refusalMessage trialCheck in
           throw (Error errorMessage)
         else
           let* today := dateNow in
           let* trialEndsAt :=
             host (fun env => toISOString env (addDays env today TRIAL_DURATION_DAYS)) in
           let* registerResponse := fetch (registerRequest deviceToken trialEndsAt) in
           if negb (ok registerResponse) then
             throw (Error "Failed to register trial with server. Please try again.")
           else
             let* registerResult := json registerResponse in
             let* success := getProp registerResult "success" in
             if negb (truthy success) then
               let* error := getProp registerResult "error" in
               let* message :=
                 (if truthy error then str error else ret "Trial registration failed") in
               throw (Error message)
             else
               let* startedAt := dateNow in
               let* startedAtIso := host (fun env => toISOString env startedAt) in
               let trialData :=
                 JObj [("deviceToken", deviceToken); ("trialEndsAt", JStr trialEndsAt);
                       ("startedAt", JStr startedAtIso); ("isTrialing", JBool true);
                       ("serverVerified", JBool true)] in
               let* firstUsedAt := dateNow in
               let* firstUsedAtIso := host (fun env => toISOString env firstUsedAt) in
               localSet [(TRIAL_KEY, trialData);
                         (TRIAL_USED_FLAG,
                          JObj [("used", JBool true); ("firstUsedAt", JStr firstUsedAtIso);
                                ("deviceToken", deviceToken)])] ;;;
               tryCatch
                 (let* firstUsed := dateNow in
                  let* firstUsedIso := host (fun env => toISOString env firstUsed) in
                  syncSet [("persistent_device_token", deviceToken);
                           ("trial_first_used", JStr firstUsedIso)])
                 (fun _ => ret tt) ;;;
               ret trialData)
    (fun error => throw error).

(** ** getUnifiedSubscriptionStatus *)

(** The options of the [/trial/status] request. *)
Definition trialStatusOptions (deviceToken : JVal) : Options :=
  {| optMethod := Some "POST";
     optHeaders := ∅;
     optBody := Some (JObj [("deviceToken", deviceToken)]) |}.

(** The record written when the server still knows the trial. *)
Definition restoredTrialData (deviceToken trialEndsAt startedAt : JVal) : JVal :=
  JObj [("deviceToken", deviceToken); ("trialEndsAt", trialEndsAt); ("startedAt", startedAt);
        ("isTrialing", JBool true); ("serverVerified", JBool true);
        ("restoredFromServer", JBool true)].

(** Lines 165-222, "Check server for existing trial FIRST": [Some result]
    when the block returns from the function, [None] when control falls
    through to the local data. *)
Definition restoreTrialFromServer (deviceToken : JVal) : Async (option JVal) :=
  if truthy deviceToken then
    tryCatch
      (let* serverTrialCheck :=
         makeWorkerRequest "/trial/status" (trialStatusOptions deviceToken) in
       let* hasTrial := getProp serverTrialCheck "hasTrial" in
       if truthy hasTrial then
         let* trialEndsAt := getProp serverTrialCheck "trialEndsAt" in
         let* startedAt := getProp serverTrialCheck "startedAt" in
         localSet [(TRIAL_KEY, restoredTrialData deviceToken trialEndsAt startedAt)] ;;;
         let* now := dateNow in
         let* trialEnd := host (fun env => parseDate env trialEndsAt) in
         if before now trialEnd then
           let* result := cacheAndReturn (trialStatus trialEndsAt) in
           ret (Some result)
         else
           let* result := cacheAndReturn (expiredStatus trialEndsAt "Trial expired") in
           ret (Some result)
       else ret None)
      (fun _ => ret None)
  else ret None.

(** Lines 237-300, "Check trial status": the branch taken when a local
    trial record exists. *)
Definition evaluateLocalTrial (localTrial : JVal) : Async JVal :=
  tryCatch
    (let* now := dateNow in
     let* trialEndsAt := getProp localTrial "trialEndsAt" in
     let* trialEnd := host (fun env => parseDate env trialEndsAt) in
     match trialEnd with
     | None => cacheAndReturn (expiredStatus trialEndsAt "Trial expired (corrupted date)")
     | Some e =>
         if now <? e then cacheAndReturn (trialStatus trialEndsAt)
         else cacheAndReturn (expiredStatus trialEndsAt "Trial expired")
     end)
    (fun _ => cacheAndReturn dateErrorStatus).

(** Lines 308-337, "MANDATORY: Check with server if trial is allowed
    BEFORE trying to start": [Some result] when the server refuses. *)
Definition preCheckTrial (deviceToken : JVal) : Async (option JVal) :=
  if truthy deviceToken then
    tryCatch
      (let* checkResponse := fetch (trialCheckRequest deviceToken) in
       if ok checkResponse then
         let* checkResult := json checkResponse in
         let* allowed := getProp checkResult "allowed" in
         if negb (truthy allowed) then
           let* reason := getProp checkResult "reason" in
           let* result :=
             cacheAndReturn
               (deniedStatus
                  (if strictEqStr reason "device_already_used"
                   then "This device has already used a free trial"
                   else "A trial has already been used from this network")) in
           ret (Some result)
         else ret None
       else ret None)
      (fun _ => ret None)
  else ret None.

(** Lines 340-386, "Server allows trial (or check failed) - try to start". *)
Definition issueTrial : Async JVal :=
  tryCatch
    (let* trialData := startTrial in
     let* trialEndsAt := getProp trialData "trialEndsAt" in
     cacheAndReturn (trialStatus trialEndsAt))
    (fun trialError =>
       let* message := messageOf trialError in
       let isDenied :=
         includes message "already used"
         || includes message "limit exceeded"
         || includes message "upgrade to continue" in
       if isDenied then cacheAndReturn (deniedStatus message)
       else cacheAndReturn (unverifiedStatus message)).

(** Lines 135-401, with the four blocks above in their places. *)
Definition getUnifiedSubscriptionStatus (forceRefresh : bool) : Async JVal :=
  tryCatch
    (let* now := dateNow in
     let* cached := readCache in
     if negb forceRefresh && truthy (fst cached) && (now - snd cached <? CACHE_DURATION)
     then ret (fst cached)
     else
       let* serverStatus := tryCatch _checkServerStatus (fun _ => ret JNull) in
       if truthy (andProp serverStatus "active") then cacheAndReturn serverStatus
       else
         let* deviceToken := getDeviceToken in
         let* restored := restoreTrialFromServer deviceToken in
         match restored with
         | Some result => ret result
         | None =>
             let* localData := _getLocalData in
             let localSubscription := fst localData in
             let localTrial := snd localData in
             if truthy (andProp localSubscription "active") then
               cacheAndReturn localSubscription
             else if truthy localTrial then evaluateLocalTrial localTrial
             else
               let* denied := preCheckTrial deviceToken in
               match denied with
               | Some result => ret result
               | None => issueTrial
               end
         end)
    (fun _ => cacheAndReturn errorStatus).

(** ** canUseExtension *)

(** The object [canUseExtension] returns. *)
Record Permission : Type := {
  canUse : bool;
  reason : string;
  status : JVal
}.

(** [details.includes(needle)] on whatever [status.errorDetails] holds. *)
Definition callIncludes (details : JVal) (needle : string) : Async bool :=
  match details with
  | JStr s => ret (includes s needle)
  | JArr items => ret (existsb (fun x => strictEqStr x needle) items)
  | _ => throw (Error "status.errorDetails.includes is not a function")
  end.

(** [details.includes(n1) || details.includes(n2) || ...]. *)
Fixpoint anyIncludes (details : JVal) (needles : list string) : Async bool :=
  match needles with
  | [] => ret false
  | needle :: rest =>
      let* found := callIncludes details needle in
      if found then ret true else anyIncludes details rest
  end.

(** Lines 523-559. *)
Definition canUseExtension : Async Permission :=
  tryCatch
    (let* status := getUnifiedSubscriptionStatus false in
     let* active := getProp status "active" in
     if truthy active then
       ret {| canUse := true; reason := "subscription"; status := status |}
     else
       let* isTrialing := getProp status "isTrialing" in
       if truthy isTrialing then
         ret {| canUse := true; reason := "trial"; status := status |}
       else
         let* plan := getProp status "plan" in
         let* message := getProp status "message" in
         if strictEqStr plan "error" && strictEqStr message "Error starting trial" then
           let* errorDetails := getProp status "errorDetails" in
           let* isServerDenial :=
             (if truthy errorDetails then
                anyIncludes errorDetails
                  ["already used"; "Too many trials"; "Please upgrade"; "upgrade to continue"]
              else ret false) in
           if isServerDenial then
             ret {| canUse := false; reason := "trial_denied"; status := status |}
           else
             ret {| canUse := true; reason := "trial_fallback"; status := status |}
         else
           ret {| canUse := false; reason := "trial_expired"; status := status |})
    (fun _ => ret {| canUse := false; reason := "error"; status := JNull |}).

(** ** generateCheckoutUrl *)

(** [baseUrl]. *)
Definition checkoutBaseUrl : string :=
  "https://thread-ai.lemonsqueezy.com/buy/2dca2dc4-9d06-4650-9ad3-983dec0c33dd".

(** Lines 639-656.  [plan] is [JUndef] when the caller omits it; the
    default parameter then makes it ['pro-monthly']. *)
Definition generateCheckoutUrl (email plan : JVal) : Async string :=
  let plan := match plan with JUndef => JStr "pro-monthly" | _ => plan end in
  let* deviceToken := getDeviceToken in
  if negb (truthy deviceToken) then throw (Error "No device token available for checkout")
  else
    localRemove [SUBSCRIPTION_KEY] ;;;
    clearStatusCache ;;;
    let* emailText := str email in
    let* encodedEmail := encode emailText in
    let* tokenText := str deviceToken in
    let* encodedToken := encode tokenText in
    ret (checkoutBaseUrl +:+ "?checkout[email]=" +:+ encodedEmail
           +:+ "&checkout[custom][deviceToken]=" +:+ encodedToken).

(** ** The page around the service *)

(** What the remaining methods read from their surroundings:
    [n.toString(36)], the draws [Math.random().toString(36).substring(2, 15)]
    of the one token the constructor may generate, [v + 1] as storage keeps
    it for a stored [v] that is not a safe integer, [navigator.userAgent], and
    [window.location] ([None] where no [window] is defined, as in a service
    worker). *)
Record Page : Type := {
  toBase36 : Z -> string;
  randomDigits : nat -> string;
  plusOne : JVal -> JVal;
  userAgent : JVal;
  windowLocation : option JVal
}.

(** [chrome.storage.sync.get(keys)]. *)
Definition syncGet (keys : list string) : Async (gmap string JVal) := fun env w =>
  match syncFault env (syncOps w) with
  | Some msg =>
      (Throw (Error msg),
       {| localStore := localStore w; syncStore := syncStore w;
          statusCache := statusCache w; cacheTimestamp := cacheTimestamp w;
          clockReads := clockReads w; fetches := fetches w;
          localOps := localOps w; syncOps := S (syncOps w); trace := trace w |})
  | None =>
      (Return (pick keys (syncStore w)),
       {| localStore := localStore w; syncStore := syncStore w;
          statusCache := statusCache w; cacheTimestamp := cacheTimestamp w;
          clockReads := clockReads w; fetches := fetches w;
          localOps := localOps w; syncOps := S (syncOps w); trace := trace w |})
  end.

(** [obj.k = v] on the fields of an object: an existing key keeps its
    place, a new one goes last. *)
Fixpoint setField (k : string) (v : JVal) (fs : list (string * JVal)) : list (string * JVal) :=
  match fs with
  | [] => [(k, v)]
  | (k', v') :: rest =>
      if String.eqb k k' then (k, v) :: rest else (k', v') :: setField k v rest
  end.

(** A [fetch(url)] without options. *)
Definition plainRequest (address : string) : Request :=
  {| url := address; method := None; headers := ∅; reqBody := None |}.

(** ** generateDeviceToken and initializeDeviceToken *)

(** Lines 82-89. *)
Definition generateDeviceToken (page : Page) : Async string :=
  let* now := dateNow in
  let timestamp := toBase36 page now in
  let random1 := randomDigits page 0 in
  let random2 := randomDigits page 1 in
  ret ("device_" +:+ timestamp +:+ "_" +:+ random1 +:+ "_" +:+ random2).

(** Lines 33-75, the promise the constructor keeps in [initPromise]. *)
Definition initializeDeviceToken (page : Page) : Async unit :=
  tryCatch
    (let* local := localGet [DEVICE_TOKEN_KEY] in
     if truthy (item local DEVICE_TOKEN_KEY) then ret tt
     else
       let* syncToken :=
         tryCatch
           (let* sync := syncGet ["persistent_device_token"] in
            ret (item sync "persistent_device_token"))
           (fun _ => ret JNull) in
       let* deviceToken :=
         (if truthy syncToken then ret syncToken
          else
            let* generated := generateDeviceToken page in
            tryCatch
              (let* now := dateNow in
               let* createdAt := host (fun env => toISOString env now) in
               syncSet [("persistent_device_token", JStr generated);
                        ("device_created_at", JStr createdAt)])
              (fun _ => ret tt) ;;;
            ret (JStr generated)) in
       localSet [(DEVICE_TOKEN_KEY, deviceToken)])
    (fun _ => ret tt).

(** ** trackUsage, trackUsageAnalytics and getUsageStats *)

(** [{ count: 0, actions: [] }]. *)
Definition defaultUsage : JVal := JObj [("count", JNum 0); ("actions", JArr [])].

(** The object [JSON.stringify] is given for [POST /analytics]:
    [{...metadata, userAgent, timestamp, url}] under [metadata]. *)
Definition analyticsRequest (page : Page) (deviceToken action : JVal)
    (metadata : list (string * JVal)) (timestamp : string) (pageUrl : JVal) : Request :=
  {| url := WORKER_URL +:+ "/analytics";
     method := Some "POST";
     headers := jsonHeaders;
     reqBody :=
       Some (JObj [("token", deviceToken); ("action", action);
                   ("metadata",
                    JObj (setField "url" pageUrl
                            (setField "timestamp" (JStr timestamp)
                               (setField "userAgent" (userAgent page) metadata))))]) |}.

(** [window.location?.href]. *)
Definition locationHref (page : Page) : Async JVal :=
  match windowLocation page with
  | None => throw (Error "window is not defined")
  | Some location => ret (if nullish location then JUndef else prop location "href")
  end.

(** Lines 594-621; [metadata = {}] is the empty list of fields. *)
Definition trackUsageAnalytics (page : Page) (action : JVal)
    (metadata : list (string * JVal)) : Async unit :=
  tryCatch
    (let* deviceToken := getDeviceToken in
     if negb (truthy deviceToken) then ret tt
     else
       let* now := dateNow in
       let* timestamp := host (fun env => toISOString env now) in
       let* href := locationHref page in
       let pageUrl := if truthy href then href else JStr "extension" in
       let* response :=
         fetch (analyticsRequest page deviceToken action metadata timestamp pageUrl) in
       if ok response then
         let* data := json response in
         getProp data "counter" ;;;
         ret tt
       else ret tt)
    (fun _ => ret tt).

(** [typeof v] of a primitive. *)
Definition typeOf (v : JVal) : string :=
  match v with
  | JBool _ => "boolean"
  | JNum _ => "number"
  | JStr _ => "string"
  | JUndef => "undefined"
  | _ => "object"
  end.

(** [v + 1] on a stored value.  The sum of doubles is the sum of integers
    while [v] is a safe integer, [|v| < 2^53]; past that it is rounded, and
    like the sum with anything that is not a number it is left to the host. *)
Definition addOne (page : Page) (v : JVal) : JVal :=
  match v with
  | JNum n => if Z.abs n <? 2 ^ 53 then JNum (n + 1) else plusOne page v
  | _ => plusOne page v
  end.

(** [usage.count += 1] in strict code.  On an object the field is set; on
    an array the property is set beside the elements, where neither
    [actions] nor storage sees it; a primitive refuses the assignment. *)
Definition incrementCount (page : Page) (usage : JVal) : Async JVal :=
  match usage with
  | JObj fs => ret (JObj (setField "count" (addOne page (field "count" fs)) fs))
  | JArr _ => ret usage
  | _ =>
      let* text := str usage in
      throw (Error ("Cannot create property 'count' on " +:+ typeOf usage +:+ " '" +:+ text +:+ "'"))
  end.

(** [usage.actions.push(entry ())]: the callee is looked up before the
    argument is evaluated, and called after. *)
Definition pushAction (usage : JVal) (entry : Async JVal) : Async (list JVal) :=
  let actions := prop usage "actions" in
  if nullish actions then throw (typeError actions "push")
  else
    let* pushed := entry in
    match actions with
    | JArr items => ret (items ++ [pushed])
    | _ => throw (Error "usage.actions.push is not a function")
    end.

(** [actions.slice(-100)] when [actions.length > 100]. *)
Definition lastHundred (actions : list JVal) : list JVal :=
  if (100 <? List.length actions)%nat then skipn (List.length actions - 100) actions
  else actions.

(** [usage.actions = actions] after the push. *)
Definition withActions (usage : JVal) (actions : list JVal) : JVal :=
  match usage with
  | JObj fs => JObj (setField "actions" (JArr actions) fs)
  | _ => usage
  end.

(** Lines 564-589.  The promise of [trackUsageAnalytics] is not awaited:
    its effects are placed where it is started, after the write. *)
Definition trackUsage (page : Page) (action : JVal) : Async unit :=
  tryCatch
    (let* result := localGet [USAGE_KEY] in
     let stored := item result USAGE_KEY in
     let usage := if truthy stored then stored else defaultUsage in
     let* counted := incrementCount page usage in
     let* actions :=
       pushAction counted
         (let* now := dateNow in
          let* timestamp := host (fun env => toISOString env now) in
          ret (JObj [("action", action); ("timestamp", JStr timestamp)])) in
     localSet [(USAGE_KEY, withActions counted (lastHundred actions))] ;;;
     tryCatch (trackUsageAnalytics page action []) (fun _ => ret tt))
    (fun _ => ret tt).

(** Lines 626-634. *)
Definition getUsageStats : Async JVal :=
  tryCatch
    (let* result := localGet [USAGE_KEY] in
     let stored := item result USAGE_KEY in
     ret (if truthy stored then stored else defaultUsage))
    (fun _ => ret defaultUsage).

(** ** restorePurchase *)

(** The object [JSON.stringify] is given for [POST /link]. *)
Definition linkRequest (deviceToken email : JVal) : Request :=
  {| url := WORKER_URL +:+ "/link";
     method := Some "POST";
     headers := jsonHeaders;
     reqBody := Some (JObj [("token", deviceToken); ("email", email)]) |}.

(** Lines 661-691. *)
Definition restorePurchase (email : JVal) : Async JVal :=
  tryCatch
    (let* emailText := str email in
     let* encoded := encode emailText in
     let* response := fetch (plainRequest (WORKER_URL +:+ "/restore?email=" +:+ encoded)) in
     if negb (ok response) then throw (httpError response)
     else
       let* data := json response in
       let* active := getProp data "active" in
       (if truthy active then
          let* deviceToken := getDeviceToken in
          fetch (linkRequest deviceToken email) ;;;
          localSet [(SUBSCRIPTION_KEY, data)] ;;;
          clearStatusCache
        else ret tt) ;;;
       ret data)
    (fun error => throw error).

(** ** getTrialTimeRemaining *)

(** The object [getTrialTimeRemaining] returns; a number is [None] when it
    is NaN. *)
Record TimeRemaining : Type := {
  total : option Z;
  days : option Z;
  hours : option Z;
  minutes : option Z;
  formatted : string
}.

(** [`${n}`] for an integral number or NaN. *)
Definition numberText (n : option Z) : string :=
  match n with
  | Some z => NilZero.string_of_int (Z.to_int z)
  | None => "NaN"
  end.

(** [n > 0], false on NaN. *)
Definition positive (n : option Z) : bool :=
  match n with
  | Some z => 0 <? z
  | None => false
  end.

(** Lines 711-721: the parts of [remaining] milliseconds, with [%] the
    remainder that takes the sign of the dividend. *)
Definition timeParts (remaining : option Z) : TimeRemaining :=
  let days := option_map (fun r => r / (1000 * 60 * 60 * 24)) remaining in
  let hours :=
    option_map (fun r => Z.rem r (1000 * 60 * 60 * 24) / (1000 * 60 * 60)) remaining in
  let minutes :=
    option_map (fun r => Z.rem r (1000 * 60 * 60) / (1000 * 60)) remaining in
  {| total := remaining;
     days := days;
     hours := hours;
     minutes := minutes;
     formatted :=
       if positive days then numberText days +:+ "d " +:+ numberText hours +:+ "h"
       else if positive hours then numberText hours +:+ "h " +:+ numberText minutes +:+ "m"
       else numberText minutes +:+ "m" |}.

(** Lines 696-728; [None] is [null]. *)
Definition getTrialTimeRemaining : Async (option TimeRemaining) :=
  tryCatch
    (let* status := getUnifiedSubscriptionStatus false in
     let* isTrialing := getProp status "isTrialing" in
     if negb (truthy isTrialing) then ret None
     else
       let* trialEndsAt := getProp status "trialEndsAt" in
       if negb (truthy trialEndsAt) then ret None
       else
         let* now := dateNow in
         let* trialEnd := host (fun env => parseDate env trialEndsAt) in
         let remaining := option_map (fun e => e - now) trialEnd in
         if match remaining with Some r => r <=? 0 | None => false end then ret None
         else ret (Some (timeParts remaining)))
    (fun _ => ret None).

(** ** checkForActivationNotification *)

(** Lines 845-859. *)
Definition checkForActivationNotification : Async JVal :=
  tryCatch
    (let* deviceToken := getDeviceToken in
     if negb (truthy deviceToken) then ret JNull
     else
       let* token := str deviceToken in
       let* response := fetch (plainRequest (WORKER_URL +:+ "/notifications?token=" +:+ token)) in
       if negb (ok response) then ret JNull
       else json response)
    (fun _ => ret JNull).

(** * Specification vocabulary *)

(** ** Worlds after an effect *)

(** The world after [cacheAndReturn]. *)
Definition cached (result : JVal) (env : Env) (w : World) : World :=
  {| localStore := localStore w; syncStore := syncStore w;
     statusCache := result; cacheTimestamp := clock env (clockReads w);
     clockReads := S (clockReads w); fetches := fetches w;
     localOps := localOps w; syncOps := syncOps w; trace := trace w |}.

(** The world after one reading of the clock. *)
Definition ticked (w : World) : World :=
  {| localStore := localStore w; syncStore := syncStore w;
     statusCache := statusCache w; cacheTimestamp := cacheTimestamp w;
     clockReads := S (clockReads w); fetches := fetches w;
     localOps := localOps w; syncOps := syncOps w; trace := trace w |}.

(** The world after one successful call of [chrome.storage.local] that
    leaves the store and the log alone. *)
Definition localRead (w : World) : World :=
  {| localStore := localStore w; syncStore := syncStore w;
     statusCache := statusCache w; cacheTimestamp := cacheTimestamp w;
     clockReads := clockReads w; fetches := fetches w;
     localOps := S (localOps w); syncOps := syncOps w; trace := trace w |}.

(** The world after [n] more fetches that logged [evs]. *)
Definition networked (n : nat) (evs : list Event) (w : World) : World :=
  {| localStore := localStore w; syncStore := syncStore w;
     statusCache := statusCache w; cacheTimestamp := cacheTimestamp w;
     clockReads := clockReads w; fetches := (n + fetches w)%nat;
     localOps := localOps w; syncOps := syncOps w; trace := evs ++ trace w |}.

(** The world with other contents in the two cache fields. *)
Definition withCache (c : JVal) (t : Z) (w : World) : World :=
  {| localStore := localStore w; syncStore := syncStore w;
     statusCache := c; cacheTimestamp := t;
     clockReads := clockReads w; fetches := fetches w;
     localOps := localOps w; syncOps := syncOps w; trace := trace w |}.

(** The cache is consulted: no refresh was forced, a status is cached and
    it is younger than [CACHE_DURATION] at the first reading of the clock. *)
Definition cacheFresh (forceRefresh : bool) (env : Env) (w : World) : bool :=
  negb forceRefresh && truthy (statusCache w)
  && (clock env (clockReads w) - cacheTimestamp w <? CACHE_DURATION).

(** ** The function in parts *)

(** The function past its cache test: the [else] branch of the first [if]
    of [getUnifiedSubscriptionStatus] ([getUnified_miss] below). *)
Definition refreshStatus : Async JVal :=
  let* serverStatus := tryCatch _checkServerStatus (fun _ => ret JNull) in
  if truthy (andProp serverStatus "active") then cacheAndReturn serverStatus
  else
    let* deviceToken := getDeviceToken in
    let* restored := restoreTrialFromServer deviceToken in
    match restored with
    | Some result => ret result
    | None =>
        let* localData := _getLocalData in
        let localSubscription := fst localData in
        let localTrial := snd localData in
        if truthy (andProp localSubscription "active") then
          cacheAndReturn localSubscription
        else if truthy localTrial then evaluateLocalTrial localTrial
        else
          let* denied := preCheckTrial deviceToken in
          match denied with
          | Some result => ret result
          | None => issueTrial
          end
    end.

(** The function past the local data: the rest of [refreshStatus] once
    neither server check nor the local subscription decided
    ([refresh_silent] below). *)
Definition fromLocalTrial (deviceToken localTrial : JVal) : Async JVal :=
  if truthy localTrial then evaluateLocalTrial localTrial
  else
    let* denied := preCheckTrial deviceToken in
    match denied with
    | Some result => ret result
    | None => issueTrial
    end.

(** The status the local trial record evaluates to at time [now]. *)
Definition localTrialStatus (env : Env) (now : Z) (record : JVal) : JVal :=
  let trialEndsAt := prop record "trialEndsAt" in
  match parseDate env trialEndsAt with
  | None => expiredStatus trialEndsAt "Trial expired (corrupted date)"
  | Some trialEnd =>
      if now <? trialEnd then trialStatus trialEndsAt
      else expiredStatus trialEndsAt "Trial expired"
  end.

(** The string [str] returns. *)
Definition strOf (env : Env) (v : JVal) : string :=
  match v with
  | JStr s => s
  | _ => toStr env v
  end.

(** The detail the pre-check attaches to a refusal. *)
Definition refusalDetail (checkResult : JVal) : string :=
  if strictEqStr (prop checkResult "reason") "device_already_used"
  then "This device has already used a free trial"
  else "A trial has already been used from this network".

(** ** Attempts of a worker request *)

(** What one attempt makes of the answer to its fetch: the body of the
    [try] block. *)
Definition attemptOutcome (out : FetchOutcome) : Outcome JVal :=
  match out with
  | NetworkFailure msg => Throw (Error msg)
  | Responded r =>
      if ok r then
        match body r with
        | BodyJson v => Return v
        | BodyInvalid msg => Throw (Error msg)
        end
      else Throw (httpError r)
  end.

(** The three attempts of a request, as a function of the three answers. *)
Definition threeAttempts (req : Request) (o1 o2 o3 : FetchOutcome) (w : World)
    : Outcome JVal * World :=
  match attemptOutcome o1 with
  | Return v => (Return v, networked 1 [EvFetch req o1] w)
  | Throw _ =>
      match attemptOutcome o2 with
      | Return v => (Return v, networked 2 [EvFetch req o2; EvSleep 1000; EvFetch req o1] w)
      | Throw _ =>
          (attemptOutcome o3,
           networked 3 [EvFetch req o3; EvSleep 2000; EvFetch req o2;
                        EvSleep 1000; EvFetch req o1] w)
      end
  end.

(** The fetches of a log, oldest first. *)
Definition attemptsOf (log : list Event) : list (Request * FetchOutcome) :=
  omap (fun e => match e with EvFetch req out => Some (req, out) | _ => None end) (rev log).

(** The waits of a log, oldest first. *)
Definition sleepsOf (log : list Event) : list Z :=
  omap (fun e => match e with EvSleep ms => Some ms | _ => None end) (rev log).

(** An event of the network only: a fetch or a wait. *)
Definition netEvent (e : Event) : Prop :=
  match e with
  | EvFetch _ _ | EvSleep _ => True
  | _ => False
  end.

(** ** Properties of computations *)

(** [m] keeps [I]: whatever the browser does and however [m] ends. *)
Definition keeps {A} (I : World -> Prop) (m : Async A) : Prop :=
  forall env w, I w -> I (snd (m env w)).

(** [m] can only return what satisfies [Q]. *)
Definition yields {A} (Q : A -> World -> Prop) (m : Async A) : Prop :=
  forall env w a w', m env w = (Return a, w') -> Q a w'.

(** The status is an object and sits in the cache. *)
Definition isCached (s : JVal) (w : World) : Prop :=
  statusCache w = s /\ truthy s = true.

(** A JavaScript object, as opposed to a primitive. *)
Definition isObject (v : JVal) : Prop :=
  match v with
  | JObj _ => True
  | _ => False
  end.

(** [Q] of the status a block returned early with, if it did. *)
Definition ifAny (Q : JVal -> World -> Prop) (o : option JVal) (w : World) : Prop :=
  match o with
  | Some s => Q s w
  | None => True
  end.

(** The usage gate cannot take its [trial_fallback] branch on [s]: it is
    an active subscription, or its message is not 'Error starting trial'. *)
Definition gateClosed (s : JVal) : Prop :=
  truthy (prop s "active") = true
  \/ strictEqStr (prop s "message") "Error starting trial" = false.

(** Two worlds that differ at most in the two cache fields. *)
Definition sameButCache (w1 w2 : World) : Prop :=
  localStore w1 = localStore w2
  /\ syncStore w1 = syncStore w2
  /\ clockReads w1 = clockReads w2
  /\ fetches w1 = fetches w2
  /\ localOps w1 = localOps w2
  /\ syncOps w1 = syncOps w2
  /\ trace w1 = trace w2.

(** [m] neither reads the cache fields nor lets them leak into anything
    else: on worlds equal but for the cache it ends alike. *)
Definition cacheBlind {A} (m : Async A) : Prop :=
  forall env w1 w2, sameButCache w1 w2 ->
    fst (m env w1) = fst (m env w2)
    /\ sameButCache (snd (m env w1)) (snd (m env w2)).

(** ** Writes of the trial record *)

(** The value [items] gives to key [k], as [chrome.storage.local.set] will
    store it. *)
Fixpoint assoc (k : string) (items : list (string * JVal)) : option JVal :=
  match items with
  | [] => None
  | (k', v) :: rest => if String.eqb k k' then Some v else assoc k rest
  end.

(** The trial record an event writes to [chrome.storage.local], if any. *)
Definition trialWritten (e : Event) : option JVal :=
  match e with
  | EvLocalSet items => assoc TRIAL_KEY items
  | _ => None
  end.

(** The device token a request carries in its JSON body. *)
Definition requestToken (req : Request) : JVal :=
  match reqBody req with
  | Some document => prop document "deviceToken"
  | None => JUndef
  end.

(** [e] is a 2xx answer of [endpoint], asked for [token], whose JSON body
    has a truthy [flag]. *)
Definition confirms (endpoint flag : string) (token : JVal) (e : Event) : Prop :=
  exists req r v,
    e = EvFetch req (Responded r)
    /\ url req = WORKER_URL +:+ endpoint
    /\ requestToken req = token
    /\ ok r = true
    /\ body r = BodyJson v
    /\ truthy (prop v flag) = true.

(** A restored record needs a [/trial/status] answer with [hasTrial], a new
    one a [/trial/register] answer with [success], for its device token,
    among the [earlier] events. *)
Definition approved (record : JVal) (earlier : list Event) : Prop :=
  if truthy (prop record "restoredFromServer")
  then exists e, e ∈ earlier /\ confirms "/trial/status" "hasTrial" (prop record "deviceToken") e
  else exists e, e ∈ earlier /\ confirms "/trial/register" "success" (prop record "deviceToken") e.

(** Every write of the trial key in the log (newest first) is approved by
    what was logged before it. *)
Fixpoint Justified (log : list Event) : Prop :=
  match log with
  | [] => True
  | e :: earlier =>
      match trialWritten e with
      | Some record => approved record earlier
      | None => True
      end /\ Justified earlier
  end.

(** The invariant of C1, on worlds. *)
Definition justified (w : World) : Prop := Justified (trace w).

(** An event that writes no trial record. *)
Definition quiet (e : Event) : Prop := trialWritten e = None.

(** The trial record written last in a log (newest first), if any. *)
Fixpoint latestTrialWrite (log : list Event) : option JVal :=
  match log with
  | [] => None
  | e :: earlier =>
      match trialWritten e with
      | Some record => Some record
      | None => latestTrialWrite earlier
      end
  end.

(** The log tells what local storage holds under the trial key: since
    [base] was logged over the store [store0], the key holds what the last
    logged write put there, or what [store0] held if none was logged. *)
Definition logged (store0 : gmap string JVal) (base : list Event) (w : World) : Prop :=
  exists evs,
    trace w = evs ++ base
    /\ localStore w !! TRIAL_KEY
       = match latestTrialWrite evs with
         | Some record => Some record
         | None => store0 !! TRIAL_KEY
         end.

(** The trial record stored in [w'] was already stored in [w], or an event
    logged in [w'] wrote it with the approval of the events before it. *)
Definition storedTrialApproved (w w' : World) : Prop :=
  forall record,
    localStore w' !! TRIAL_KEY = Some record ->
    localStore w !! TRIAL_KEY = Some record
    \/ exists newer e earlier,
         trace w' = newer ++ e :: earlier
         /\ trialWritten e = Some record
         /\ approved record earlier.

(** ** Servers, storage and devices *)

(** An answer that carries neither an active subscription nor a trial. *)
Definition reportsNothing (out : FetchOutcome) : Prop :=
  forall r v, out = Responded r -> ok r = true -> body r = BodyJson v ->
    truthy (andProp v "active") = false /\ truthy (prop v "hasTrial") = false.

(** The server is unreachable, fails, or knows neither a subscription nor a
    trial. *)
Definition RemoteSilent (env : Env) : Prop :=
  forall k req, reportsNothing (network env k req).

(** No call of [chrome.storage.local] rejects. *)
Definition StorageWorks (env : Env) : Prop :=
  forall k, localFault env k = None.

(** [!(v && v.active)]. *)
Definition inactive (v : JVal) : Prop := truthy (andProp v "active") = false.

(** A request that asks for, or registers, a new trial. *)
Definition trialAttempt (e : Event) : Prop :=
  match e with
  | EvFetch req _ =>
      url req = WORKER_URL +:+ "/trial/check" \/ url req = WORKER_URL +:+ "/trial/register"
  | _ => False
  end.

(** An event that neither writes a trial record nor asks for a trial. *)
Definition calm (e : Event) : Prop := quiet e /\ ~ trialAttempt e.

(** What the two remote checks leave alone on their way to the local data. *)
Definition settled (w w' : World) : Prop :=
  localStore w' !! DEVICE_TOKEN_KEY = localStore w !! DEVICE_TOKEN_KEY
  /\ localStore w' !! TRIAL_KEY = localStore w !! TRIAL_KEY
  /\ (inactive (item (localStore w) SUBSCRIPTION_KEY) ->
      inactive (item (localStore w') SUBSCRIPTION_KEY))
  /\ clockReads w' = clockReads w
  /\ exists evs, trace w' = evs ++ trace w /\ Forall calm evs.

(** A trial record is in local storage, and nothing logged since [base]
    asks the server for a new trial. *)
Definition trialKept (base : list Event) (w : World) : Prop :=
  truthy (item (localStore w) TRIAL_KEY) = true
  /\ exists evs, trace w = evs ++ base /\ Forall (fun e => ~ trialAttempt e) evs.

(** Every [/trial/check] for [deviceToken] is answered 2xx with the JSON
    object [checkResult], whose [allowed] is falsy. *)
Definition Refuses (env : Env) (deviceToken checkResult : JVal) : Prop :=
  nullish checkResult = false
  /\ truthy (prop checkResult "allowed") = false
  /\ exists r,
       ok r = true /\ body r = BodyJson checkResult
       /\ forall k, network env k (trialCheckRequest deviceToken) = Responded r.

(** A device that has a token, no trial record and no active subscription
    in local storage. *)
Definition trialless (deviceToken : JVal) (w : World) : Prop :=
  localStore w !! DEVICE_TOKEN_KEY = Some deviceToken
  /\ truthy deviceToken = true
  /\ truthy (item (localStore w) TRIAL_KEY) = false
  /\ inactive (item (localStore w) SUBSCRIPTION_KEY).

(** Every fetch fails in transport with [msg]. *)
Definition NetworkDown (env : Env) (msg : string) : Prop :=
  forall k req, network env k req = NetworkFailure msg.

(** [msg] has none of the markers [issueTrial] reads as a refusal. *)
Definition notDenial (msg : string) : Prop :=
  includes msg "already used" = false
  /\ includes msg "limit exceeded" = false
  /\ includes msg "upgrade to continue" = false.

(** ** Scenarios *)

(** A browser with working storage, dates as decimal milliseconds and
    identity URI encoding, over a given clock and network. *)
Definition browser (time : nat -> Z) (net : nat -> Request -> FetchOutcome) : Env :=
  {| clock := time;
     network := net;
     localFault := fun _ => None;
     syncFault := fun _ => None;
     parseDate := fun v =>
       match v with
       | JNum n => Some n
       | JStr s => option_map Z.of_int (NilZero.int_of_string s)
       | _ => None
       end;
     toISOString := fun t => NilZero.string_of_int (Z.to_int t);
     addDays := fun t days => t + days * 86400000;
     toLocaleDateString := fun _ => "1/1/2026";
     toStr := fun _ => "[object Object]";
     encodeURIComponent := fun s => Some s |}.

(** The service right after construction, over a given local store. *)
Definition installed (store : gmap string JVal) : World :=
  {| localStore := store; syncStore := ∅; statusCache := JNull; cacheTimestamp := 0;
     clockReads := 0; fetches := 0; localOps := 0; syncOps := 0; trace := [] |}.

(** A 200 answer with JSON body [v]. *)
Definition answer (v : JVal) : FetchOutcome :=
  Responded {| httpStatus := 200; statusText := "OK"; body := BodyJson v |}.

(** One millisecond per reading, starting at [t0]. *)
Definition ticking (t0 : Z) : nat -> Z := fun k => t0 + Z.of_nat k.

(** Local storage that holds a device token and nothing else. *)
Definition newDevice : gmap string JVal := {[ DEVICE_TOKEN_KEY := JStr "device_1" ]}.

(** No network at all. *)
Definition offline : nat -> Request -> FetchOutcome :=
  fun _ _ => NetworkFailure "Failed to fetch".

(** A server that knows nothing of the device and grants it a trial. *)
Definition granting : nat -> Request -> FetchOutcome := fun _ req =>
  if String.eqb (url req) (WORKER_URL +:+ "/trial/check") then
    answer (JObj [("allowed", JBool true)])
  else if String.eqb (url req) (WORKER_URL +:+ "/trial/register") then
    answer (JObj [("success", JBool true)])
  else if String.eqb (url req) (WORKER_URL +:+ "/trial/status") then
    answer (JObj [("hasTrial", JBool false)])
  else answer (JObj [("active", JBool false)]).

(** A server that refuses a trial to a device that already had one. *)
Definition refusing : nat -> Request -> FetchOutcome := fun _ req =>
  if String.eqb (url req) (WORKER_URL +:+ "/trial/check") then
    answer (JObj [("allowed", JBool false); ("reason", JStr "device_already_used")])
  else if String.eqb (url req) (WORKER_URL +:+ "/trial/status") then
    answer (JObj [("hasTrial", JBool false)])
  else answer (JObj [("active", JBool false)]).

(** A server with a paid subscription for the device. *)
Definition subscribed : nat -> Request -> FetchOutcome := fun _ _ =>
  answer (JObj [("active", JBool true); ("plan", JStr "pro-monthly")]).

(** A trial record ending at [trialEndsAt]. *)
Definition trialRecord (trialEndsAt : JVal) : JVal :=
  JObj [("deviceToken", JStr "device_1"); ("trialEndsAt", trialEndsAt);
        ("isTrialing", JBool true); ("serverVerified", JBool true)].

(** Local storage of a device that holds that record. *)
Definition trialDevice (trialEndsAt : JVal) : gmap string JVal :=
  <[ TRIAL_KEY := trialRecord trialEndsAt ]> newDevice.

(** The four servers behind a clock that starts at 1000 ms. *)
Definition offlineBrowser : Env := browser (ticking 1000) offline.

Definition grantingBrowser : Env := browser (ticking 1000) granting.

Definition refusingBrowser : Env := browser (ticking 1000) refusing.

Definition subscribedBrowser : Env := browser (ticking 1000) subscribed.

(** A brand-new user; a user whose trial record is corrupt; a user whose
    trial ends at 1001 ms, the second reading of the clock. *)
Definition newInstall : World := installed newDevice.

Definition corruptTrialInstall : World := installed (trialDevice (JStr "not a date")).

Definition endingTrialInstall : World := installed (trialDevice (JNum 1001)).

(** The answer of [subscribed]. *)
Definition proMonthly : JVal := JObj [("active", JBool true); ("plan", JStr "pro-monthly")].

(** The pre-check answer of [refusing]. *)
Definition alreadyUsed : JVal :=
  JObj [("allowed", JBool false); ("reason", JStr "device_already_used")].

(** Options whose headers override the content type. *)
Definition plainTextOptions : Options :=
  {| optMethod := None; optHeaders := {[ "Content-Type" := "text/plain" ]}; optBody := None |}.

(** ** Worlds after a storage call *)

(** The world after a successful [chrome.storage.local.set(items)]. *)
Definition localWritten (items : list (string * JVal)) (w : World) : World :=
  {| localStore := setItems items (localStore w); syncStore := syncStore w;
     statusCache := statusCache w; cacheTimestamp := cacheTimestamp w;
     clockReads := clockReads w; fetches := fetches w;
     localOps := S (localOps w); syncOps := syncOps w;
     trace := EvLocalSet items :: trace w |}.

(** The world after one call of [chrome.storage.sync] that leaves the store
    and the log alone. *)
Definition syncRead (w : World) : World :=
  {| localStore := localStore w; syncStore := syncStore w;
     statusCache := statusCache w; cacheTimestamp := cacheTimestamp w;
     clockReads := clockReads w; fetches := fetches w;
     localOps := localOps w; syncOps := S (syncOps w); trace := trace w |}.

(** The world after a successful [chrome.storage.sync.set(items)]. *)
Definition syncWritten (items : list (string * JVal)) (w : World) : World :=
  {| localStore := localStore w; syncStore := setItems items (syncStore w);
     statusCache := statusCache w; cacheTimestamp := cacheTimestamp w;
     clockReads := clockReads w; fetches := fetches w;
     localOps := localOps w; syncOps := S (syncOps w);
     trace := EvSyncSet items :: trace w |}.

(** The token [generateDeviceToken] makes at time [now]. *)
Definition generatedToken (page : Page) (now : Z) : string :=
  "device_" +:+ toBase36 page now +:+ "_" +:+ randomDigits page 0 +:+ "_" +:+ randomDigits page 1.

(** Extension storage after the extension was removed and installed again:
    [chrome.storage.local] is empty, [chrome.storage.sync] is kept, and the
    new service instance starts with an empty cache. *)
Definition reinstalled (w : World) : World :=
  {| localStore := ∅; syncStore := syncStore w;
     statusCache := JNull; cacheTimestamp := 0;
     clockReads := clockReads w; fetches := fetches w;
     localOps := localOps w; syncOps := syncOps w; trace := trace w |}.

(** No call of [chrome.storage.sync] rejects. *)
Definition SyncWorks (env : Env) : Prop :=
  forall k, syncFault env k = None.

(** ** The usage ledger *)

(** Storage and the status cache of [w'] are those of [w]. *)
Definition sameState (w w' : World) : Prop :=
  localStore w' = localStore w
  /\ syncStore w' = syncStore w
  /\ statusCache w' = statusCache w
  /\ cacheTimestamp w' = cacheTimestamp w.

(** The ledger [trackUsage] and [getUsageStats] start from: the stored
    value, or the default when none is stored. *)
Definition usageOf (store : gmap string JVal) : JVal :=
  if truthy (item store USAGE_KEY) then item store USAGE_KEY else defaultUsage.

(** The entry [trackUsage] pushes. *)
Definition usageEntry (action : JVal) (timestamp : string) : JVal :=
  JObj [("action", action); ("timestamp", JStr timestamp)].

(** The stored ledger, if its [actions] is an array, has at most 100
    entries. *)
Definition ledgerBounded (w : World) : Prop :=
  forall items,
    prop (item (localStore w) USAGE_KEY) "actions" = JArr items ->
    (List.length items <= 100)%nat.

(** The ledger [trackUsage] writes over the fields [fs] with the actions
    [items], for a call at time [now]. *)
Definition ledgerAfter (page : Page) (env : Env) (action : JVal) (now : Z)
    (fs : list (string * JVal)) (items : list JVal) : JVal :=
  JObj (setField "actions"
          (JArr (lastHundred (items ++ [usageEntry action (toISOString env now)])))
          (setField "count" (addOne page (field "count" fs)) fs)).

(** A request to the analytics endpoint. *)
Definition analyticsEvent (e : Event) : Prop :=
  match e with
  | EvFetch req _ => url req = WORKER_URL +:+ "/analytics"
  | _ => False
  end.

(** ** Restoring a purchase *)

(** The request [restorePurchase] starts with, for an encoded e-mail. *)
Definition restoreRequest (encoded : string) : Request :=
  plainRequest (WORKER_URL +:+ "/restore?email=" +:+ encoded).

(** What [getDeviceToken] returns in [w]. *)
Definition tokenOf (env : Env) (w : World) : JVal :=
  match localFault env (localOps w) with
  | Some _ => JNull
  | None => item (localStore w) DEVICE_TOKEN_KEY
  end.

(** The world after [clearStatusCache]. *)
Definition cacheCleared (w : World) : World := withCache JNull 0 w.

(** From the [n]-th fetch on, every fetch fails in transport. *)
Definition NetworkDownSince (env : Env) (n : nat) : Prop :=
  forall k req, (n <= k)%nat -> exists msg, network env k req = NetworkFailure msg.

(** Since [w], storage and the cache are unchanged and only fetches and
    waits were logged. *)
Definition networkOnly (w w' : World) : Prop :=
  sameState w w'
  /\ (fetches w <= fetches w')%nat
  /\ exists evs, trace w' = evs ++ trace w /\ Forall netEvent evs.

(** ** Time left in a trial *)

(** What [getTrialTimeRemaining] answers for a trial that ends at
    [trialEndsAt], read at time [now]. *)
Definition remainingAt (env : Env) (trialEndsAt : JVal) (now : Z) : option TimeRemaining :=
  match parseDate env trialEndsAt with
  | Some trialEnd =>
      if trialEnd - now <=? 0 then None else Some (timeParts (Some (trialEnd - now)))
  | None => Some (timeParts None)
  end.

(** ** A trial that was issued *)

(** The record [startTrial] stores and returns when called in [w]: the
    trial ends [TRIAL_DURATION_DAYS] days after the first reading of the
    clock and starts at the second. *)
Definition issuedTrial (env : Env) (w : World) : JVal :=
  JObj [("deviceToken", tokenOf env w);
        ("trialEndsAt",
         JStr (toISOString env (addDays env (clock env (clockReads w)) TRIAL_DURATION_DAYS)));
        ("startedAt", JStr (toISOString env (clock env (S (clockReads w)))));
        ("isTrialing", JBool true);
        ("serverVerified", JBool true)].

(** The flag stored beside it. *)
Definition usedFlag (env : Env) (w : World) : JVal :=
  JObj [("used", JBool true);
        ("firstUsedAt", JStr (toISOString env (clock env (S (S (clockReads w))))));
        ("deviceToken", tokenOf env w)].

(** ** Keys of local storage *)

(** Local storage holds [v] under [key] ([None]: nothing). *)
Definition keyHolds (key : string) (v : option JVal) (w : World) : Prop :=
  localStore w !! key = v.

(** The [/check] request for the device token of [w]. *)
Definition checkRequest (env : Env) (w : World) : Request :=
  workerRequest ("/check?token=" +:+ strOf env (item (localStore w) DEVICE_TOKEN_KEY)) noOptions.

(** [data] is the JSON body of a 2xx answer to [req]. *)
Definition answered (env : Env) (req : Request) (data : JVal) : Prop :=
  exists k r, network env k req = Responded r /\ ok r = true /\ body r = BodyJson data.

(** ** More scenarios *)

(** The popup page and the service worker: decimal digits stand for base
    36, and the two random draws are fixed. *)
Definition popupPage : Page :=
  {| toBase36 := fun n => NilZero.string_of_int (Z.to_int n);
     randomDigits := fun k => if Nat.eqb k 0 then "k3j9x2m1" else "q8w1z7p4";
     plusOne := fun _ => JNull;
     userAgent := JStr "Mozilla/5.0";
     windowLocation := Some (JObj [("href", JStr "chrome-extension://threadai/popup.html")]) |}.

Definition workerPage : Page :=
  {| toBase36 := fun n => NilZero.string_of_int (Z.to_int n);
     randomDigits := fun k => if Nat.eqb k 0 then "k3j9x2m1" else "q8w1z7p4";
     plusOne := fun _ => JNull;
     userAgent := JStr "Mozilla/5.0";
     windowLocation := None |}.

(** A first install: both storage areas are empty. *)
Definition firstInstall : World := installed ∅.

(** A reinstall: local storage is empty, sync storage kept the token. *)
Definition syncedInstall : World :=
  {| localStore := ∅; syncStore := {[ "persistent_device_token" := JStr "device_1" ]};
     statusCache := JNull; cacheTimestamp := 0;
     clockReads := 0; fetches := 0; localOps := 0; syncOps := 0; trace := [] |}.

(** A ledger of two actions. *)
Definition twoActions : list JVal :=
  [usageEntry (JStr "summarization") "10"; usageEntry (JStr "summarization") "20"].

Definition twoActionsLedger : list (string * JVal) :=
  [("count", JNum 2); ("actions", JArr twoActions)].

Definition usedInstall : World := installed (<[ USAGE_KEY := JObj twoActionsLedger ]> newDevice).

(** A server that answers the first two requests with a paid subscription
    and is unreachable afterwards; one that answers the first only. *)
Definition restoring : nat -> Request -> FetchOutcome := fun k _ =>
  if (k <? 2)%nat then answer proMonthly else NetworkFailure "Failed to fetch".

Definition restoringOnce : nat -> Request -> FetchOutcome := fun k _ =>
  if (k <? 1)%nat then answer proMonthly else NetworkFailure "Failed to fetch".

Definition restoringBrowser : Env := browser (ticking 1000) restoring.

Definition restoringOnceBrowser : Env := browser (ticking 1000) restoringOnce.

(** The e-mail of the purchase. *)
Definition buyer : JVal := JStr "user@example.com".

(** A device that kept a paid subscription in local storage. *)
Definition subscriberInstall : World := installed (<[ SUBSCRIPTION_KEY := proMonthly ]> newDevice).

(** A device whose trial ends at 200000000 ms, a little over two days
    after the clock starts. *)
Definition longTrialInstall : World := installed (trialDevice (JNum 200000000)).

(** A cached status that claims a trial without a readable end. *)
Definition undatedTrial : JVal :=
  JObj [("active", JBool true); ("isTrialing", JBool true); ("trialEndsAt", JStr "soon")].

Definition undatedTrialCached : World := withCache undatedTrial 1000 newInstall.

(** * Verification *)

(** ** Running computations *)

Lemma bind_run {A B} (m : Async A) (f : A -> Async B) env w :
  bind m f env w =
  match m env w with
  | (Return a, w1) => f a env w1
  | (Throw e, w1) => (Throw e, w1)
  end.
Proof. reflexivity. Qed.

Lemma tryCatch_run {A} (m : Async A) (h : Exn -> Async A) env w :
  tryCatch m h env w =
  match m env w with
  | (Return a, w1) => (Return a, w1)
  | (Throw e, w1) => h e env w1
  end.
Proof. reflexivity. Qed.

Lemma cacheAndReturn_run result env w :
  cacheAndReturn result env w = (Return result, cached result env w).
Proof. reflexivity. Qed.

Lemma dateNow_run env w : dateNow env w = (Return (clock env (clockReads w)), ticked w).
Proof. reflexivity. Qed.

(** The function with its cache test resolved. *)
Lemma getUnified_hit env w :
  cacheFresh false env w = true ->
  getUnifiedSubscriptionStatus false env w = (Return (statusCache w), ticked w).
Proof.
  intros H. unfold cacheFresh in H.
  unfold getUnifiedSubscriptionStatus.
  rewrite tryCatch_run, bind_run, dateNow_run, bind_run.
  cbn [readCache ticked statusCache cacheTimestamp fst snd].
  rewrite H. reflexivity.
Qed.

(** ** makeWorkerRequest, unrolled *)

Lemma attempt_run req env w :
  bind (fetch req)
    (fun response => if negb (ok response) then throw (httpError response) else json response)
    env w
  = (attemptOutcome (network env (fetches w) req),
     networked 1 [EvFetch req (network env (fetches w) req)] w).
Proof.
  rewrite bind_run. unfold fetch, attemptOutcome, networked, json.
  destruct (network env (fetches w) req) as [msg | r]; cbn; [reflexivity |].
  destruct (ok r); cbn; [| reflexivity].
  destruct (body r); reflexivity.
Qed.

Lemma makeWorkerRequest_unrolled endpoint options env w :
  makeWorkerRequest endpoint options env w =
  let req := workerRequest endpoint options in
  threeAttempts req
    (network env (fetches w) req)
    (network env (S (fetches w)) req)
    (network env (S (S (fetches w))) req) w.
Proof.
  unfold makeWorkerRequest, maxRetries, threeAttempts.
  cbn [retryLoop Nat.leb Nat.ltb maxRetries].
  change (2 ^ (Z.of_nat 1 - 1) * 1000) with 1000.
  change (2 ^ (Z.of_nat 2 - 1) * 1000) with 2000.
  set (req := workerRequest endpoint options). cbv zeta.
  rewrite tryCatch_run, attempt_run.
  destruct (attemptOutcome (network env (fetches w) req)) as [v | e1]; [reflexivity |].
  rewrite bind_run. cbn [sleep networked fetches trace app Nat.add].
  rewrite tryCatch_run, attempt_run. cbn [networked fetches trace app Nat.add].
  destruct (attemptOutcome (network env (S (fetches w)) req)) as [v | e2]; [reflexivity |].
  rewrite bind_run. cbn [sleep networked fetches trace app Nat.add].
  rewrite tryCatch_run, attempt_run. cbn [networked fetches trace app Nat.add].
  destruct (attemptOutcome (network env (S (S (fetches w))) req)) as [v | e3]; reflexivity.
Qed.

(** ** Invariants of the world *)

Section Keeps.
Context (I : World -> Prop).

Lemma keeps_ret {A} (a : A) : keeps I (ret a).
Proof. intros env w H. exact H. Qed.

Lemma keeps_throw {A} (e : Exn) : keeps I (@throw A e).
Proof. intros env w H. exact H. Qed.

Lemma keeps_host {A} (f : Env -> A) : keeps I (host f).
Proof. intros env w H. exact H. Qed.

Lemma keeps_bind {A B} (m : Async A) (f : A -> Async B) :
  keeps I m -> (forall a, keeps I (f a)) -> keeps I (bind m f).
Proof.
  intros Hm Hf env w H. rewrite bind_run.
  specialize (Hm env w H).
  destruct (m env w) as [[a | e] w1]; cbn in *; [apply Hf |]; assumption.
Qed.

Lemma keeps_tryCatch {A} (m : Async A) (h : Exn -> Async A) :
  keeps I m -> (forall e, keeps I (h e)) -> keeps I (tryCatch m h).
Proof.
  intros Hm Hh env w H. rewrite tryCatch_run.
  specialize (Hm env w H).
  destruct (m env w) as [[a | e] w1]; cbn in *; [| apply Hh]; assumption.
Qed.

Lemma keeps_json r : keeps I (json r).
Proof. unfold json. destruct (body r); [apply keeps_ret | apply keeps_throw]. Qed.

Lemma keeps_getProp v k : keeps I (getProp v k).
Proof. unfold getProp. destruct (nullish v); [apply keeps_throw | apply keeps_ret]. Qed.

Lemma keeps_messageOf e : keeps I (messageOf e).
Proof. destruct e; [apply keeps_ret | apply keeps_throw]. Qed.

Lemma keeps_str v : keeps I (str v).
Proof. destruct v; first [apply keeps_ret | apply keeps_host]. Qed.
End Keeps.

(** ** Writes of the trial record stay justified *)

Lemma Justified_quiet evs log : Forall quiet evs -> Justified log -> Justified (evs ++ log).
Proof.
  induction 1 as [| e evs He _ IH]; intros Hlog; cbn; [exact Hlog |].
  rewrite He. split; [exact Logic.I | apply IH, Hlog].
Qed.

Lemma justified_networked n evs w :
  Forall quiet evs -> justified w -> justified (networked n evs w).
Proof. intros Hq Hw. unfold justified. cbn. apply Justified_quiet; assumption. Qed.

Lemma keeps_justified_dateNow : keeps justified dateNow.
Proof. intros env w H. exact H. Qed.

Lemma keeps_justified_setStatusCache v : keeps justified (setStatusCache v).
Proof. intros env w H. exact H. Qed.

Lemma keeps_justified_setCacheTimestamp t : keeps justified (setCacheTimestamp t).
Proof. intros env w H. exact H. Qed.

Lemma keeps_justified_readCache : keeps justified readCache.
Proof. intros env w H. exact H. Qed.

Lemma keeps_justified_fetch req : keeps justified (fetch req).
Proof.
  intros env w H. unfold fetch.
  destruct (network env (fetches w) req); cbn; (split; [exact Logic.I | exact H]).
Qed.

Lemma keeps_justified_sleep ms : keeps justified (sleep ms).
Proof. intros env w H. split; [exact Logic.I | exact H]. Qed.

Lemma keeps_justified_localCall {A} upd evs (result : gmap string JVal -> A) :
  Forall quiet evs -> keeps justified (localCall upd evs result).
Proof.
  intros Hq env w H. unfold localCall.
  destruct (localFault env (localOps w)); cbn; [exact H |].
  apply Justified_quiet; assumption.
Qed.

Lemma keeps_justified_localGet keys : keeps justified (localGet keys).
Proof. apply keeps_justified_localCall. constructor. Qed.

Lemma keeps_justified_localSet items :
  assoc TRIAL_KEY items = None -> keeps justified (localSet items).
Proof.
  intros H. apply keeps_justified_localCall. repeat constructor. exact H.
Qed.

Lemma keeps_justified_localRemove keys : keeps justified (localRemove keys).
Proof. apply keeps_justified_localCall. repeat constructor. Qed.

Lemma keeps_justified_syncSet items : keeps justified (syncSet items).
Proof.
  intros env w H. unfold syncSet.
  destruct (syncFault env (syncOps w)); cbn; [exact H |].
  split; [exact Logic.I | exact H].
Qed.

Create HintDb keeps.
#[local] Hint Resolve keeps_ret keeps_throw keeps_host keeps_json keeps_getProp
  keeps_messageOf keeps_str keeps_justified_dateNow keeps_justified_setStatusCache
  keeps_justified_setCacheTimestamp keeps_justified_readCache keeps_justified_fetch
  keeps_justified_sleep keeps_justified_localGet keeps_justified_localRemove
  keeps_justified_syncSet : keeps.

(** Walk down a computation, closing every step the hints know. *)
Ltac keeps_step :=
  lazymatch goal with
  | |- keeps _ (bind _ _) => apply keeps_bind; [| intros ?]
  | |- keeps _ (tryCatch _ _) => apply keeps_tryCatch; [| intros ?]
  | |- keeps _ (if ?b then _ else _) => destruct b eqn:?
  | |- keeps _ (match ?x with Some _ => _ | None => _ end) => destruct x eqn:?
  | |- keeps _ _ => solve [auto with keeps]
  end.

Lemma netEvent_quiet e : netEvent e -> quiet e.
Proof. destruct e; cbn; intros H; (reflexivity || contradiction). Qed.

Lemma attemptOutcome_Return out v :
  attemptOutcome out = Return v ->
  exists r, out = Responded r /\ ok r = true /\ body r = BodyJson v.
Proof.
  unfold attemptOutcome. destruct out as [msg | r]; [discriminate |].
  destruct (ok r) eqn:Hok; [| discriminate].
  destruct (body r) eqn:Hbody; [| discriminate].
  intros [= ->]. eauto.
Qed.

(** What a caller may rely on: the request only talks to the network, and a
    returned value is the JSON body of the 2xx answer logged last. *)
Lemma makeWorkerRequest_inv endpoint options env w res w' :
  makeWorkerRequest endpoint options env w = (res, w') ->
  exists n evs,
    w' = networked n evs w
    /\ Forall netEvent evs
    /\ forall v, res = Return v ->
         exists k r rest,
           evs = EvFetch (workerRequest endpoint options) (Responded r) :: rest
           /\ network env k (workerRequest endpoint options) = Responded r
           /\ ok r = true
           /\ body r = BodyJson v.
Proof.
  rewrite makeWorkerRequest_unrolled. cbv zeta. unfold threeAttempts.
  set (req := workerRequest endpoint options).
  destruct (attemptOutcome (network env (fetches w) req)) as [v1 | e1] eqn:H1.
  { intros [= <- <-]. eexists _, _. split; [reflexivity |]. split; [repeat constructor |].
    intros v [= <-]. apply attemptOutcome_Return in H1 as (r & Hr & Hok & Hb).
    exists (fetches w), r, []. rewrite Hr. auto. }
  destruct (attemptOutcome (network env (S (fetches w)) req)) as [v2 | e2] eqn:H2.
  { intros [= <- <-]. eexists _, _. split; [reflexivity |]. split; [repeat constructor |].
    intros v [= <-]. apply attemptOutcome_Return in H2 as (r & Hr & Hok & Hb).
    exists (S (fetches w)), r. eexists. rewrite Hr. auto. }
  intros [= <- <-]. eexists _, _. split; [reflexivity |]. split; [repeat constructor |].
  intros v H3. apply attemptOutcome_Return in H3 as (r & Hr & Hok & Hb).
  exists (S (S (fetches w))), r. eexists. rewrite Hr. auto.
Qed.

Lemma keeps_justified_makeWorkerRequest endpoint options :
  keeps justified (makeWorkerRequest endpoint options).
Proof.
  intros env w H.
  destruct (makeWorkerRequest endpoint options env w) as [res w'] eqn:E.
  apply makeWorkerRequest_inv in E as (n & evs & -> & Hnet & _).
  apply justified_networked; [| exact H].
  eapply Forall_impl; [exact Hnet | apply netEvent_quiet].
Qed.

Lemma keeps_justified_cacheAndReturn result : keeps justified (cacheAndReturn result).
Proof. intros env w H. exact H. Qed.

Lemma keeps_justified_getDeviceToken : keeps justified getDeviceToken.
Proof. unfold getDeviceToken. repeat keeps_step. Qed.

#[local] Hint Resolve keeps_justified_makeWorkerRequest keeps_justified_cacheAndReturn
  keeps_justified_getDeviceToken : keeps.

Lemma keeps_justified_checkServerStatus : keeps justified _checkServerStatus.
Proof.
  unfold _checkServerStatus. repeat keeps_step.
  apply keeps_justified_localSet. reflexivity.
Qed.

Lemma keeps_justified_getLocalData : keeps justified _getLocalData.
Proof. unfold _getLocalData. repeat keeps_step. Qed.

Lemma keeps_justified_evaluateLocalTrial localTrial :
  keeps justified (evaluateLocalTrial localTrial).
Proof. unfold evaluateLocalTrial. repeat keeps_step. Qed.

Lemma keeps_justified_preCheckTrial deviceToken :
  keeps justified (preCheckTrial deviceToken).
Proof. unfold preCheckTrial. repeat keeps_step. Qed.

#[local] Hint Resolve keeps_justified_checkServerStatus keeps_justified_getLocalData
  keeps_justified_evaluateLocalTrial keeps_justified_preCheckTrial : keeps.

(** Stepping through a [bind] when the invariant needs the result of the
    first computation. *)
Lemma justified_bind {A B} (m : Async A) (f : A -> Async B) env w :
  (forall e w1, m env w = (Throw e, w1) -> justified w1) ->
  (forall a w1, m env w = (Return a, w1) -> justified (snd (f a env w1))) ->
  justified (snd (bind m f env w)).
Proof.
  intros Ht Hr. rewrite bind_run.
  destruct (m env w) as [[a | e] w1]; cbn [snd]; [eapply Hr | eapply Ht]; reflexivity.
Qed.

Lemma getProp_inv v k env w res w' :
  getProp v k env w = (res, w') ->
  w' = w /\ (res = Return (prop v k) /\ nullish v = false
             \/ res = Throw (typeError v k) /\ nullish v = true).
Proof.
  unfold getProp. destruct (nullish v); intros [= <- <-]; auto.
Qed.

Lemma localSet_inv items env w res w' :
  localSet items env w = (res, w') ->
  (exists msg, res = Throw (Error msg) /\ trace w' = trace w)
  \/ (res = Return tt /\ trace w' = EvLocalSet items :: trace w).
Proof.
  unfold localSet, localCall.
  destruct (localFault env (localOps w)); intros [= <- <-]; cbn; eauto.
Qed.

Lemma keeps_justified_restoreTrialFromServer deviceToken :
  keeps justified (restoreTrialFromServer deviceToken).
Proof.
  unfold restoreTrialFromServer.
  destruct (truthy deviceToken); [| auto with keeps].
  apply keeps_tryCatch; [| auto with keeps].
  intros env w Hw. apply justified_bind.
  { intros e w1 E. change w1 with (snd (Throw (A := JVal) e, w1)). rewrite <- E.
    apply keeps_justified_makeWorkerRequest, Hw. }
  intros v w1 E.
  apply makeWorkerRequest_inv in E as (n & evs & -> & Hnet & Hres).
  destruct (Hres v eq_refl) as (k & r & rest & -> & _ & Hok & Hbody).
  assert (Hw1 : justified
            (networked n
               (EvFetch (workerRequest "/trial/status" (trialStatusOptions deviceToken))
                  (Responded r) :: rest) w)).
  { apply justified_networked; [| exact Hw].
    eapply Forall_impl; [exact Hnet | apply netEvent_quiet]. }
  apply justified_bind.
  { intros e w1 E. apply getProp_inv in E as [-> _]. exact Hw1. }
  intros hasTrial w1 E. apply getProp_inv in E as [-> [[[= ->] Hnn] | [[=] _]]].
  destruct (truthy (prop v "hasTrial")) eqn:HhasTrial; [| exact Hw1].
  apply justified_bind.
  { intros e w1 E. apply getProp_inv in E as [-> _]. exact Hw1. }
  intros trialEndsAt w1 E. apply getProp_inv in E as [-> _].
  apply justified_bind.
  { intros e w1 E. apply getProp_inv in E as [-> _]. exact Hw1. }
  intros startedAt w1 E. apply getProp_inv in E as [-> _].
  apply justified_bind.
  { intros e w1 E. apply localSet_inv in E as [(msg & _ & Htr) | [[=] _]].
    unfold justified. rewrite Htr. exact Hw1. }
  intros [] w1 E. apply localSet_inv in E as [(msg & [=] & _) | [_ Htr]].
  assert (Hw2 : justified w1).
  { unfold justified. rewrite Htr. cbn [Justified trialWritten assoc TRIAL_KEY String.eqb Ascii.eqb Bool.eqb].
    split; [| exact Hw1].
    unfold approved. cbn [restoredTrialData prop field String.eqb Ascii.eqb Bool.eqb truthy].
    eexists. split; [cbn; apply list_elem_of_here |].
    exists (workerRequest "/trial/status" (trialStatusOptions deviceToken)), r, v.
    repeat split; assumption || reflexivity. }
  revert Hw2. generalize w1. generalize env.
  change (keeps justified
    (let* now := dateNow in
     let* trialEnd := host (fun env => parseDate env trialEndsAt) in
     if before now trialEnd then
       let* result := cacheAndReturn (trialStatus trialEndsAt) in ret (Some result)
     else
       let* result := cacheAndReturn (expiredStatus trialEndsAt "Trial expired") in
       ret (Some result))).
  repeat keeps_step.
Qed.

Lemma keeps_at {A} (I : World -> Prop) (m : Async A) env w :
  keeps I m -> I w -> I (snd (m env w)).
Proof. intros H. apply H. Qed.

Lemma fetch_inv req env w res w' :
  fetch req env w = (res, w') ->
  w' = networked 1 [EvFetch req (network env (fetches w) req)] w
  /\ match res with
     | Return r => network env (fetches w) req = Responded r
     | Throw e => exists msg, network env (fetches w) req = NetworkFailure msg /\ e = Error msg
     end.
Proof.
  unfold fetch. destruct (network env (fetches w) req); intros [= <- <-]; eauto.
Qed.

Lemma json_inv r env w res w' :
  json r env w = (res, w') ->
  w' = w
  /\ match res with
     | Return v => body r = BodyJson v
     | Throw e => exists msg, body r = BodyInvalid msg /\ e = Error msg
     end.
Proof.
  unfold json. destruct (body r); intros [= <- <-]; eauto.
Qed.

Lemma keeps_justified_refusalMessage trialCheck :
  keeps justified (refusalMessage trialCheck).
Proof. unfold refusalMessage. repeat keeps_step. Qed.

#[local] Hint Resolve keeps_justified_refusalMessage keeps_justified_restoreTrialFromServer : keeps.

Lemma keeps_justified_startTrial : keeps justified startTrial.
Proof.
  unfold startTrial. apply keeps_tryCatch; [| auto with keeps].
  apply keeps_bind; [auto with keeps | intros deviceToken].
  destruct (negb (truthy deviceToken)); [auto with keeps |].
  apply keeps_bind; [auto with keeps | intros trialCheckResponse].
  destruct (negb (ok trialCheckResponse)); [auto with keeps |].
  apply keeps_bind; [auto with keeps | intros trialCheck].
  apply keeps_bind; [auto with keeps | intros allowed].
  destruct (negb (truthy allowed)); [repeat keeps_step |].
  apply keeps_bind; [auto with keeps | intros today].
  apply keeps_bind; [auto with keeps | intros trialEndsAt].
  intros env w Hw. apply justified_bind.
  { intros e w1 E. apply fetch_inv in E as [-> _].
    apply justified_networked; [repeat constructor | exact Hw]. }
  intros registerResponse w1 E. apply fetch_inv in E as [-> Hnet].
  rewrite Hnet.
  assert (Hw1 : justified
            (networked 1
               [EvFetch (registerRequest deviceToken trialEndsAt) (Responded registerResponse)] w)).
  { apply justified_networked; [repeat constructor | exact Hw]. }
  destruct (ok registerResponse) eqn:Hok; cbn [negb]; [| exact Hw1].
  apply justified_bind.
  { intros e w1 E. apply json_inv in E as [-> _]. exact Hw1. }
  intros registerResult w1 E. apply json_inv in E as [-> Hbody].
  apply justified_bind.
  { intros e w1 E. apply getProp_inv in E as [-> _]. exact Hw1. }
  intros success w1 E. apply getProp_inv in E as [-> [[[= ->] Hnn] | [[=] _]]].
  destruct (truthy (prop registerResult "success")) eqn:Hsuccess; cbn [negb].
  2: { apply keeps_at; [repeat keeps_step | exact Hw1]. }
  repeat (rewrite bind_run; first [rewrite dateNow_run | progress cbn [host]]).
  apply justified_bind.
  { intros e w1 E. apply localSet_inv in E as [(msg & _ & Htr) | [[=] _]].
    unfold justified. rewrite Htr. exact Hw1. }
  intros [] w1 E. apply localSet_inv in E as [(msg & [=] & _) | [_ Htr]].
  apply keeps_at; [repeat keeps_step |].
  unfold justified. rewrite Htr.
  cbn [Justified trialWritten assoc TRIAL_KEY String.eqb Ascii.eqb Bool.eqb].
  split; [| exact Hw1].
  unfold approved. cbn [prop field String.eqb Ascii.eqb Bool.eqb truthy].
  eexists. split; [cbn; apply list_elem_of_here |].
  exists (registerRequest deviceToken trialEndsAt), registerResponse, registerResult.
  repeat split; assumption || reflexivity.
Qed.

Lemma keeps_justified_issueTrial : keeps justified issueTrial.
Proof.
  unfold issueTrial. apply keeps_tryCatch.
  - apply keeps_bind; [apply keeps_justified_startTrial | intros; repeat keeps_step].
  - intros; repeat keeps_step.
Qed.

Lemma keeps_justified_getUnifiedSubscriptionStatus forceRefresh :
  keeps justified (getUnifiedSubscriptionStatus forceRefresh).
Proof.
  pose proof keeps_justified_issueTrial.
  unfold getUnifiedSubscriptionStatus. repeat keeps_step.
Qed.

(** ** The log tells what is stored *)

Lemma setItems_lookup items (m : gmap string JVal) k :
  setItems items m !! k = match assoc k items with Some v => Some v | None => m !! k end.
Proof.
  induction items as [| [k' v] items IH]; cbn [setItems foldr assoc fst snd]; [reflexivity |].
  fold (setItems items m).
  destruct (String.eqb_spec k k') as [-> | Hne].
  - apply lookup_insert_eq.
  - rewrite lookup_insert_ne by congruence. exact IH.
Qed.

Section Logged.
Context (store0 : gmap string JVal) (base : list Event).

Lemma keeps_logged_dateNow : keeps (logged store0 base) dateNow.
Proof. intros env w H. exact H. Qed.

Lemma keeps_logged_setStatusCache v : keeps (logged store0 base) (setStatusCache v).
Proof. intros env w H. exact H. Qed.

Lemma keeps_logged_setCacheTimestamp t : keeps (logged store0 base) (setCacheTimestamp t).
Proof. intros env w H. exact H. Qed.

Lemma keeps_logged_readCache : keeps (logged store0 base) readCache.
Proof. intros env w H. exact H. Qed.

Lemma keeps_logged_fetch req : keeps (logged store0 base) (fetch req).
Proof.
  intros env w (evs & Hlog & Hstore). unfold fetch.
  destruct (network env (fetches w) req); cbn [snd];
    (eexists (_ :: evs); split; [cbn; rewrite Hlog; reflexivity | exact Hstore]).
Qed.

Lemma keeps_logged_sleep ms : keeps (logged store0 base) (sleep ms).
Proof.
  intros env w (evs & Hlog & Hstore).
  exists (EvSleep ms :: evs). split; [cbn; rewrite Hlog; reflexivity | exact Hstore].
Qed.

Lemma keeps_logged_syncSet items : keeps (logged store0 base) (syncSet items).
Proof.
  intros env w (evs & Hlog & Hstore). unfold syncSet.
  destruct (syncFault env (syncOps w)); cbn [snd]; [exists evs; split; assumption |].
  exists (EvSyncSet items :: evs). split; [cbn; rewrite Hlog; reflexivity | exact Hstore].
Qed.

Lemma keeps_logged_localGet keys : keeps (logged store0 base) (localGet keys).
Proof.
  intros env w H. unfold localGet, localCall.
  destruct (localFault env (localOps w)); exact H.
Qed.

Lemma keeps_logged_localSet items : keeps (logged store0 base) (localSet items).
Proof.
  intros env w (evs & Hlog & Hstore). unfold localSet, localCall.
  destruct (localFault env (localOps w)); cbn [snd]; [exists evs; split; assumption |].
  exists (EvLocalSet items :: evs). split; [cbn; rewrite Hlog; reflexivity |].
  cbn [localStore latestTrialWrite trialWritten]. rewrite setItems_lookup.
  destruct (assoc TRIAL_KEY items); [reflexivity | exact Hstore].
Qed.
End Logged.

#[local] Hint Resolve keeps_logged_dateNow keeps_logged_setStatusCache
  keeps_logged_setCacheTimestamp keeps_logged_readCache keeps_logged_fetch
  keeps_logged_sleep keeps_logged_syncSet keeps_logged_localGet keeps_logged_localSet : keeps.

Lemma keeps_logged_retryLoop store0 base fuel endpoint options :
  forall attempt lastError,
    keeps (logged store0 base) (retryLoop fuel endpoint options attempt lastError).
Proof.
  induction fuel as [| fuel IH]; intros attempt lastError; cbn [retryLoop];
    repeat keeps_step.
Qed.

Lemma keeps_logged_makeWorkerRequest store0 base endpoint options :
  keeps (logged store0 base) (makeWorkerRequest endpoint options).
Proof. apply keeps_logged_retryLoop. Qed.

#[local] Hint Resolve keeps_logged_makeWorkerRequest : keeps.

Lemma keeps_logged_startTrial store0 base : keeps (logged store0 base) startTrial.
Proof.
  unfold startTrial, refusalMessage, getDeviceToken, cacheAndReturn. repeat keeps_step.
Qed.

Lemma keeps_logged_getUnifiedSubscriptionStatus store0 base forceRefresh :
  keeps (logged store0 base) (getUnifiedSubscriptionStatus forceRefresh).
Proof.
  pose proof (keeps_logged_startTrial store0 base).
  unfold getUnifiedSubscriptionStatus, issueTrial, preCheckTrial, evaluateLocalTrial,
    restoreTrialFromServer, _getLocalData, _checkServerStatus, getDeviceToken, cacheAndReturn.
  repeat keeps_step.
Qed.

(** A justified log approves the record of each of its writes. *)
Lemma Justified_latest evs base record :
  Justified (evs ++ base) ->
  latestTrialWrite evs = Some record ->
  exists newer e earlier,
    evs ++ base = newer ++ e :: earlier
    /\ trialWritten e = Some record
    /\ approved record earlier.
Proof.
  induction evs as [| e evs IH]; cbn [latestTrialWrite app Justified]; [discriminate |].
  intros [He Hrest] Hlatest.
  destruct (trialWritten e) as [r |] eqn:Hwritten.
  - injection Hlatest as ->. exists [], e, (evs ++ base). auto.
  - destruct (IH Hrest Hlatest) as (newer & e' & earlier & Heq & Hw & Happ).
    exists (e :: newer), e', earlier. rewrite Heq. auto.
Qed.

(** What the two invariants give together: a trial record found in local
    storage after a computation was there before, or was written by a
    logged event that the earlier log approves. *)
Lemma stored_trial_approved {A} (m : Async A) env w record :
  keeps justified m ->
  keeps (logged (localStore w) (trace w)) m ->
  justified w ->
  localStore (snd (m env w)) !! TRIAL_KEY = Some record ->
  localStore w !! TRIAL_KEY = Some record
  \/ exists newer e earlier,
       trace (snd (m env w)) = newer ++ e :: earlier
       /\ trialWritten e = Some record
       /\ approved record earlier.
Proof.
  intros Hj Hl Hw Hstored.
  assert (Hlogged : logged (localStore w) (trace w) w) by (exists []; auto).
  destruct (Hl env w Hlogged) as (evs & Hlog & Hstore).
  pose proof (Hj env w Hw) as Hjust. unfold justified in Hjust.
  rewrite Hstored in Hstore. rewrite Hlog in Hjust |- *.
  destruct (latestTrialWrite evs) as [r |] eqn:Hlatest; [| left; congruence].
  injection Hstore as ->. right. eapply Justified_latest; eassumption.
Qed.

(** ** Every returned status is the cached one *)

Lemma yields_throw {A} (Q : A -> World -> Prop) e : yields Q (throw e).
Proof. intros env w a w' [=]. Qed.

Lemma yields_bind {A B} (Q : B -> World -> Prop) (m : Async A) (f : A -> Async B) :
  (forall a, yields Q (f a)) -> yields Q (bind m f).
Proof.
  intros Hf env w b w'. rewrite bind_run.
  destruct (m env w) as [[a | e] w1]; [apply Hf | intros [=]].
Qed.

Lemma yields_tryCatch {A} (Q : A -> World -> Prop) (m : Async A) (h : Exn -> Async A) :
  yields Q m -> (forall e, yields Q (h e)) -> yields Q (tryCatch m h).
Proof.
  intros Hm Hh env w a w'. rewrite tryCatch_run.
  destruct (m env w) as [[a1 | e] w1] eqn:E; [| apply Hh].
  intros [= <- <-]. eapply Hm, E.
Qed.

Lemma yields_cacheAndReturn (Q : JVal -> World -> Prop) result :
  (forall env w, Q result (cached result env w)) -> yields Q (cacheAndReturn result).
Proof.
  intros H env w a w'. rewrite cacheAndReturn_run. intros [= <- <-]. apply H.
Qed.

Lemma yields_cacheAndReturn_some (Q : JVal -> World -> Prop) result :
  (forall env w, Q result (cached result env w)) ->
  yields (ifAny Q) (let* r := cacheAndReturn result in ret (Some r)).
Proof.
  intros H env w a w'. rewrite bind_run, cacheAndReturn_run. intros [= <- <-]. apply H.
Qed.

Lemma yields_none (Q : JVal -> World -> Prop) : yields (ifAny Q) (ret None).
Proof. intros env w a w' [= <- <-]. exact Logic.I. Qed.

(** An early [return] inside a block, then the rest of the function. *)
Lemma yields_early (Q : JVal -> World -> Prop) (m : Async (option JVal)) (rest : Async JVal) :
  yields (ifAny Q) m -> yields Q rest ->
  yields Q
    (let* early := m in match early with Some result => ret result | None => rest end).
Proof.
  intros Hm Hrest env w a w'. rewrite bind_run.
  destruct (m env w) as [[[s |] | e] w1] eqn:E; [| apply Hrest | intros [=]].
  intros [= <- <-]. exact (Hm env w (Some s) w1 E).
Qed.

Lemma andProp_truthy v k : truthy (andProp v k) = true -> truthy v = true.
Proof. unfold andProp. destruct (truthy v) eqn:E; [reflexivity | congruence]. Qed.

Lemma andProp_prop v k : truthy (andProp v k) = true -> truthy (prop v k) = true.
Proof. unfold andProp. destruct (truthy v) eqn:E; [trivial | congruence]. Qed.

Lemma andProp_object v k : truthy (andProp v k) = true -> isObject v.
Proof.
  unfold andProp. destruct (truthy v) eqn:E; [| congruence].
  destruct v; cbn; intros H; (exact Logic.I || discriminate H).
Qed.

Lemma isCached_cached result env w : truthy result = true -> isCached result (cached result env w).
Proof. intros H. split; [reflexivity | exact H]. Qed.

(** Close the side condition of a [cacheAndReturn] for the properties
    followed through the function. *)
Ltac cached_status :=
  intros;
  lazymatch goal with
  | |- isCached _ _ =>
      apply isCached_cached; first [reflexivity | eapply andProp_truthy; eassumption]
  | |- gateClosed _ =>
      first [right; reflexivity | left; eapply andProp_prop; eassumption]
  | |- isObject _ =>
      first [exact Logic.I | eapply andProp_object; eassumption]
  end.

Ltac yields_step :=
  lazymatch goal with
  | |- yields (ifAny _) (bind (cacheAndReturn _) _) =>
      apply yields_cacheAndReturn_some; cached_status
  | |- yields (ifAny _) (ret None) => apply yields_none
  | |- yields _ (cacheAndReturn _) => apply yields_cacheAndReturn; cached_status
  | |- yields _ (throw _) => apply yields_throw
  | |- yields _ (bind _ _) => apply yields_bind; intros ?
  | |- yields _ (tryCatch _ _) => apply yields_tryCatch; [| intros ?]
  | |- yields _ (if ?b then _ else _) => destruct b eqn:?
  | |- yields _ (match ?x with Some _ => _ | None => _ end) => destruct x eqn:?
  end.

Lemma yields_restoreTrialFromServer deviceToken :
  yields (ifAny isCached) (restoreTrialFromServer deviceToken)
  /\ yields (ifAny (fun s _ => gateClosed s)) (restoreTrialFromServer deviceToken)
  /\ yields (ifAny (fun s _ => isObject s)) (restoreTrialFromServer deviceToken).
Proof. split; [| split]; unfold restoreTrialFromServer; repeat yields_step. Qed.

Lemma yields_evaluateLocalTrial localTrial :
  yields isCached (evaluateLocalTrial localTrial)
  /\ yields (fun s _ => gateClosed s) (evaluateLocalTrial localTrial)
  /\ yields (fun s _ => isObject s) (evaluateLocalTrial localTrial).
Proof. split; [| split]; unfold evaluateLocalTrial; repeat yields_step. Qed.

Lemma yields_preCheckTrial deviceToken :
  yields (ifAny isCached) (preCheckTrial deviceToken)
  /\ yields (ifAny (fun s _ => gateClosed s)) (preCheckTrial deviceToken)
  /\ yields (ifAny (fun s _ => isObject s)) (preCheckTrial deviceToken).
Proof. split; [| split]; unfold preCheckTrial; repeat yields_step. Qed.

Lemma yields_issueTrial :
  yields isCached issueTrial
  /\ yields (fun s _ => gateClosed s) issueTrial
  /\ yields (fun s _ => isObject s) issueTrial.
Proof. split; [| split]; unfold issueTrial; repeat yields_step. Qed.

Lemma getUnified_miss forceRefresh env w :
  cacheFresh forceRefresh env w = false ->
  getUnifiedSubscriptionStatus forceRefresh env w =
  tryCatch refreshStatus (fun _ => cacheAndReturn errorStatus) env (ticked w).
Proof.
  intros H. unfold cacheFresh in H.
  unfold getUnifiedSubscriptionStatus.
  rewrite !tryCatch_run, bind_run, dateNow_run, bind_run.
  cbn [readCache ticked statusCache cacheTimestamp fst snd].
  rewrite H. reflexivity.
Qed.

Lemma yields_refreshStatus (Q : JVal -> World -> Prop) :
  (forall v env w, truthy (andProp v "active") = true -> Q v (cached v env w)) ->
  (forall deviceToken, yields (ifAny Q) (restoreTrialFromServer deviceToken)) ->
  (forall localTrial, yields Q (evaluateLocalTrial localTrial)) ->
  (forall deviceToken, yields (ifAny Q) (preCheckTrial deviceToken)) ->
  yields Q issueTrial ->
  yields Q refreshStatus.
Proof.
  intros Hactive Hrestore Hlocal Hpre Hissue.
  unfold refreshStatus. apply yields_bind; intros serverStatus.
  destruct (truthy (andProp serverStatus "active")) eqn:Hserver.
  { apply yields_cacheAndReturn. intros. apply Hactive, Hserver. }
  apply yields_bind; intros deviceToken.
  apply yields_early; [apply Hrestore |].
  apply yields_bind; intros localData. cbv zeta.
  destruct (truthy (andProp (fst localData) "active")) eqn:Hsub.
  { apply yields_cacheAndReturn. intros. apply Hactive, Hsub. }
  destruct (truthy (snd localData)); [apply Hlocal |].
  apply yields_early; [apply Hpre | apply Hissue].
Qed.

(** Whatever the function returns is truthy and is what the cache holds
    afterwards. *)
Lemma getUnified_caches forceRefresh env w s w' :
  getUnifiedSubscriptionStatus forceRefresh env w = (Return s, w') -> isCached s w'.
Proof.
  destruct (cacheFresh forceRefresh env w) eqn:Hfresh.
  - destruct forceRefresh; [discriminate |].
    rewrite (getUnified_hit _ _ Hfresh). intros [= <- <-].
    unfold cacheFresh in Hfresh. cbn [negb andb] in Hfresh.
    apply andb_prop in Hfresh as [Ht _]. split; [reflexivity | exact Ht].
  - rewrite (getUnified_miss _ _ _ Hfresh).
    apply yields_tryCatch; [| intros e; apply yields_cacheAndReturn; cached_status].
    apply yields_refreshStatus.
    + cached_status.
    + apply yields_restoreTrialFromServer.
    + apply yields_evaluateLocalTrial.
    + apply yields_preCheckTrial.
    + apply yields_issueTrial.
Qed.

(** A status the function computes, or finds in a cache that only held
    such statuses, fails the gate's fallback test. *)
Lemma getUnified_gateClosed forceRefresh env w s w' :
  (truthy (statusCache w) = true -> gateClosed (statusCache w)) ->
  getUnifiedSubscriptionStatus forceRefresh env w = (Return s, w') -> gateClosed s.
Proof.
  intros Hcache.
  destruct (cacheFresh forceRefresh env w) eqn:Hfresh.
  - destruct forceRefresh; [discriminate |].
    rewrite (getUnified_hit _ _ Hfresh). intros [= <- <-].
    unfold cacheFresh in Hfresh. cbn [negb andb] in Hfresh.
    apply andb_prop in Hfresh as [Ht _]. apply Hcache, Ht.
  - rewrite (getUnified_miss _ _ _ Hfresh).
    apply (yields_tryCatch (fun s _ => gateClosed s));
      [| intros e; apply yields_cacheAndReturn; cached_status].
    apply (yields_refreshStatus (fun s _ => gateClosed s)).
    + cached_status.
    + apply yields_restoreTrialFromServer.
    + apply yields_evaluateLocalTrial.
    + apply yields_preCheckTrial.
    + apply yields_issueTrial.
Qed.

(** A status the function computes, as opposed to one it finds in the
    cache, is an object. *)
Lemma refreshStatus_object env w s w' :
  tryCatch refreshStatus (fun _ => cacheAndReturn errorStatus) env w = (Return s, w') ->
  isObject s.
Proof.
  apply (yields_tryCatch (fun s _ => isObject s));
    [| intros e; apply yields_cacheAndReturn; cached_status].
  apply (yields_refreshStatus (fun s _ => isObject s)).
  - cached_status.
  - apply yields_restoreTrialFromServer.
  - apply yields_evaluateLocalTrial.
  - apply yields_preCheckTrial.
  - apply yields_issueTrial.
Qed.

(** ** A forced refresh does not look at the cache *)

Lemma blind_ret {A} (a : A) : cacheBlind (ret a).
Proof. intros env w1 w2 H. split; [reflexivity | exact H]. Qed.

Lemma blind_throw {A} (e : Exn) : cacheBlind (@throw A e).
Proof. intros env w1 w2 H. split; [reflexivity | exact H]. Qed.

Lemma blind_host {A} (f : Env -> A) : cacheBlind (host f).
Proof. intros env w1 w2 H. split; [reflexivity | exact H]. Qed.

Lemma blind_bind {A B} (m : Async A) (f : A -> Async B) :
  cacheBlind m -> (forall a, cacheBlind (f a)) -> cacheBlind (bind m f).
Proof.
  intros Hm Hf env w1 w2 H. rewrite !bind_run.
  destruct (Hm env w1 w2 H) as [Hres Hw].
  destruct (m env w1) as [[a1 | e1] w1'], (m env w2) as [[a2 | e2] w2'];
    cbn in Hres, Hw; try discriminate.
  - injection Hres as ->. apply Hf, Hw.
  - injection Hres as ->. split; [reflexivity | exact Hw].
Qed.

Lemma blind_tryCatch {A} (m : Async A) (h : Exn -> Async A) :
  cacheBlind m -> (forall e, cacheBlind (h e)) -> cacheBlind (tryCatch m h).
Proof.
  intros Hm Hh env w1 w2 H. rewrite !tryCatch_run.
  destruct (Hm env w1 w2 H) as [Hres Hw].
  destruct (m env w1) as [[a1 | e1] w1'], (m env w2) as [[a2 | e2] w2'];
    cbn in Hres, Hw; try discriminate.
  - split; [exact Hres | exact Hw].
  - injection Hres as ->. apply Hh, Hw.
Qed.

Lemma blind_dateNow : cacheBlind dateNow.
Proof.
  intros env w1 w2 (H1 & H2 & H3 & H4 & H5 & H6 & H7). rewrite !dateNow_run. cbn.
  rewrite H3. split; [reflexivity | repeat split; cbn; congruence].
Qed.

Lemma blind_fetch req : cacheBlind (fetch req).
Proof.
  intros env w1 w2 (H1 & H2 & H3 & H4 & H5 & H6 & H7). unfold fetch. rewrite H4.
  destruct (network env (fetches w2) req); cbn;
    (split; [reflexivity | repeat split; cbn; congruence]).
Qed.

Lemma blind_sleep ms : cacheBlind (sleep ms).
Proof.
  intros env w1 w2 (H1 & H2 & H3 & H4 & H5 & H6 & H7). unfold sleep. cbn.
  split; [reflexivity | repeat split; cbn; congruence].
Qed.

Lemma blind_localCall {A} upd evs (result : gmap string JVal -> A) :
  cacheBlind (localCall upd evs result).
Proof.
  intros env w1 w2 (H1 & H2 & H3 & H4 & H5 & H6 & H7). unfold localCall. rewrite H5.
  destruct (localFault env (localOps w2)); cbn;
    (split; [congruence | repeat split; cbn; congruence]).
Qed.

Lemma blind_syncSet items : cacheBlind (syncSet items).
Proof.
  intros env w1 w2 (H1 & H2 & H3 & H4 & H5 & H6 & H7). unfold syncSet. rewrite H6.
  destruct (syncFault env (syncOps w2)); cbn;
    (split; [reflexivity | repeat split; cbn; congruence]).
Qed.

Lemma blind_setStatusCache v : cacheBlind (setStatusCache v).
Proof. intros env w1 w2 H. split; [reflexivity | exact H]. Qed.

Lemma blind_setCacheTimestamp t : cacheBlind (setCacheTimestamp t).
Proof. intros env w1 w2 H. split; [reflexivity | exact H]. Qed.

Lemma blind_json r : cacheBlind (json r).
Proof. unfold json. destruct (body r); [apply blind_ret | apply blind_throw]. Qed.

Lemma blind_getProp v k : cacheBlind (getProp v k).
Proof. unfold getProp. destruct (nullish v); [apply blind_throw | apply blind_ret]. Qed.

Lemma blind_messageOf e : cacheBlind (messageOf e).
Proof. destruct e; [apply blind_ret | apply blind_throw]. Qed.

Lemma blind_str v : cacheBlind (str v).
Proof. destruct v; first [apply blind_ret | apply blind_host]. Qed.


Create HintDb blind.
#[local] Hint Resolve blind_ret blind_throw blind_host blind_dateNow blind_fetch blind_sleep
  blind_localCall blind_syncSet blind_setStatusCache blind_setCacheTimestamp blind_json
  blind_getProp blind_messageOf blind_str : blind.

Ltac blind_step :=
  lazymatch goal with
  | |- cacheBlind (bind _ _) => apply blind_bind; [| intros ?]
  | |- cacheBlind (tryCatch _ _) => apply blind_tryCatch; [| intros ?]
  | |- cacheBlind (if ?b then _ else _) => destruct b eqn:?
  | |- cacheBlind (match ?x with Some _ => _ | None => _ end) => destruct x eqn:?
  | |- cacheBlind _ => solve [auto with blind]
  end.

Lemma blind_retryLoop fuel endpoint options :
  forall attempt lastError, cacheBlind (retryLoop fuel endpoint options attempt lastError).
Proof.
  induction fuel as [| fuel IH]; intros attempt lastError; cbn [retryLoop];
    [apply blind_throw |].
  repeat blind_step.
Qed.

Lemma blind_makeWorkerRequest endpoint options :
  cacheBlind (makeWorkerRequest endpoint options).
Proof. apply blind_retryLoop. Qed.

Lemma blind_cacheAndReturn result : cacheBlind (cacheAndReturn result).
Proof. unfold cacheAndReturn. repeat blind_step. Qed.

Lemma blind_getDeviceToken : cacheBlind getDeviceToken.
Proof. unfold getDeviceToken, localGet. repeat blind_step. Qed.

#[local] Hint Resolve blind_makeWorkerRequest blind_cacheAndReturn blind_getDeviceToken : blind.

Lemma blind_checkServerStatus : cacheBlind _checkServerStatus.
Proof. unfold _checkServerStatus, localSet. repeat blind_step. Qed.

Lemma blind_getLocalData : cacheBlind _getLocalData.
Proof. unfold _getLocalData, localGet. repeat blind_step. Qed.

Lemma blind_restoreTrialFromServer deviceToken :
  cacheBlind (restoreTrialFromServer deviceToken).
Proof. unfold restoreTrialFromServer, localSet. repeat blind_step. Qed.

Lemma blind_evaluateLocalTrial localTrial : cacheBlind (evaluateLocalTrial localTrial).
Proof. unfold evaluateLocalTrial. repeat blind_step. Qed.

Lemma blind_preCheckTrial deviceToken : cacheBlind (preCheckTrial deviceToken).
Proof. unfold preCheckTrial. repeat blind_step. Qed.

Lemma blind_refusalMessage trialCheck : cacheBlind (refusalMessage trialCheck).
Proof. unfold refusalMessage. repeat blind_step. Qed.

#[local] Hint Resolve blind_checkServerStatus blind_getLocalData blind_restoreTrialFromServer
  blind_evaluateLocalTrial blind_preCheckTrial blind_refusalMessage : blind.

Lemma blind_startTrial : cacheBlind startTrial.
Proof. unfold startTrial, localSet. repeat blind_step. Qed.

#[local] Hint Resolve blind_startTrial : blind.

Lemma blind_issueTrial : cacheBlind issueTrial.
Proof. unfold issueTrial. repeat blind_step. Qed.

#[local] Hint Resolve blind_issueTrial : blind.


(** ** Storage reads *)

Lemma pick_lookup keys (m : gmap string JVal) k :
  pick keys m !! k = if decide (k ∈ keys) then m !! k else None.
Proof.
  induction keys as [| k0 keys IH]; cbn [pick foldr].
  - rewrite lookup_empty. case_decide as H; [inversion H | reflexivity].
  - fold (pick keys m).
    destruct (decide (k = k0)) as [-> | Hne].
    + rewrite decide_True by apply list_elem_of_here.
      destruct (m !! k0) as [v |] eqn:Hk0.
      * apply lookup_insert_eq.
      * rewrite IH. case_decide; reflexivity.
    + assert (Hlk : (match m !! k0 with
                     | Some v => <[k0 := v]> (pick keys m)
                     | None => pick keys m
                     end) !! k = pick keys m !! k).
      { destruct (m !! k0); [apply lookup_insert_ne; congruence | reflexivity]. }
      rewrite Hlk, IH.
      destruct (decide (k ∈ keys)) as [Hin | Hnin].
      * rewrite decide_True by (apply list_elem_of_further; exact Hin). reflexivity.
      * rewrite decide_False; [reflexivity |].
        intros Hin. apply elem_of_cons in Hin as [-> | Hin]; contradiction.
Qed.

Lemma item_pick keys (m : gmap string JVal) k :
  k ∈ keys -> item (pick keys m) k = item m k.
Proof. intros H. unfold item. rewrite pick_lookup, decide_True by exact H. reflexivity. Qed.

Lemma getDeviceToken_run env w :
  getDeviceToken env w =
  (Return (match localFault env (localOps w) with
           | Some _ => JNull
           | None => item (localStore w) DEVICE_TOKEN_KEY
           end),
   localRead w).
Proof.
  unfold getDeviceToken. rewrite tryCatch_run, bind_run.
  unfold localGet, localCall.
  destruct (localFault env (localOps w)); cbn -[pick item]; [reflexivity |].
  rewrite item_pick by apply list_elem_of_here. reflexivity.
Qed.

Lemma getLocalData_run env w :
  localFault env (localOps w) = None ->
  _getLocalData env w =
  (Return (item (localStore w) SUBSCRIPTION_KEY, item (localStore w) TRIAL_KEY), localRead w).
Proof.
  intros H. unfold _getLocalData. rewrite bind_run.
  unfold localGet, localCall. rewrite H. cbn -[pick item].
  rewrite !item_pick; [reflexivity | |].
  - apply list_elem_of_further, list_elem_of_here.
  - apply list_elem_of_here.
Qed.

(** ** When the remote authority has nothing to report *)

Lemma settled_refl w : settled w w.
Proof. repeat split; auto. exists []. split; [reflexivity | constructor]. Qed.

Lemma settled_trans w1 w2 w3 : settled w1 w2 -> settled w2 w3 -> settled w1 w3.
Proof.
  intros (A1 & A2 & A3 & A4 & evs1 & A5 & A6) (B1 & B2 & B3 & B4 & evs2 & B5 & B6).
  repeat split; try congruence; [auto |].
  exists (evs2 ++ evs1). split.
  - rewrite B5, A5. apply app_assoc.
  - apply Forall_app. split; assumption.
Qed.

Lemma settled_localRead w : settled w (localRead w).
Proof. repeat split; auto. exists []. split; [reflexivity | constructor]. Qed.

Lemma str_run v env w : str v env w = (Return (strOf env v), w).
Proof. destruct v; reflexivity. Qed.

Lemma workerRequest_calm endpoint options out :
  WORKER_URL +:+ endpoint <> WORKER_URL +:+ "/trial/check" ->
  WORKER_URL +:+ endpoint <> WORKER_URL +:+ "/trial/register" ->
  calm (EvFetch (workerRequest endpoint options) out).
Proof. intros H1 H2. split; [reflexivity |]. intros [H | H]; contradiction. Qed.

Lemma netEvents_calm endpoint options evs :
  WORKER_URL +:+ endpoint <> WORKER_URL +:+ "/trial/check" ->
  WORKER_URL +:+ endpoint <> WORKER_URL +:+ "/trial/register" ->
  Forall (fun e => netEvent e /\
            forall req out, e = EvFetch req out -> req = workerRequest endpoint options) evs ->
  Forall calm evs.
Proof.
  intros H1 H2 H. eapply Forall_impl; [exact H |]. intros e [Hnet Hreq].
  destruct e as [req out | ms | | |]; try contradiction.
  - rewrite (Hreq req out eq_refl). apply workerRequest_calm; assumption.
  - split; [reflexivity | intros []].
Qed.

(** As [makeWorkerRequest_inv], also naming the request of every fetch. *)
Lemma makeWorkerRequest_events endpoint options env w res w' :
  makeWorkerRequest endpoint options env w = (res, w') ->
  exists n evs,
    w' = networked n evs w
    /\ Forall (fun e => netEvent e /\
                 forall req out, e = EvFetch req out -> req = workerRequest endpoint options) evs
    /\ forall v, res = Return v ->
         exists k r,
           network env k (workerRequest endpoint options) = Responded r
           /\ ok r = true
           /\ body r = BodyJson v.
Proof.
  rewrite makeWorkerRequest_unrolled. cbv zeta. unfold threeAttempts.
  set (req := workerRequest endpoint options).
  assert (Hf : forall out, netEvent (EvFetch req out) /\
            forall req' out', EvFetch req out = EvFetch req' out' -> req' = req).
  { intros out. split; [exact Logic.I | intros req' out' [= <- _]; reflexivity]. }
  assert (Hs : forall ms, netEvent (EvSleep ms) /\
            forall req' out', EvSleep ms = EvFetch req' out' -> req' = req).
  { intros ms. split; [exact Logic.I | intros req' out' [=]]. }
  destruct (attemptOutcome (network env (fetches w) req)) as [v1 | e1] eqn:H1.
  { intros [= <- <-]. eexists _, _. split; [reflexivity |]. split; [repeat (constructor; [first [apply Hf | apply Hs] |]); constructor |].
    intros v [= <-]. apply attemptOutcome_Return in H1 as (r & Hr & Hok & Hb). eauto. }
  destruct (attemptOutcome (network env (S (fetches w)) req)) as [v2 | e2] eqn:H2.
  { intros [= <- <-]. eexists _, _. split; [reflexivity |]. split; [repeat (constructor; [first [apply Hf | apply Hs] |]); constructor |].
    intros v [= <-]. apply attemptOutcome_Return in H2 as (r & Hr & Hok & Hb). eauto. }
  intros [= <- <-]. eexists _, _. split; [reflexivity |]. split; [repeat (constructor; [first [apply Hf | apply Hs] |]); constructor |].
  intros v H3. apply attemptOutcome_Return in H3 as (r & Hr & Hok & Hb). eauto.
Qed.

Lemma settled_networked n evs w : Forall calm evs -> settled w (networked n evs w).
Proof. intros H. repeat split; auto. exists evs. split; [reflexivity | exact H]. Qed.

Lemma check_url_calm s :
  WORKER_URL +:+ ("/check?token=" +:+ s) <> WORKER_URL +:+ "/trial/check"
  /\ WORKER_URL +:+ ("/check?token=" +:+ s) <> WORKER_URL +:+ "/trial/register".
Proof. split; cbn; intros [=]. Qed.

Lemma status_url_calm :
  WORKER_URL +:+ "/trial/status" <> WORKER_URL +:+ "/trial/check"
  /\ WORKER_URL +:+ "/trial/status" <> WORKER_URL +:+ "/trial/register".
Proof. split; cbn; intros [=]. Qed.

(** The remote subscription check of a silent server never reports an
    active subscription and leaves the trial record alone. *)
Lemma serverCheck_silent env w :
  RemoteSilent env -> StorageWorks env ->
  exists serverStatus w1,
    tryCatch _checkServerStatus (fun _ => ret JNull) env w = (Return serverStatus, w1)
    /\ truthy (andProp serverStatus "active") = false
    /\ settled w w1.
Proof.
  intros Hsilent Hstore.
  unfold _checkServerStatus. rewrite tryCatch_run, bind_run, getDeviceToken_run, Hstore.
  destruct (truthy (item (localStore w) DEVICE_TOKEN_KEY)) eqn:Htok; cbn [negb].
  2: { eexists _, _. split; [reflexivity |]. split; [reflexivity | apply settled_localRead]. }
  rewrite tryCatch_run, bind_run, str_run, bind_run.
  set (token := strOf env (item (localStore w) DEVICE_TOKEN_KEY)).
  destruct (makeWorkerRequest ("/check?token=" +:+ token) noOptions env (localRead w))
    as [[data | e] w1] eqn:E;
    apply makeWorkerRequest_events in E as (n & evs & -> & Hevs & Hres).
  2: { eexists _, _. split; [reflexivity |]. split; [reflexivity |].
       eapply settled_trans; [apply settled_localRead |].
       apply settled_networked. eapply netEvents_calm; [| | exact Hevs];
         apply (check_url_calm token). }
  destruct (Hres data eq_refl) as (k & r & Hnet & Hok & Hbody).
  destruct (Hsilent k _ r data Hnet Hok Hbody) as [Hinactive _].
  rewrite bind_run. unfold localSet, localCall. cbn [localOps networked localRead].
  rewrite Hstore. cbn [ret].
  eexists _, _. split; [reflexivity |]. split; [exact Hinactive |].
  unfold settled; cbn [localStore clockReads trace setItems foldr fst snd networked localRead].
  split; [apply lookup_insert_ne; discriminate |].
  split; [apply lookup_insert_ne; discriminate |].
  split; [intros _; unfold item; rewrite lookup_insert_eq; exact Hinactive |].
  split; [reflexivity |].
  exists (EvLocalSet [(SUBSCRIPTION_KEY, data)] :: evs). split; [reflexivity |].
  constructor; [split; [reflexivity | intros []] |].
  eapply netEvents_calm; [| | exact Hevs]; apply (check_url_calm token).
Qed.

(** A silent server restores no trial. *)
Lemma restore_silent env w deviceToken :
  RemoteSilent env ->
  exists w1, restoreTrialFromServer deviceToken env w = (Return None, w1) /\ settled w w1.
Proof.
  intros Hsilent. unfold restoreTrialFromServer.
  destruct (truthy deviceToken).
  2: { eexists. split; [reflexivity | apply settled_refl]. }
  rewrite tryCatch_run, bind_run.
  destruct (makeWorkerRequest "/trial/status" (trialStatusOptions deviceToken) env w)
    as [[v | e] w1] eqn:E;
    apply makeWorkerRequest_events in E as (n & evs & -> & Hevs & Hres).
  2: { eexists. split; [reflexivity |].
       apply settled_networked. eapply netEvents_calm; [| | exact Hevs];
         apply status_url_calm. }
  destruct (Hres v eq_refl) as (k & r & Hnet & Hok & Hbody).
  destruct (Hsilent k _ r v Hnet Hok Hbody) as [_ HnoTrial].
  assert (Hs : settled w (networked n evs w)).
  { apply settled_networked. eapply netEvents_calm; [| | exact Hevs]; apply status_url_calm. }
  rewrite bind_run. unfold getProp. destruct (nullish v); cbn [throw ret].
  - eexists. split; [reflexivity | exact Hs].
  - rewrite HnoTrial. eexists. split; [reflexivity | exact Hs].
Qed.

Lemma refresh_silent env w :
  RemoteSilent env -> StorageWorks env ->
  inactive (item (localStore w) SUBSCRIPTION_KEY) ->
  exists w1,
    settled w w1
    /\ refreshStatus env w =
       fromLocalTrial (item (localStore w) DEVICE_TOKEN_KEY)
         (item (localStore w) TRIAL_KEY) env w1.
Proof.
  intros Hsilent Hstore Hsub. unfold refreshStatus. rewrite bind_run.
  destruct (serverCheck_silent env w Hsilent Hstore) as (ss & w1 & -> & Hss & S1).
  rewrite Hss, bind_run, getDeviceToken_run, Hstore, bind_run.
  destruct (restore_silent env (localRead w1) (item (localStore w1) DEVICE_TOKEN_KEY) Hsilent)
    as (w2 & -> & S2).
  rewrite bind_run, getLocalData_run by apply Hstore.
  cbn [fst snd]. cbv zeta.
  assert (S : settled w (localRead w2)).
  { eapply settled_trans; [exact S1 |]. eapply settled_trans; [apply settled_localRead |].
    eapply settled_trans; [exact S2 | apply settled_localRead]. }
  destruct S as (Htok & Htrial & Hsub' & Hclock & Hevs).
  cbn [localStore localRead] in Htok, Htrial, Hsub'.
  rewrite (Hsub' Hsub).
  exists (localRead w2). split.
  - repeat split; assumption.
  - unfold fromLocalTrial, item.
    destruct S1 as (T1 & _). rewrite Htrial, T1. reflexivity.
Qed.

(** ** The local trial record decides *)

Lemma truthy_not_nullish v : truthy v = true -> nullish v = false.
Proof. destruct v; cbn; congruence. Qed.

Lemma evaluateLocalTrial_run record env w :
  truthy record = true ->
  evaluateLocalTrial record env w =
  (Return (localTrialStatus env (clock env (clockReads w)) record),
   cached (localTrialStatus env (clock env (clockReads w)) record) env (ticked w)).
Proof.
  intros Ht. unfold evaluateLocalTrial, localTrialStatus.
  rewrite tryCatch_run, bind_run, dateNow_run, bind_run.
  unfold getProp. rewrite (truthy_not_nullish _ Ht). cbn [ret].
  rewrite bind_run. cbn [host]. cbv zeta.
  destruct (parseDate env (prop record "trialEndsAt")) as [trialEnd |];
    [destruct (clock env (clockReads w) <? trialEnd) |]; reflexivity.
Qed.

(** With a silent server, no active local subscription and a local trial
    record, the function returns what the record evaluates to at the
    second reading of the clock, and only the cache changes after the
    remote checks. *)
Lemma local_trial_decides forceRefresh env w record :
  cacheFresh forceRefresh env w = false ->
  RemoteSilent env -> StorageWorks env ->
  inactive (item (localStore w) SUBSCRIPTION_KEY) ->
  localStore w !! TRIAL_KEY = Some record ->
  truthy record = true ->
  exists w',
    getUnifiedSubscriptionStatus forceRefresh env w =
      (Return (localTrialStatus env (clock env (S (clockReads w))) record), w')
    /\ localStore w' !! TRIAL_KEY = Some record
    /\ exists evs, trace w' = evs ++ trace w /\ Forall calm evs.
Proof.
  intros Hmiss Hsilent Hstore Hsub Hrecord Htruthy.
  rewrite (getUnified_miss _ _ _ Hmiss), tryCatch_run.
  destruct (refresh_silent env (ticked w) Hsilent Hstore Hsub)
    as (w1 & (Htok & Htrial & _ & Hclock & Hevs) & ->).
  cbn [localStore ticked] in *.
  assert (Hitem : item (localStore w) TRIAL_KEY = record)
    by (unfold item; rewrite Hrecord; reflexivity).
  unfold fromLocalTrial. rewrite Hitem, Htruthy.
  rewrite (evaluateLocalTrial_run _ _ _ Htruthy), Hclock. cbn [clockReads ticked].
  eexists. split; [reflexivity |].
  cbn [localStore trace cached ticked]. split; [congruence | exact Hevs].
Qed.

(** ** A refused pre-check *)

Lemma preCheck_refused env w deviceToken checkResult :
  Refuses env deviceToken checkResult ->
  truthy deviceToken = true ->
  preCheckTrial deviceToken env w =
  (Return (Some (deniedStatus (refusalDetail checkResult))),
   cached (deniedStatus (refusalDetail checkResult)) env
     (networked 1
        [EvFetch (trialCheckRequest deviceToken)
           (network env (fetches w) (trialCheckRequest deviceToken))] w)).
Proof.
  intros (Hnn & Hallowed & r & Hok & Hbody & Hnet) Htok.
  unfold preCheckTrial. rewrite Htok, tryCatch_run, bind_run.
  unfold fetch. rewrite Hnet, Hok. cbv zeta.
  rewrite bind_run. unfold json. rewrite Hbody. cbn [ret].
  rewrite bind_run. unfold getProp. rewrite Hnn. cbn [ret]. rewrite Hallowed. cbn [negb].
  rewrite bind_run. cbn [ret]. rewrite bind_run, cacheAndReturn_run.
  reflexivity.
Qed.

(** One call that asks the server. *)
Lemma refused_once forceRefresh env w deviceToken checkResult :
  RemoteSilent env -> StorageWorks env ->
  Refuses env deviceToken checkResult ->
  trialless deviceToken w ->
  cacheFresh forceRefresh env w = false ->
  exists w',
    getUnifiedSubscriptionStatus forceRefresh env w
      = (Return (deniedStatus (refusalDetail checkResult)), w')
    /\ trialless deviceToken w'
    /\ localStore w' !! TRIAL_KEY = localStore w !! TRIAL_KEY
    /\ exists evs, trace w' = evs ++ trace w /\ Forall quiet evs.
Proof.
  intros Hsilent Hstore Hrefuses (Htoken & Htruthy & Hnotrial & Hsub) Hmiss.
  rewrite (getUnified_miss _ _ _ Hmiss), tryCatch_run.
  destruct (refresh_silent env (ticked w) Hsilent Hstore Hsub)
    as (w1 & (Htok & Htrial & Hsub1 & Hclock & evs & Hevs & Hcalm) & ->).
  cbn [localStore ticked trace] in *.
  assert (Hitem : item (localStore w) DEVICE_TOKEN_KEY = deviceToken)
    by (unfold item; rewrite Htoken; reflexivity).
  unfold fromLocalTrial. rewrite Hnotrial, Hitem, bind_run.
  rewrite (preCheck_refused _ _ _ _ Hrefuses Htruthy). cbn [ret].
  eexists. split; [reflexivity |].
  cbn [localStore trace cached networked].
  split; [| split; [exact Htrial |]].
  - unfold trialless. cbn [localStore cached networked].
    split; [congruence |]. split; [assumption |]. split; [| auto].
    unfold item in *. rewrite Htrial. exact Hnotrial.
  - eexists (_ :: evs). split; [rewrite Hevs; reflexivity |].
    constructor; [reflexivity |].
    eapply Forall_impl; [exact Hcalm | intros e [Hq _]; exact Hq].
Qed.

(** ** A new user and a dead network *)

Lemma networkDown_silent env msg : NetworkDown env msg -> RemoteSilent env.
Proof. intros H k req r v Hr. rewrite H in Hr. discriminate. Qed.

Lemma new_user_offline env w deviceToken msg :
  cacheFresh false env w = false ->
  NetworkDown env msg -> notDenial msg -> StorageWorks env ->
  trialless deviceToken w ->
  exists w',
    getUnifiedSubscriptionStatus false env w = (Return (unverifiedStatus msg), w').
Proof.
  intros Hmiss Hdown (Hd1 & Hd2 & Hd3) Hstore (Htoken & Htruthy & Hnotrial & Hsub).
  rewrite (getUnified_miss _ _ _ Hmiss), tryCatch_run.
  destruct (refresh_silent env (ticked w) (networkDown_silent _ _ Hdown) Hstore Hsub)
    as (w1 & (Htok & _) & ->).
  cbn [localStore ticked] in *.
  assert (Hitem : item (localStore w) DEVICE_TOKEN_KEY = deviceToken)
    by (unfold item; rewrite Htoken; reflexivity).
  assert (Hitem1 : item (localStore w1) DEVICE_TOKEN_KEY = deviceToken)
    by (unfold item; rewrite Htok, Htoken; reflexivity).
  unfold fromLocalTrial. rewrite Hnotrial, Hitem, bind_run.
  unfold preCheckTrial. rewrite Htruthy, tryCatch_run, bind_run.
  unfold fetch at 1. rewrite Hdown. cbv zeta. cbn [ret].
  unfold issueTrial. rewrite tryCatch_run, bind_run.
  unfold startTrial. rewrite tryCatch_run, bind_run, getDeviceToken_run, Hstore.
  cbn [localStore networked localRead]. rewrite Hitem1, Htruthy. cbn [negb].
  rewrite bind_run. unfold fetch at 1. rewrite Hdown. cbv zeta. cbn [throw].
  rewrite bind_run. cbn [messageOf ret]. rewrite Hd1, Hd2, Hd3. cbn [orb].
  rewrite cacheAndReturn_run. eexists. reflexivity.
Qed.

(** The usage gate on the status of a failed trial start. *)
Lemma gate_unverified env w w' msg :
  getUnifiedSubscriptionStatus false env w = (Return (unverifiedStatus msg), w') ->
  canUseExtension env w =
  (Return {| canUse := false; reason := "trial_expired"; status := unverifiedStatus msg |}, w').
Proof.
  intros H. unfold canUseExtension. rewrite tryCatch_run, bind_run, H. reflexivity.
Qed.

(** No status of this service opens the gate's fallback: for every
    browser and every world whose cache is empty or holds a status the
    service produced, [canUseExtension] never answers [trial_fallback]. *)
Lemma trial_fallback_unreachable env w permission w' :
  (truthy (statusCache w) = true -> gateClosed (statusCache w)) ->
  canUseExtension env w = (Return permission, w') ->
  reason permission <> "trial_fallback".
Proof.
  intros Hcache. unfold canUseExtension. rewrite tryCatch_run, bind_run.
  destruct (getUnifiedSubscriptionStatus false env w) as [[s | e] w1] eqn:E.
  2: { intros [= <- _]. discriminate. }
  apply (getUnified_gateClosed _ _ _ _ _ Hcache) in E.
  rewrite bind_run. unfold getProp.
  destruct (nullish s); cbn [throw ret]; [intros [= <- _]; discriminate |].
  destruct (truthy (prop s "active")) eqn:Hactive; [intros [= <- _]; discriminate |].
  rewrite bind_run. cbn [ret].
  destruct (truthy (prop s "isTrialing")); [intros [= <- _]; discriminate |].
  repeat (rewrite bind_run; cbn [ret]).
  destruct E as [E | E]; [congruence |].
  rewrite E, andb_false_r. intros [= <- _]. discriminate.
Qed.

(** ** An existing trial record is never replaced by a new trial *)

Lemma trialKept_events base evs (w w' : World) :
  localStore w' = localStore w ->
  trace w' = evs ++ trace w ->
  Forall (fun e => ~ trialAttempt e) evs ->
  trialKept base w -> trialKept base w'.
Proof.
  intros Hstore Htrace Hevs [Htrial (evs0 & Hlog & Hquiet)].
  split; [rewrite Hstore; exact Htrial |].
  exists (evs ++ evs0). split.
  - rewrite Htrace, Hlog. apply app_assoc.
  - apply Forall_app. split; assumption.
Qed.

Section TrialKept.
Context (base : list Event).

Lemma keeps_trialKept_dateNow : keeps (trialKept base) dateNow.
Proof. intros env w H. exact H. Qed.

Lemma keeps_trialKept_setStatusCache v : keeps (trialKept base) (setStatusCache v).
Proof. intros env w H. exact H. Qed.

Lemma keeps_trialKept_setCacheTimestamp t : keeps (trialKept base) (setCacheTimestamp t).
Proof. intros env w H. exact H. Qed.

Lemma keeps_trialKept_readCache : keeps (trialKept base) readCache.
Proof. intros env w H. exact H. Qed.

Lemma keeps_trialKept_cacheAndReturn result : keeps (trialKept base) (cacheAndReturn result).
Proof. intros env w H. exact H. Qed.

Lemma keeps_trialKept_localGet keys : keeps (trialKept base) (localGet keys).
Proof.
  intros env w H. unfold localGet, localCall.
  destruct (localFault env (localOps w)); exact H.
Qed.

Lemma keeps_trialKept_localSet items :
  (forall m : gmap string JVal,
     truthy (item m TRIAL_KEY) = true -> truthy (item (setItems items m) TRIAL_KEY) = true) ->
  keeps (trialKept base) (localSet items).
Proof.
  intros Hupd env w [Htrial (evs & Hlog & Hquiet)]. unfold localSet, localCall.
  destruct (localFault env (localOps w)); cbn [snd]; [split; eauto |].
  split; [apply Hupd, Htrial |].
  exists (EvLocalSet items :: evs). split; [cbn; rewrite Hlog; reflexivity |].
  constructor; [intros [] | exact Hquiet].
Qed.

Lemma keeps_trialKept_makeWorkerRequest endpoint options :
  WORKER_URL +:+ endpoint <> WORKER_URL +:+ "/trial/check" ->
  WORKER_URL +:+ endpoint <> WORKER_URL +:+ "/trial/register" ->
  keeps (trialKept base) (makeWorkerRequest endpoint options).
Proof.
  intros H1 H2 env w H.
  destruct (makeWorkerRequest endpoint options env w) as [res w'] eqn:E.
  apply makeWorkerRequest_events in E as (n & evs & -> & Hevs & _).
  cbn [snd]. apply (trialKept_events base evs w); [reflexivity | reflexivity | | exact H].
  eapply Forall_impl; [exact (netEvents_calm _ _ _ H1 H2 Hevs) |].
  intros e [_ He]. exact He.
Qed.

Lemma keeps_trialKept_getDeviceToken : keeps (trialKept base) getDeviceToken.
Proof. intros env w H. rewrite getDeviceToken_run. exact H. Qed.

Lemma keeps_trialKept_checkServerStatus : keeps (trialKept base) _checkServerStatus.
Proof.
  unfold _checkServerStatus.
  apply keeps_bind; [apply keeps_trialKept_getDeviceToken | intros deviceToken].
  destruct (negb (truthy deviceToken)); [apply keeps_throw |].
  apply keeps_tryCatch; [| intros; apply keeps_throw].
  apply keeps_bind; [apply keeps_str | intros token].
  apply keeps_bind;
    [apply keeps_trialKept_makeWorkerRequest; apply (check_url_calm token) | intros data].
  apply keeps_bind; [| intros; apply keeps_ret].
  apply keeps_trialKept_localSet. intros m Hm. cbn [setItems foldr fst snd].
  unfold item in *. rewrite lookup_insert_ne by discriminate. exact Hm.
Qed.

Lemma keeps_trialKept_restoreTrialFromServer deviceToken :
  keeps (trialKept base) (restoreTrialFromServer deviceToken).
Proof.
  unfold restoreTrialFromServer.
  destruct (truthy deviceToken); [| apply keeps_ret].
  apply keeps_tryCatch; [| intros; apply keeps_ret].
  apply keeps_bind;
    [apply keeps_trialKept_makeWorkerRequest; apply status_url_calm | intros serverTrialCheck].
  apply keeps_bind; [apply keeps_getProp | intros hasTrial].
  destruct (truthy hasTrial); [| apply keeps_ret].
  apply keeps_bind; [apply keeps_getProp | intros trialEndsAt].
  apply keeps_bind; [apply keeps_getProp | intros startedAt].
  apply keeps_bind.
  { apply keeps_trialKept_localSet. intros m _. cbn [setItems foldr fst snd].
    unfold item. rewrite lookup_insert_eq. reflexivity. }
  intros _.
  apply keeps_bind; [apply keeps_trialKept_dateNow | intros now].
  apply keeps_bind; [apply keeps_host | intros trialEnd].
  destruct (before now trialEnd);
    (apply keeps_bind; [apply keeps_trialKept_cacheAndReturn | intros; apply keeps_ret]).
Qed.

Lemma keeps_trialKept_evaluateLocalTrial localTrial :
  keeps (trialKept base) (evaluateLocalTrial localTrial).
Proof.
  unfold evaluateLocalTrial.
  apply keeps_tryCatch; [| intros; apply keeps_trialKept_cacheAndReturn].
  apply keeps_bind; [apply keeps_trialKept_dateNow | intros now].
  apply keeps_bind; [apply keeps_getProp | intros trialEndsAt].
  apply keeps_bind; [apply keeps_host | intros trialEnd].
  destruct trialEnd as [e |]; [destruct (now <? e) |];
    apply keeps_trialKept_cacheAndReturn.
Qed.

(** With a trial record in storage the function never reaches the code
    that asks for a new trial. *)
Lemma keeps_trialKept_getUnifiedSubscriptionStatus forceRefresh :
  keeps (trialKept base) (getUnifiedSubscriptionStatus forceRefresh).
Proof.
  unfold getUnifiedSubscriptionStatus.
  apply keeps_tryCatch; [| intros; apply keeps_trialKept_cacheAndReturn].
  apply keeps_bind; [apply keeps_trialKept_dateNow | intros now].
  apply keeps_bind; [apply keeps_trialKept_readCache | intros cached].
  destruct (negb forceRefresh && truthy (fst cached) && (now - snd cached <? CACHE_DURATION));
    [apply keeps_ret |].
  apply keeps_bind.
  { apply keeps_tryCatch; [apply keeps_trialKept_checkServerStatus | intros; apply keeps_ret]. }
  intros serverStatus.
  destruct (truthy (andProp serverStatus "active")); [apply keeps_trialKept_cacheAndReturn |].
  apply keeps_bind; [apply keeps_trialKept_getDeviceToken | intros deviceToken].
  apply keeps_bind; [apply keeps_trialKept_restoreTrialFromServer | intros restored].
  destruct restored as [result |]; [apply keeps_ret |].
  intros env w H. rewrite bind_run.
  destruct (localFault env (localOps w)) as [msg |] eqn:Hfault.
  - unfold _getLocalData. rewrite bind_run. unfold localGet, localCall. rewrite Hfault.
    exact H.
  - rewrite (getLocalData_run _ _ Hfault). cbn [fst snd]. cbv zeta.
    destruct H as [Htrial Hevs]. rewrite Htrial.
    destruct (truthy (andProp (item (localStore w) SUBSCRIPTION_KEY) "active")).
    + apply keeps_at; [apply keeps_trialKept_cacheAndReturn | split; assumption].
    + apply keeps_at; [apply keeps_trialKept_evaluateLocalTrial | split; assumption].
Qed.
End TrialKept.

(** ** The scenarios *)

Lemma offline_silent time : RemoteSilent (browser time offline).
Proof. intros k req r v [=]. Qed.

Lemma browser_storage_works time net : StorageWorks (browser time net).
Proof. intros k. reflexivity. Qed.

Lemma refusing_silent time : RemoteSilent (browser time refusing).
Proof.
  intros k req r v. cbn [network browser]. unfold refusing, answer.
  destruct (String.eqb (url req) (WORKER_URL +:+ "/trial/check"));
    [| destruct (String.eqb (url req) (WORKER_URL +:+ "/trial/status"))];
    intros [= <-] _ [= <-]; split; reflexivity.
Qed.

(** * The claims *)

(** C1. A trial record reaches local storage only after the remote
    authority confirmed it.  If every write of the trial key logged so far
    was preceded by a 2xx answer for the same device token -- of
    [/trial/register] with [success] for a new record, of [/trial/status]
    with [hasTrial] for a restored one -- then the same holds after
    [getUnifiedSubscriptionStatus] and after [startTrial], however they
    end; and the trial record local storage holds afterwards is the one it
    held before or one written by such a confirmed write. *)
Theorem trial_write_needs_server_approval forceRefresh env w :
  justified w ->
  justified (snd (getUnifiedSubscriptionStatus forceRefresh env w))
  /\ storedTrialApproved w (snd (getUnifiedSubscriptionStatus forceRefresh env w))
  /\ justified (snd (startTrial env w))
  /\ storedTrialApproved w (snd (startTrial env w)).
Proof.
  intros H. repeat split.
  - apply keeps_justified_getUnifiedSubscriptionStatus, H.
  - intros record. apply stored_trial_approved;
      [apply keeps_justified_getUnifiedSubscriptionStatus
      | apply keeps_logged_getUnifiedSubscriptionStatus | exact H].
  - apply keeps_justified_startTrial, H.
  - intros record. apply stored_trial_approved;
      [apply keeps_justified_startTrial | apply keeps_logged_startTrial | exact H].
Qed.

Lemma trial_write_needs_server_approval_witness :
  justified newInstall
  /\ justified (snd (getUnifiedSubscriptionStatus false grantingBrowser newInstall))
  /\ storedTrialApproved newInstall
       (snd (getUnifiedSubscriptionStatus false grantingBrowser newInstall))
  /\ justified (snd (startTrial grantingBrowser newInstall))
  /\ storedTrialApproved newInstall (snd (startTrial grantingBrowser newInstall)).
Proof.
  split; [exact Logic.I |].
  apply (trial_write_needs_server_approval false grantingBrowser newInstall).
  exact Logic.I.
Defined.

(** In that scenario a trial record is indeed written, so the log the
    invariant speaks of has a write to justify. *)
Example granted_trial_is_written :
  exists record,
    localStore (snd (getUnifiedSubscriptionStatus false grantingBrowser newInstall))
      !! TRIAL_KEY = Some record
    /\ prop record "deviceToken" = JStr "device_1"
    /\ exists newest items older,
         trace (snd (getUnifiedSubscriptionStatus false grantingBrowser newInstall))
           = newest :: EvLocalSet items :: older
         /\ assoc TRIAL_KEY items = Some record.
Proof.
  eexists. split; [vm_compute; reflexivity |]. split; [reflexivity |].
  eexists _, _, _. split; [vm_compute; reflexivity | reflexivity].
Qed.

(** C2, as the code behaves.  For a device with a token but no local
    subscription or trial, when every fetch fails in transport with a
    message that is no refusal, [getUnifiedSubscriptionStatus] returns the
    [error] plan with the message 'Unable to verify trial status', and
    [canUseExtension] answers [canUse = false] with reason [trial_expired]:
    the [trial_fallback] branch, which tests for the message 'Error
    starting trial', is not taken. *)
Theorem offline_new_user_is_blocked env w deviceToken msg :
  cacheFresh false env w = false ->
  NetworkDown env msg -> notDenial msg -> StorageWorks env ->
  trialless deviceToken w ->
  fst (getUnifiedSubscriptionStatus false env w) = Return (unverifiedStatus msg)
  /\ prop (unverifiedStatus msg) "plan" = JStr "error"
  /\ fst (canUseExtension env w)
     = Return {| canUse := false; reason := "trial_expired";
                 status := unverifiedStatus msg |}.
Proof.
  intros Hmiss Hdown Hmsg Hstore Hw.
  destruct (new_user_offline _ _ _ _ Hmiss Hdown Hmsg Hstore Hw) as (w' & Hrun).
  rewrite (gate_unverified _ _ _ _ Hrun), Hrun. repeat split.
Qed.

Lemma offline_new_user_is_blocked_witness :
  fst (getUnifiedSubscriptionStatus false offlineBrowser newInstall)
    = Return (unverifiedStatus "Failed to fetch")
  /\ prop (unverifiedStatus "Failed to fetch") "plan" = JStr "error"
  /\ fst (canUseExtension offlineBrowser newInstall)
     = Return {| canUse := false; reason := "trial_expired";
                 status := unverifiedStatus "Failed to fetch" |}.
Proof.
  apply (offline_new_user_is_blocked offlineBrowser newInstall
           (JStr "device_1") "Failed to fetch").
  - reflexivity.
  - intros k req. reflexivity.
  - repeat split.
  - apply browser_storage_works.
  - repeat split; vm_compute; reflexivity.
Defined.

(** C3. Whenever the remote subscription check is made and succeeds with
    [active] truthy, [getUnifiedSubscriptionStatus] returns the server's
    status (and caches it), whatever local storage holds: a trial that is
    running, expired, denied or corrupt is never looked at. *)
Theorem remote_active_wins forceRefresh env w data w1 :
  cacheFresh forceRefresh env w = false ->
  _checkServerStatus env (ticked w) = (Return data, w1) ->
  truthy (andProp data "active") = true ->
  getUnifiedSubscriptionStatus forceRefresh env w = (Return data, cached data env w1).
Proof.
  intros Hmiss Hcheck Hactive.
  rewrite (getUnified_miss _ _ _ Hmiss).
  rewrite tryCatch_run. unfold refreshStatus.
  rewrite bind_run, tryCatch_run, Hcheck, Hactive, cacheAndReturn_run.
  reflexivity.
Qed.

Lemma remote_active_wins_witness :
  cacheFresh false subscribedBrowser corruptTrialInstall = false
  /\ truthy (andProp proMonthly "active") = true
  /\ getUnifiedSubscriptionStatus false subscribedBrowser corruptTrialInstall
     = (Return proMonthly,
        cached proMonthly subscribedBrowser
          (snd (_checkServerStatus subscribedBrowser (ticked corruptTrialInstall)))).
Proof.
  split; [reflexivity |]. split; [reflexivity |].
  apply remote_active_wins; [reflexivity | vm_compute; reflexivity | reflexivity].
Defined.



(** C5. When evaluation reaches the local trial record -- no fresh cache,
    a server that reports neither a subscription nor a trial, no active
    local subscription -- and the record's [trialEndsAt] parses to
    [trialEnd], the result is the [trial] status with [isTrialing] exactly
    when [now < trialEnd], [now] being the reading of the clock taken for
    the comparison; from [now = trialEnd] on it is [trial_expired], not
    active and not trialing: the interval is closed-open.  The plan of the
    status returned is ['trial'] in the first case and ['trial_expired'] in
    the second, and in both it carries the record's [trialEndsAt]. *)
Theorem local_trial_interval forceRefresh env w record trialEnd :
  cacheFresh forceRefresh env w = false ->
  RemoteSilent env -> StorageWorks env ->
  inactive (item (localStore w) SUBSCRIPTION_KEY) ->
  localStore w !! TRIAL_KEY = Some record ->
  truthy record = true ->
  parseDate env (prop record "trialEndsAt") = Some trialEnd ->
  let now := clock env (S (clockReads w)) in
  exists s,
    fst (getUnifiedSubscriptionStatus forceRefresh env w) = Return s
    /\ (s = trialStatus (prop record "trialEndsAt") <-> now < trialEnd)
    /\ (s = expiredStatus (prop record "trialEndsAt") "Trial expired" <-> trialEnd <= now)
    /\ (truthy (prop s "isTrialing") = true <-> now < trialEnd)
    /\ truthy (prop s "active") = false
    /\ (prop s "plan" = JStr "trial" <-> now < trialEnd)
    /\ (prop s "plan" = JStr "trial_expired" <-> trialEnd <= now)
    /\ (prop s "isTrialing" = JBool true <-> now < trialEnd)
    /\ (prop s "isTrialing" = JBool false <-> trialEnd <= now)
    /\ prop s "active" = JBool false
    /\ prop s "trialEndsAt" = prop record "trialEndsAt".
Proof.
  intros Hmiss Hsilent Hstore Hsub Hrecord Htruthy Hparse now.
  destruct (local_trial_decides _ _ _ _ Hmiss Hsilent Hstore Hsub Hrecord Htruthy)
    as (w' & Hrun & _).
  rewrite Hrun. cbn [fst]. eexists. split; [reflexivity |].
  unfold localTrialStatus. cbv zeta. rewrite Hparse. fold now.
  destruct (now <? trialEnd) eqn:Hlt.
  - apply Z.ltb_lt in Hlt.
    repeat split; intros; try reflexivity; try assumption; try discriminate; lia.
  - apply Z.ltb_ge in Hlt.
    repeat split; intros; try reflexivity; try assumption; try discriminate; lia.
Qed.

Lemma local_trial_interval_witness :
  parseDate offlineBrowser (prop (trialRecord (JNum 1001)) "trialEndsAt") = Some 1001
  /\ clock offlineBrowser (S (clockReads endingTrialInstall)) = 1001
  /\ exists s,
       fst (getUnifiedSubscriptionStatus false offlineBrowser endingTrialInstall) = Return s
       /\ (s = trialStatus (JNum 1001) <-> 1001 < 1001)
       /\ (s = expiredStatus (JNum 1001) "Trial expired" <-> 1001 <= 1001)
       /\ (truthy (prop s "isTrialing") = true <-> 1001 < 1001)
       /\ truthy (prop s "active") = false
       /\ (prop s "plan" = JStr "trial" <-> 1001 < 1001)
       /\ (prop s "plan" = JStr "trial_expired" <-> 1001 <= 1001)
       /\ (prop s "isTrialing" = JBool true <-> 1001 < 1001)
       /\ (prop s "isTrialing" = JBool false <-> 1001 <= 1001)
       /\ prop s "active" = JBool false
       /\ prop s "trialEndsAt" = JNum 1001.
Proof.
  split; [reflexivity |]. split; [reflexivity |].
  apply (local_trial_interval false offlineBrowser endingTrialInstall
           (trialRecord (JNum 1001)) 1001).
  - reflexivity.
  - apply offline_silent.
  - apply browser_storage_works.
  - vm_compute. reflexivity.
  - vm_compute. reflexivity.
  - reflexivity.
  - reflexivity.
Defined.

(** C6. A local trial record whose [trialEndsAt] does not parse.  Whatever
    the cache and the server say, after the call a trial record is still in
    local storage and nothing logged since the call began asks
    [/trial/check] or [/trial/register]: no new trial is issued or
    attempted.  When evaluation reaches the record -- no fresh cache, a
    server that reports neither a subscription nor a trial, no active local
    subscription -- the result is [trial_expired] with [isTrialing] false,
    and the very record is still stored. *)
Theorem corrupt_trial_is_expired forceRefresh env w record :
  localStore w !! TRIAL_KEY = Some record ->
  truthy record = true ->
  parseDate env (prop record "trialEndsAt") = None ->
  trialKept (trace w) (snd (getUnifiedSubscriptionStatus forceRefresh env w))
  /\ (cacheFresh forceRefresh env w = false ->
      RemoteSilent env -> StorageWorks env ->
      inactive (item (localStore w) SUBSCRIPTION_KEY) ->
      exists s w',
        getUnifiedSubscriptionStatus forceRefresh env w = (Return s, w')
        /\ s = expiredStatus (prop record "trialEndsAt") "Trial expired (corrupted date)"
        /\ prop s "plan" = JStr "trial_expired"
        /\ prop s "isTrialing" = JBool false
        /\ localStore w' !! TRIAL_KEY = Some record
        /\ exists evs, trace w' = evs ++ trace w /\ Forall calm evs).
Proof.
  intros Hrecord Htruthy Hparse. split.
  - apply keeps_trialKept_getUnifiedSubscriptionStatus. split.
    + unfold item. rewrite Hrecord. exact Htruthy.
    + exists []. split; [reflexivity | constructor].
  - intros Hmiss Hsilent Hstore Hsub.
    destruct (local_trial_decides _ _ _ _ Hmiss Hsilent Hstore Hsub Hrecord Htruthy)
      as (w' & Hrun & Hkept & Hevs).
    unfold localTrialStatus in Hrun. cbv zeta in Hrun. rewrite Hparse in Hrun.
    eexists _, w'. split; [exact Hrun |].
    repeat split; try reflexivity; assumption.
Qed.

Lemma corrupt_trial_is_expired_witness :
  trialKept (trace corruptTrialInstall)
    (snd (getUnifiedSubscriptionStatus false offlineBrowser corruptTrialInstall))
  /\ exists s w',
       getUnifiedSubscriptionStatus false offlineBrowser corruptTrialInstall = (Return s, w')
       /\ s = expiredStatus (JStr "not a date") "Trial expired (corrupted date)"
       /\ prop s "plan" = JStr "trial_expired"
       /\ prop s "isTrialing" = JBool false
       /\ localStore w' !! TRIAL_KEY = Some (trialRecord (JStr "not a date"))
       /\ exists evs, trace w' = evs ++ trace corruptTrialInstall /\ Forall calm evs.
Proof.
  destruct (corrupt_trial_is_expired false offlineBrowser corruptTrialInstall
              (trialRecord (JStr "not a date")))
    as [Hkept Hreached].
  - vm_compute. reflexivity.
  - reflexivity.
  - reflexivity.
  - split; [exact Hkept |]. apply Hreached.
    + reflexivity.
    + apply offline_silent.
    + apply browser_storage_works.
    + vm_compute. reflexivity.
Defined.

(** C7, as the code has it.  For every endpoint and every [options],
    with or without headers of the caller: [makeWorkerRequest] makes
    between one and three attempts, all of the same request; the request
    carries the caller's method, body and headers, and its [Content-Type]
    is [application/json] unless the caller's [options.headers] has a
    [Content-Type] of its own, which then replaces it; an attempt fails on
    a transport failure, on any non-2xx status (4xx and 5xx alike) and on
    an unparseable body, and every failed attempt but the third is
    followed by another; it waits 1 s after the first failure and 2 s
    after the second, and nothing after the third; the result is the value
    of the first successful attempt or, after three failures, the last
    error. *)
Theorem makeWorkerRequest_policy endpoint options env w :
  exists n evs,
    snd (makeWorkerRequest endpoint options env w) = networked n evs w
    /\ (1 <= n <= 3)%nat
    /\ attemptsOf evs
       = map (fun k => (workerRequest endpoint options,
                        network env (k + fetches w)%nat (workerRequest endpoint options)))
           (seq 0 n)
    /\ headers (workerRequest endpoint options) !! "Content-Type"
       = match optHeaders options !! "Content-Type" with
         | Some own => Some own
         | None => Some "application/json"
         end
    /\ (forall name, name <> "Content-Type" ->
          headers (workerRequest endpoint options) !! name = optHeaders options !! name)
    /\ url (workerRequest endpoint options) = WORKER_URL +:+ endpoint
    /\ method (workerRequest endpoint options) = optMethod options
    /\ reqBody (workerRequest endpoint options) = optBody options
    /\ sleepsOf evs = take (n - 1) [1000; 2000]
    /\ (forall k, (k < n - 1)%nat ->
          exists e, attemptOutcome
                      (network env (k + fetches w)%nat (workerRequest endpoint options))
                    = Throw e)
    /\ fst (makeWorkerRequest endpoint options env w)
       = attemptOutcome
           (network env (n - 1 + fetches w)%nat (workerRequest endpoint options))
    /\ ((n < 3)%nat -> exists v, fst (makeWorkerRequest endpoint options env w) = Return v)
    /\ (forall r, ok r = false -> attemptOutcome (Responded r) = Throw (httpError r))
    /\ (forall msg, attemptOutcome (NetworkFailure msg) = Throw (Error msg)).
Proof.
  assert (Hct : headers (workerRequest endpoint options) !! "Content-Type"
                = match optHeaders options !! "Content-Type" with
                  | Some own => Some own
                  | None => Some "application/json"
                  end).
  { cbn [headers workerRequest].
    destruct (optHeaders options !! "Content-Type") as [own |] eqn:Hown.
    - apply lookup_union_Some_l. exact Hown.
    - rewrite lookup_union_r by exact Hown. apply lookup_singleton_eq. }
  assert (Hother : forall name, name <> "Content-Type" ->
            headers (workerRequest endpoint options) !! name = optHeaders options !! name).
  { intros name Hname. cbn [headers workerRequest].
    rewrite lookup_union, lookup_singleton_ne by congruence.
    destruct (optHeaders options !! name); reflexivity. }
  assert (Hnon2xx : forall r, ok r = false -> attemptOutcome (Responded r) = Throw (httpError r)).
  { intros r Hr. cbn [attemptOutcome]. rewrite Hr. reflexivity. }
  rewrite makeWorkerRequest_unrolled. cbv zeta. unfold threeAttempts.
  set (req := workerRequest endpoint options) in *.
  destruct (attemptOutcome (network env (fetches w) req)) as [v1 | e1] eqn:H1.
  { exists 1%nat, [EvFetch req (network env (fetches w) req)].
    repeat split; try reflexivity; try assumption; try lia.
    - cbn. symmetry. exact H1.
    - intros _. exists v1. reflexivity. }
  destruct (attemptOutcome (network env (S (fetches w)) req)) as [v2 | e2] eqn:H2.
  { exists 2%nat, [EvFetch req (network env (S (fetches w)) req); EvSleep 1000;
                   EvFetch req (network env (fetches w) req)].
    repeat split; try reflexivity; try assumption; try lia.
    - intros k Hk. assert (k = 0)%nat as -> by lia. exists e1. exact H1.
    - cbn. symmetry. exact H2.
    - intros _. exists v2. reflexivity. }
  exists 3%nat, [EvFetch req (network env (S (S (fetches w))) req); EvSleep 2000;
                 EvFetch req (network env (S (fetches w)) req); EvSleep 1000;
                 EvFetch req (network env (fetches w) req)].
  repeat split; try reflexivity; try assumption; try lia.
  intros k Hk. assert (k = 0 \/ k = 1)%nat as [-> | ->] by lia; eauto.
Qed.

Lemma makeWorkerRequest_policy_witness :
  exists n evs,
    snd (makeWorkerRequest "/check" plainTextOptions offlineBrowser newInstall)
      = networked n evs newInstall
    /\ n = 3%nat
    /\ headers (workerRequest "/check" plainTextOptions) !! "Content-Type" = Some "text/plain"
    /\ sleepsOf evs = [1000; 2000]
    /\ fst (makeWorkerRequest "/check" plainTextOptions offlineBrowser newInstall)
       = Throw (Error "Failed to fetch").
Proof.
  destruct (makeWorkerRequest_policy "/check" plainTextOptions offlineBrowser newInstall)
    as (n & evs & Hw & Hn & _ & Hct & _ & _ & _ & _ & Hsleeps & _ & Hres & Hearly & _).
  assert (n = 3)%nat as ->.
  { destruct (Nat.eq_dec n 3) as [E | E]; [exact E |].
    destruct Hearly as [v Hv]; [lia | discriminate Hv]. }
  exists 3%nat, evs. repeat split; assumption.
Defined.

(** C7 as stated fails.  Three failed attempts with a caller-supplied
    [Content-Type]: the waits are 1 s and 2 s and there is no third wait
    of 4 s, and every attempt carries the caller's content type, not
    JSON. *)
Lemma makeWorkerRequest_as_stated_counterexample :
  fst (makeWorkerRequest "/check" plainTextOptions offlineBrowser newInstall)
    = Throw (Error "Failed to fetch")
  /\ sleepsOf (trace (snd (makeWorkerRequest "/check" plainTextOptions
                             offlineBrowser newInstall)))
     = [1000; 2000]
  /\ sleepsOf (trace (snd (makeWorkerRequest "/check" plainTextOptions
                             offlineBrowser newInstall)))
     <> [1000; 2000; 4000]
  /\ map (fun a => headers (fst a) !! "Content-Type")
       (attemptsOf (trace (snd (makeWorkerRequest "/check" plainTextOptions
                                  offlineBrowser newInstall))))
     = [Some "text/plain"; Some "text/plain"; Some "text/plain"].
Proof.
  split; [vm_compute; reflexivity |].
  split; [vm_compute; reflexivity |].
  split; [vm_compute; discriminate |].
  vm_compute. reflexivity.
Qed.

(** C8. When the server has no subscription and no trial for the device
    and answers the [/trial/check] pre-check with [allowed] falsy, a device
    without local trial record gets a status whose [plan] is
    ['trial_denied'], not active and not trialing; its [errorDetails] is
    one message for the reason [device_already_used] and another, different
    one for every other reason (the network limit); no event of the call
    writes the trial key, and local storage still has no trial record; a
    further call, forced or not, returns the same status and still writes
    none. *)
Theorem refused_precheck_is_final forceRefresh again env w deviceToken checkResult :
  RemoteSilent env -> StorageWorks env ->
  Refuses env deviceToken checkResult ->
  trialless deviceToken w ->
  cacheFresh forceRefresh env w = false ->
  exists s w1 w2,
    getUnifiedSubscriptionStatus forceRefresh env w = (Return s, w1)
    /\ s = deniedStatus (refusalDetail checkResult)
    /\ prop s "plan" = JStr "trial_denied"
    /\ prop s "active" = JBool false
    /\ prop s "isTrialing" = JBool false
    /\ prop s "message" = JStr "Trial not available"
    /\ (prop checkResult "reason" = JStr "device_already_used" ->
        prop s "errorDetails" = JStr "This device has already used a free trial")
    /\ (prop checkResult "reason" <> JStr "device_already_used" ->
        prop s "errorDetails" = JStr "A trial has already been used from this network")
    /\ JStr "This device has already used a free trial"
       <> JStr "A trial has already been used from this network"
    /\ truthy (item (localStore w1) TRIAL_KEY) = false
    /\ (exists evs, trace w1 = evs ++ trace w /\ Forall quiet evs)
    /\ getUnifiedSubscriptionStatus again env w1 = (Return s, w2)
    /\ truthy (item (localStore w2) TRIAL_KEY) = false
    /\ (exists evs, trace w2 = evs ++ trace w1 /\ Forall quiet evs).
Proof.
  intros Hsilent Hstore Hrefuses Hw Hmiss.
  destruct (refused_once _ _ _ _ _ Hsilent Hstore Hrefuses Hw Hmiss)
    as (w1 & Hrun1 & Hw1 & Hkept1 & Hevs1).
  assert (Hdetail1 : prop checkResult "reason" = JStr "device_already_used" ->
            prop (deniedStatus (refusalDetail checkResult)) "errorDetails"
            = JStr "This device has already used a free trial").
  { intros H. unfold refusalDetail. rewrite H. reflexivity. }
  assert (Hdetail2 : prop checkResult "reason" <> JStr "device_already_used" ->
            prop (deniedStatus (refusalDetail checkResult)) "errorDetails"
            = JStr "A trial has already been used from this network").
  { intros H. unfold refusalDetail.
    destruct (strictEqStr (prop checkResult "reason") "device_already_used") eqn:E;
      [| reflexivity].
    exfalso. apply H. unfold strictEqStr in E.
    destruct (prop checkResult "reason"); try discriminate.
    apply String.eqb_eq in E. congruence. }
  assert (Hdiffer : JStr "This device has already used a free trial"
                    <> JStr "A trial has already been used from this network")
    by discriminate.
  destruct (cacheFresh again env w1) eqn:Hfresh.
  - destruct again; [discriminate |].
    pose proof (getUnified_caches _ _ _ _ _ Hrun1) as [Hcache _].
    exists (deniedStatus (refusalDetail checkResult)), w1, (ticked w1).
    rewrite (getUnified_hit _ _ Hfresh), Hcache.
    destruct Hw1 as (_ & _ & Hnotrial & _).
    repeat split; try assumption; try reflexivity.
    exists []. split; [reflexivity | constructor].
  - destruct (refused_once _ _ _ _ _ Hsilent Hstore Hrefuses Hw1 Hfresh)
      as (w2 & Hrun2 & Hw2 & Hkept2 & Hevs2).
    exists (deniedStatus (refusalDetail checkResult)), w1, w2.
    destruct Hw1 as (_ & _ & Hnotrial1 & _), Hw2 as (_ & _ & Hnotrial2 & _).
    repeat split; try assumption; reflexivity.
Qed.

Lemma refused_precheck_is_final_witness :
  exists s w1 w2,
    getUnifiedSubscriptionStatus false refusingBrowser newInstall = (Return s, w1)
    /\ prop s "plan" = JStr "trial_denied"
    /\ prop s "errorDetails" = JStr "This device has already used a free trial"
    /\ truthy (item (localStore w1) TRIAL_KEY) = false
    /\ getUnifiedSubscriptionStatus true refusingBrowser w1 = (Return s, w2)
    /\ truthy (item (localStore w2) TRIAL_KEY) = false.
Proof.
  destruct (refused_precheck_is_final false true refusingBrowser newInstall
              (JStr "device_1") alreadyUsed)
    as (s & w1 & w2 & H1 & _ & Hplan & _ & _ & _ & Hdetails & _ & _ & H2 & _ & H3 & H4 & _).
  - apply refusing_silent.
  - apply browser_storage_works.
  - split; [reflexivity |]. split; [reflexivity |].
    eexists. split; [| split; [| intros k; vm_compute; reflexivity]]; reflexivity.
  - repeat split; vm_compute; reflexivity.
  - reflexivity.
  - exists s, w1, w2. repeat split; try assumption. apply Hdetails. reflexivity.
Defined.

(** C9. [getUnifiedSubscriptionStatus] never throws.  For every browser
    and world -- any storage contents, a missing device token, storage
    faults, and any mix of answers, refusals and transport failures -- it
    returns a status that is truthy and is the one left in the cache.  The
    status is the cached one, or an object: what the refresh returned or,
    when the refresh threw, the object whose [plan] is ['error'], whose
    [message] is ['Error checking subscription'] and which is neither
    active nor trialing. *)
Theorem getUnifiedSubscriptionStatus_total forceRefresh env w :
  exists s w',
    getUnifiedSubscriptionStatus forceRefresh env w = (Return s, w')
    /\ isCached s w'
    /\ (cacheFresh forceRefresh env w = true /\ s = statusCache w
        \/ cacheFresh forceRefresh env w = false
           /\ isObject s
           /\ (fst (refreshStatus env (ticked w)) = Return s
               \/ (exists e, fst (refreshStatus env (ticked w)) = Throw e)
                  /\ s = errorStatus
                  /\ prop s "plan" = JStr "error"
                  /\ prop s "message" = JStr "Error checking subscription"
                  /\ prop s "active" = JBool false
                  /\ prop s "isTrialing" = JBool false)).
Proof.
  destruct (cacheFresh forceRefresh env w) eqn:Hfresh.
  - destruct forceRefresh; [discriminate |].
    exists (statusCache w), (ticked w).
    pose proof (getUnified_hit _ _ Hfresh) as Hrun.
    split; [exact Hrun |]. split; [eapply getUnified_caches, Hrun | left; auto].
  - pose proof (getUnified_miss _ _ _ Hfresh) as Hrun.
    destruct (tryCatch refreshStatus (fun _ => cacheAndReturn errorStatus) env (ticked w))
      as [res w1] eqn:Htry.
    pose proof Htry as Hobj. rewrite tryCatch_run in Htry.
    destruct (refreshStatus env (ticked w)) as [[s | e] w1'] eqn:E.
    + injection Htry as <- <-. exists s, w1'. split; [exact Hrun |].
      split; [eapply getUnified_caches, Hrun |]. right.
      split; [reflexivity |]. split; [eapply refreshStatus_object, Hobj | left; reflexivity].
    + rewrite cacheAndReturn_run in Htry. injection Htry as <- <-.
      exists errorStatus, (cached errorStatus env w1'). split; [exact Hrun |].
      split; [eapply getUnified_caches, Hrun |]. right.
      split; [reflexivity |]. split; [exact Logic.I |].
      right. split; [exists e; reflexivity |]. repeat split.
Qed.

(** C10. The checkout URL ignores [plan]: for every e-mail, world and
    browser, any two plans give the same outcome -- the same URL or the
    same error -- and the same world; a URL that is returned is built from
    the encodings of the e-mail and of the stored device token only. *)
Theorem generateCheckoutUrl_ignores_plan email plan1 plan2 env w :
  generateCheckoutUrl email plan1 env w = generateCheckoutUrl email plan2 env w
  /\ match fst (generateCheckoutUrl email plan1 env w) with
     | Return checkoutUrl =>
         exists encodedEmail encodedToken,
           encodeURIComponent env (strOf env email) = Some encodedEmail
           /\ encodeURIComponent env (strOf env (item (localStore w) DEVICE_TOKEN_KEY))
              = Some encodedToken
           /\ checkoutUrl =
              checkoutBaseUrl +:+ "?checkout[email]=" +:+ encodedEmail
                +:+ "&checkout[custom][deviceToken]=" +:+ encodedToken
     | Throw _ => True
     end.
Proof.
  split; [reflexivity |].
  unfold generateCheckoutUrl. rewrite bind_run, getDeviceToken_run.
  destruct (localFault env (localOps w)); [exact Logic.I |].
  destruct (truthy (item (localStore w) DEVICE_TOKEN_KEY)); [| exact Logic.I].
  cbn [negb]. rewrite bind_run. unfold localRemove, localCall.
  cbn [localOps localRead].
  destruct (localFault env (S (localOps w))); [exact Logic.I |].
  rewrite bind_run. cbn [clearStatusCache bind setStatusCache setCacheTimestamp].
  rewrite bind_run, str_run, bind_run. unfold encode at 1.
  destruct (encodeURIComponent env (strOf env email)) as [encodedEmail |];
    [| exact Logic.I].
  rewrite bind_run, str_run, bind_run. unfold encode.
  destruct (encodeURIComponent env (strOf env (item (localStore w) DEVICE_TOKEN_KEY)))
    as [encodedToken |]; [| exact Logic.I].
  cbn [ret fst]. eauto.
Qed.

(** * The rest of the service *)

(** ** The scenarios, continued *)

Lemma browser_sync_works time net : SyncWorks (browser time net).
Proof. intros k. reflexivity. Qed.

Lemma offline_down time n : NetworkDownSince (browser time offline) n.
Proof. intros k req _. exists "Failed to fetch". reflexivity. Qed.

Lemma restoring_down time : NetworkDownSince (browser time restoring) 2.
Proof.
  intros k req Hk. exists "Failed to fetch". cbn [network browser]. unfold restoring.
  destruct (Nat.ltb_spec k 2); [lia | reflexivity].
Qed.

(** ** The device token *)

Lemma localGet_run keys env w :
  localFault env (localOps w) = None ->
  localGet keys env w = (Return (pick keys (localStore w)), localRead w).
Proof. intros H. unfold localGet, localCall. rewrite H. reflexivity. Qed.

Lemma localSet_run items env w :
  localFault env (localOps w) = None ->
  localSet items env w = (Return tt, localWritten items w).
Proof. intros H. unfold localSet, localCall. rewrite H. reflexivity. Qed.

Lemma localSet_fault items env w msg :
  localFault env (localOps w) = Some msg ->
  localSet items env w = (Throw (Error msg), localRead w).
Proof. intros H. unfold localSet, localCall. rewrite H. reflexivity. Qed.

Lemma syncToken_run env w :
  tryCatch
    (let* sync := syncGet ["persistent_device_token"] in
     ret (item sync "persistent_device_token"))
    (fun _ => ret JNull) env w
  = (Return (match syncFault env (syncOps w) with
             | Some _ => JNull
             | None => item (syncStore w) "persistent_device_token"
             end), syncRead w).
Proof.
  rewrite tryCatch_run, bind_run. unfold syncGet.
  destruct (syncFault env (syncOps w)); cbn -[pick item]; [reflexivity |].
  rewrite item_pick by apply list_elem_of_here. reflexivity.
Qed.

Lemma item_insert (m : gmap string JVal) k v : item (<[k := v]> m) k = v.
Proof. unfold item. rewrite lookup_insert_eq. reflexivity. Qed.

Lemma item_insert_ne (m : gmap string JVal) k k' v :
  k <> k' -> item (<[k := v]> m) k' = item m k'.
Proof. intros H. unfold item. rewrite lookup_insert_ne by exact H. reflexivity. Qed.

(** The call that finds a token in local storage. *)
Lemma initializeDeviceToken_existing page env w :
  localFault env (localOps w) = None ->
  truthy (item (localStore w) DEVICE_TOKEN_KEY) = true ->
  initializeDeviceToken page env w = (Return tt, localRead w).
Proof.
  intros Hget Htoken. unfold initializeDeviceToken.
  rewrite tryCatch_run, bind_run, localGet_run by exact Hget.
  rewrite item_pick by apply list_elem_of_here. rewrite Htoken. reflexivity.
Qed.

(** The call that finds a token in sync storage only. *)
Lemma initializeDeviceToken_synced page env w :
  localFault env (localOps w) = None ->
  localFault env (S (localOps w)) = None ->
  syncFault env (syncOps w) = None ->
  truthy (item (localStore w) DEVICE_TOKEN_KEY) = false ->
  truthy (item (syncStore w) "persistent_device_token") = true ->
  initializeDeviceToken page env w
  = (Return tt,
     localWritten [(DEVICE_TOKEN_KEY, item (syncStore w) "persistent_device_token")]
       (syncRead (localRead w))).
Proof.
  intros Hget Hset Hsync Hnone Hsynced. unfold initializeDeviceToken.
  rewrite tryCatch_run, bind_run, localGet_run by exact Hget.
  rewrite item_pick by apply list_elem_of_here. rewrite Hnone.
  rewrite bind_run, syncToken_run. cbn [syncOps localRead]. rewrite Hsync.
  cbn [syncStore localRead]. rewrite Hsynced, bind_run. cbn [ret].
  rewrite localSet_run by exact Hset. reflexivity.
Qed.

(** The token a device without one ends up with, and the world it is
    written in. *)
Lemma initializeDeviceToken_new page env w :
  localFault env (localOps w) = None ->
  localFault env (S (localOps w)) = None ->
  truthy (item (localStore w) DEVICE_TOKEN_KEY) = false ->
  match syncFault env (syncOps w) with
  | Some _ => True
  | None => truthy (item (syncStore w) "persistent_device_token") = false
  end ->
  let token := generatedToken page (clock env (clockReads w)) in
  let synced :=
    [("persistent_device_token", JStr token);
     ("device_created_at", JStr (toISOString env (clock env (S (clockReads w)))))] in
  initializeDeviceToken page env w
  = (Return tt,
     localWritten [(DEVICE_TOKEN_KEY, JStr token)]
       (match syncFault env (S (syncOps w)) with
        | Some _ => syncRead (ticked (ticked (syncRead (localRead w))))
        | None => syncWritten synced (ticked (ticked (syncRead (localRead w))))
        end)).
Proof.
  intros Hget Hset Hnone Hsync. cbv zeta. unfold initializeDeviceToken.
  rewrite tryCatch_run, bind_run, localGet_run by exact Hget.
  rewrite item_pick by apply list_elem_of_here. rewrite Hnone.
  rewrite bind_run, syncToken_run. cbn [syncOps localRead].
  assert (Hfalsy : truthy (match syncFault env (syncOps w) with
                           | Some _ => JNull
                           | None => item (syncStore (localRead w)) "persistent_device_token"
                           end) = false).
  { destruct (syncFault env (syncOps w)); [reflexivity | exact Hsync]. }
  rewrite Hfalsy. clear Hfalsy.
  rewrite bind_run, bind_run. unfold generateDeviceToken.
  rewrite bind_run, dateNow_run. cbv zeta. cbn [ret].
  fold (generatedToken page (clock env (clockReads (syncRead (localRead w))))).
  cbn [clockReads syncRead localRead].
  rewrite bind_run, tryCatch_run, bind_run, dateNow_run, bind_run. cbn [host].
  unfold syncSet. cbn [syncOps ticked syncRead localRead clockReads].
  destruct (syncFault env (S (syncOps w))); cbn [ret];
    (rewrite localSet_run by exact Hset); reflexivity.
Qed.

(** X1. An existing token stays.  When local storage already holds a
    truthy device token, initialisation reads it and stops: no token is
    generated, sync storage is not consulted, nothing is written or
    logged. *)
Theorem initializeDeviceToken_leaves_existing_token page env w :
  localFault env (localOps w) = None ->
  truthy (item (localStore w) DEVICE_TOKEN_KEY) = true ->
  exists w',
    initializeDeviceToken page env w = (Return tt, w')
    /\ localStore w' = localStore w
    /\ syncStore w' = syncStore w
    /\ syncOps w' = syncOps w
    /\ clockReads w' = clockReads w
    /\ trace w' = trace w.
Proof.
  intros Hget Htoken. eexists. split; [apply initializeDeviceToken_existing; assumption |].
  repeat split.
Qed.

Lemma initializeDeviceToken_leaves_existing_token_witness :
  exists w',
    initializeDeviceToken popupPage offlineBrowser newInstall = (Return tt, w')
    /\ localStore w' = localStore newInstall
    /\ syncStore w' = syncStore newInstall
    /\ syncOps w' = syncOps newInstall
    /\ clockReads w' = clockReads newInstall
    /\ trace w' = trace newInstall.
Proof.
  apply (initializeDeviceToken_leaves_existing_token popupPage offlineBrowser newInstall);
    vm_compute; reflexivity.
Defined.

(** X2. A synced token comes back.  When local storage has no token but
    sync storage holds a truthy [persistent_device_token], that token
    becomes the local device token: none is generated, sync storage is
    left as it is and no other local key changes. *)
Theorem initializeDeviceToken_restores_synced_token page env w :
  localFault env (localOps w) = None ->
  localFault env (S (localOps w)) = None ->
  syncFault env (syncOps w) = None ->
  truthy (item (localStore w) DEVICE_TOKEN_KEY) = false ->
  truthy (item (syncStore w) "persistent_device_token") = true ->
  exists w',
    initializeDeviceToken page env w = (Return tt, w')
    /\ item (localStore w') DEVICE_TOKEN_KEY = item (syncStore w) "persistent_device_token"
    /\ (forall k, k <> DEVICE_TOKEN_KEY -> localStore w' !! k = localStore w !! k)
    /\ syncStore w' = syncStore w
    /\ clockReads w' = clockReads w
    /\ trace w'
       = EvLocalSet [(DEVICE_TOKEN_KEY, item (syncStore w) "persistent_device_token")]
         :: trace w.
Proof.
  intros Hget Hset Hsync Hnone Hsynced.
  eexists. split; [apply initializeDeviceToken_synced; assumption |].
  cbn [localStore syncStore clockReads trace localWritten syncRead localRead
       setItems foldr fst snd].
  split; [apply item_insert |].
  split; [intros k Hk; apply lookup_insert_ne; congruence |].
  repeat split.
Qed.

Lemma initializeDeviceToken_restores_synced_token_witness :
  exists w',
    initializeDeviceToken popupPage offlineBrowser syncedInstall = (Return tt, w')
    /\ item (localStore w') DEVICE_TOKEN_KEY = JStr "device_1"
    /\ (forall k, k <> DEVICE_TOKEN_KEY -> localStore w' !! k = localStore syncedInstall !! k)
    /\ syncStore w' = syncStore syncedInstall
    /\ clockReads w' = clockReads syncedInstall
    /\ trace w' = EvLocalSet [(DEVICE_TOKEN_KEY, JStr "device_1")] :: trace syncedInstall.
Proof.
  apply (initializeDeviceToken_restores_synced_token popupPage offlineBrowser syncedInstall);
    vm_compute; reflexivity.
Defined.

(** X3. New device.  A device with no token in either storage area gets
    a generated [device_...] token in local storage even when
    [chrome.storage.sync] rejects; when the sync write goes through, sync
    storage holds the same token. *)
Theorem initializeDeviceToken_generates_token page env w :
  localFault env (localOps w) = None ->
  localFault env (S (localOps w)) = None ->
  truthy (item (localStore w) DEVICE_TOKEN_KEY) = false ->
  (syncFault env (syncOps w) = None ->
   truthy (item (syncStore w) "persistent_device_token") = false) ->
  exists w',
    initializeDeviceToken page env w = (Return tt, w')
    /\ item (localStore w') DEVICE_TOKEN_KEY
       = JStr (generatedToken page (clock env (clockReads w)))
    /\ (syncFault env (S (syncOps w)) = None ->
        item (syncStore w') "persistent_device_token"
        = item (localStore w') DEVICE_TOKEN_KEY)
    /\ (forall msg, syncFault env (S (syncOps w)) = Some msg -> syncStore w' = syncStore w).
Proof.
  intros Hget Hset Hnone Hsync.
  eexists. split.
  - apply initializeDeviceToken_new; try assumption.
    destruct (syncFault env (syncOps w)); [exact Logic.I | apply Hsync; reflexivity].
  - cbn [localStore localWritten setItems foldr fst snd]. split; [apply item_insert |].
    split.
    + intros ->. cbn [syncStore localWritten syncWritten setItems foldr fst snd].
      rewrite !item_insert. reflexivity.
    + intros msg ->. reflexivity.
Qed.

Lemma initializeDeviceToken_generates_token_witness :
  exists w',
    initializeDeviceToken popupPage offlineBrowser firstInstall = (Return tt, w')
    /\ item (localStore w') DEVICE_TOKEN_KEY = JStr "device_1000_k3j9x2m1_q8w1z7p4"
    /\ (syncFault offlineBrowser (S (syncOps firstInstall)) = None ->
        item (syncStore w') "persistent_device_token"
        = item (localStore w') DEVICE_TOKEN_KEY)
    /\ (forall msg, syncFault offlineBrowser (S (syncOps firstInstall)) = Some msg ->
        syncStore w' = syncStore firstInstall).
Proof.
  apply (initializeDeviceToken_generates_token popupPage offlineBrowser firstInstall);
    intros; vm_compute; reflexivity.
Defined.

Lemma item_empty k : item ∅ k = JUndef.
Proof. unfold item. rewrite lookup_empty. reflexivity. Qed.

(** X4. Reinstall.  With both storage areas working, the token a fresh
    install settles on is the token the next install finds again after
    local storage was wiped. *)
Theorem device_token_survives_reinstall page again env w :
  StorageWorks env -> SyncWorks env ->
  truthy (item (localStore w) DEVICE_TOKEN_KEY) = false ->
  let w1 := snd (initializeDeviceToken page env w) in
  let w2 := snd (initializeDeviceToken again env (reinstalled w1)) in
  truthy (item (localStore w1) DEVICE_TOKEN_KEY) = true
  /\ item (localStore w2) DEVICE_TOKEN_KEY = item (localStore w1) DEVICE_TOKEN_KEY
  /\ item (syncStore w2) "persistent_device_token" = item (localStore w1) DEVICE_TOKEN_KEY.
Proof.
  intros Hlocal Hsync Hnone. cbv zeta.
  destruct (truthy (item (syncStore w) "persistent_device_token")) eqn:Hsynced.
  - rewrite (initializeDeviceToken_synced page env w)
      by first [apply Hlocal | apply Hsync | assumption].
    cbn [snd].
    rewrite (initializeDeviceToken_synced again env)
      by first [apply Hlocal | apply Hsync | exact Hsynced | rewrite item_empty; reflexivity].
    cbn [snd localStore syncStore localWritten reinstalled syncRead localRead setItems foldr fst].
    rewrite !item_insert. auto.
  - rewrite (initializeDeviceToken_new page env w)
      by first [apply Hlocal | assumption | rewrite Hsync; exact Hsynced].
    rewrite Hsync. cbn [snd].
    set (token := generatedToken page (clock env (clockReads w))).
    set (w1 := localWritten _ _).
    assert (Hkept : item (syncStore (reinstalled w1)) "persistent_device_token" = JStr token).
    { subst w1. cbn [syncStore reinstalled localWritten syncWritten setItems foldr fst snd].
      apply item_insert. }
    rewrite (initializeDeviceToken_synced again env (reinstalled w1))
      by first [apply Hlocal | apply Hsync | rewrite item_empty; reflexivity
               | rewrite Hkept; reflexivity].
    cbn [snd localStore syncStore localWritten syncRead localRead setItems foldr fst].
    rewrite !item_insert, Hkept.
    subst w1. cbn [localStore localWritten setItems foldr fst snd]. rewrite item_insert.
    auto.
Qed.

Lemma device_token_survives_reinstall_witness :
  truthy (item (localStore (snd (initializeDeviceToken popupPage offlineBrowser firstInstall)))
            DEVICE_TOKEN_KEY) = true
  /\ item (localStore
             (snd (initializeDeviceToken workerPage offlineBrowser
                     (reinstalled
                        (snd (initializeDeviceToken popupPage offlineBrowser firstInstall))))))
       DEVICE_TOKEN_KEY
     = item (localStore (snd (initializeDeviceToken popupPage offlineBrowser firstInstall)))
         DEVICE_TOKEN_KEY
  /\ item (syncStore
             (snd (initializeDeviceToken workerPage offlineBrowser
                     (reinstalled
                        (snd (initializeDeviceToken popupPage offlineBrowser firstInstall))))))
       "persistent_device_token"
     = item (localStore (snd (initializeDeviceToken popupPage offlineBrowser firstInstall)))
         DEVICE_TOKEN_KEY.
Proof.
  apply (device_token_survives_reinstall popupPage workerPage offlineBrowser firstInstall).
  - apply browser_storage_works.
  - apply browser_sync_works.
  - vm_compute. reflexivity.
Defined.

(** X5. The token is there.  Whatever the two storage areas held, once
    the constructor's initialisation has run over a working local storage
    [getDeviceToken] returns a truthy token. *)
Theorem initialized_device_has_token page env w :
  StorageWorks env ->
  exists w' token,
    initializeDeviceToken page env w = (Return tt, w')
    /\ getDeviceToken env w' = (Return token, localRead w')
    /\ truthy token = true.
Proof.
  intros Hlocal.
  destruct (truthy (item (localStore w) DEVICE_TOKEN_KEY)) eqn:Hnone.
  { eexists _, _. split; [apply initializeDeviceToken_existing; auto |].
    rewrite getDeviceToken_run, Hlocal. split; [reflexivity | exact Hnone]. }
  destruct (syncFault env (syncOps w)) as [msg |] eqn:Hsync.
  2: destruct (truthy (item (syncStore w) "persistent_device_token")) eqn:Hsynced.
  2: { eexists _, _. split; [apply initializeDeviceToken_synced; auto |].
       rewrite getDeviceToken_run, Hlocal. split; [reflexivity |].
       cbn [localStore localWritten setItems foldr fst snd]. rewrite item_insert.
       exact Hsynced. }
  all: eexists _, _; (split; [apply initializeDeviceToken_new; auto; rewrite Hsync; auto |]);
    rewrite getDeviceToken_run, Hlocal; (split; [reflexivity |]);
    cbn [localStore localWritten setItems foldr fst snd]; rewrite item_insert; reflexivity.
Qed.

Lemma initialized_device_has_token_witness :
  exists w' token,
    initializeDeviceToken workerPage offlineBrowser firstInstall = (Return tt, w')
    /\ getDeviceToken offlineBrowser w' = (Return token, localRead w')
    /\ truthy token = true.
Proof.
  apply (initialized_device_has_token workerPage offlineBrowser firstInstall).
  apply browser_storage_works.
Defined.

(** ** The usage ledger *)

Lemma field_setField k v fs : field k (setField k v fs) = v.
Proof.
  induction fs as [| [k' v'] rest IH]; cbn [setField field].
  - rewrite String.eqb_refl. reflexivity.
  - destruct (String.eqb k k') eqn:E; cbn [field]; rewrite ?String.eqb_refl, ?E; auto.
Qed.

Lemma field_setField_ne k k' v fs : k <> k' -> field k' (setField k v fs) = field k' fs.
Proof.
  intros Hne. induction fs as [| [k0 v0] rest IH]; cbn [setField field].
  - destruct (String.eqb_spec k' k); [congruence | reflexivity].
  - destruct (String.eqb_spec k k0) as [-> | Hk]; cbn [field].
    + destruct (String.eqb_spec k' k0); [congruence | reflexivity].
    + rewrite IH. reflexivity.
Qed.

Lemma lastHundred_length actions : (List.length (lastHundred actions) <= 100)%nat.
Proof.
  unfold lastHundred. destruct (100 <? List.length actions)%nat eqn:E.
  - apply Nat.ltb_lt in E. rewrite length_skipn. lia.
  - apply Nat.ltb_ge in E. exact E.
Qed.

Lemma lastHundred_suffix actions : exists dropped, actions = dropped ++ lastHundred actions.
Proof.
  unfold lastHundred. destruct (100 <? List.length actions)%nat.
  - exists (firstn (List.length actions - 100) actions). symmetry. apply firstn_skipn.
  - exists []. reflexivity.
Qed.

(** The analytics call ends quietly whatever happens, having at most sent
    one request. *)
Lemma trackUsageAnalytics_run page action metadata env w :
  exists w',
    trackUsageAnalytics page action metadata env w = (Return tt, w')
    /\ sameState w w'
    /\ exists evs,
         trace w' = evs ++ trace w
         /\ (List.length evs <= 1)%nat
         /\ Forall analyticsEvent evs
         /\ fetches w' = (List.length evs + fetches w)%nat
         /\ (windowLocation page = None -> evs = []).
Proof.
  assert (Hnone : forall w0 : World,
            sameState w w0 -> trace w0 = trace w -> fetches w0 = fetches w ->
            sameState w w0 /\ exists evs, trace w0 = evs ++ trace w
              /\ (List.length evs <= 1)%nat /\ Forall analyticsEvent evs
              /\ fetches w0 = (List.length evs + fetches w)%nat
              /\ (windowLocation page = None -> evs = [])).
  { intros w0 Hs Ht Hf. split; [exact Hs |]. exists []. cbn. auto. }
  unfold trackUsageAnalytics. rewrite tryCatch_run, bind_run, getDeviceToken_run.
  destruct (truthy _); cbn [negb].
  2: { eexists. split; [reflexivity |]. apply Hnone; repeat split. }
  rewrite bind_run, dateNow_run, bind_run. cbn [host]. rewrite bind_run.
  unfold locationHref. destruct (windowLocation page) as [location |]; cbn [throw ret].
  2: { eexists. split; [reflexivity |]. apply Hnone; repeat split. }
  rewrite bind_run. unfold fetch.
  set (req := analyticsRequest _ _ _ _ _ _).
  assert (Hone : forall (out : FetchOutcome) (w0 : World),
            sameState w w0 -> trace w0 = EvFetch req out :: trace w ->
            fetches w0 = S (fetches w) ->
            sameState w w0 /\ exists evs, trace w0 = evs ++ trace w
              /\ (List.length evs <= 1)%nat /\ Forall analyticsEvent evs
              /\ fetches w0 = (List.length evs + fetches w)%nat
              /\ (Some location = None -> evs = [])).
  { intros out w0 Hs Ht Hf. split; [exact Hs |]. exists [EvFetch req out].
    split; [exact Ht |]. split; [cbn; lia |]. split; [repeat constructor |].
    split; [exact Hf | discriminate]. }
  destruct (network env _ req) as [msg | r] eqn:Hnet; cbv zeta; cbn [ret].
  { eexists. split; [reflexivity |]. eapply Hone; [repeat split | reflexivity | reflexivity]. }
  destruct (ok r).
  2: { eexists. split; [reflexivity |]. eapply Hone; [repeat split | reflexivity | reflexivity]. }
  rewrite bind_run. unfold json. destruct (body r) as [data | msg]; cbn [ret throw].
  2: { eexists. split; [reflexivity |]. eapply Hone; [repeat split | reflexivity | reflexivity]. }
  rewrite bind_run. unfold getProp. destruct (nullish data); cbn [ret throw].
  all: eexists; (split; [reflexivity |]); eapply Hone; [repeat split | reflexivity | reflexivity].
Qed.

Lemma usage_read env w :
  localFault env (localOps w) = None ->
  localGet [USAGE_KEY] env w = (Return (pick [USAGE_KEY] (localStore w)), localRead w)
  /\ (if truthy (item (pick [USAGE_KEY] (localStore w)) USAGE_KEY)
      then item (pick [USAGE_KEY] (localStore w)) USAGE_KEY
      else defaultUsage) = usageOf (localStore w).
Proof.
  intros H. split; [apply localGet_run; exact H |].
  unfold usageOf. rewrite item_pick by apply list_elem_of_here. reflexivity.
Qed.

(** The call that gets as far as its write. *)
Lemma trackUsage_written page action env w fs items :
  localFault env (localOps w) = None ->
  localFault env (S (localOps w)) = None ->
  usageOf (localStore w) = JObj fs ->
  field "actions" fs = JArr items ->
  exists w',
    trackUsage page action env w = (Return tt, w')
    /\ sameState (localWritten
                    [(USAGE_KEY,
                      ledgerAfter page env action (clock env (clockReads w)) fs items)]
                    w) w'.
Proof.
  intros Hget Hset Husage Hactions. unfold trackUsage.
  destruct (usage_read env w Hget) as [Hread Hfold].
  rewrite tryCatch_run, bind_run, Hread. cbv zeta. rewrite Hfold, Husage.
  rewrite bind_run. cbn [incrementCount ret]. rewrite bind_run.
  unfold pushAction. cbn [prop]. rewrite field_setField_ne by discriminate.
  rewrite Hactions. cbn [nullish].
  rewrite bind_run, bind_run, dateNow_run, bind_run. cbn [host ret].
  rewrite bind_run. cbn [withActions]. rewrite localSet_run by exact Hset.
  rewrite tryCatch_run.
  destruct (trackUsageAnalytics_run page action [] env
              (localWritten
                 [(USAGE_KEY,
                   ledgerAfter page env action (clock env (clockReads w)) fs items)]
                 (ticked (localRead w))))
    as (w' & Hrun & (H1 & H2 & H3 & H4) & _).
  unfold ledgerAfter, usageEntry in *. cbn [clockReads localRead] in *.
  rewrite Hrun. exists w'. split; [reflexivity |]. repeat split; assumption.
Qed.

(** Every call either leaves storage and the cache as they were or wrote
    the ledger. *)
Lemma trackUsage_cases page action env w :
  exists w',
    trackUsage page action env w = (Return tt, w')
    /\ (sameState w w'
        \/ exists fs items,
             usageOf (localStore w) = JObj fs
             /\ field "actions" fs = JArr items
             /\ sameState
                  (localWritten
                     [(USAGE_KEY,
                       ledgerAfter page env action (clock env (clockReads w)) fs items)]
                     w) w').
Proof.
  destruct (localFault env (localOps w)) as [msg |] eqn:Hget.
  { unfold trackUsage. rewrite tryCatch_run, bind_run. unfold localGet, localCall.
    rewrite Hget. eexists. split; [reflexivity | left; repeat split]. }
  destruct (usageOf (localStore w)) as [| | b | n | s | elements | fs] eqn:Husage.
  7: destruct (field "actions" fs) as [| | b | n | s | items | fields] eqn:Hactions.
  12: destruct (localFault env (S (localOps w))) as [msg |] eqn:Hset.
  13: { destruct (trackUsage_written page action env w fs items Hget Hset Husage Hactions)
          as (w' & Hrun & Hsame).
        exists w'. split; [exact Hrun |]. right. exists fs, items. auto. }
  all: unfold trackUsage; destruct (usage_read env w Hget) as [Hread Hfold];
    rewrite tryCatch_run, bind_run, Hread; cbv zeta; rewrite Hfold, Husage;
    rewrite bind_run; cbn [incrementCount ret str host throw bind].
  all: try (eexists; split; [reflexivity | left; repeat split]).
  all: rewrite bind_run; unfold pushAction; cbn [prop];
    rewrite ?field_setField_ne by discriminate; rewrite ?Hactions; cbn [nullish throw].
  all: try (eexists; split; [reflexivity | left; repeat split]).
  all: rewrite bind_run, bind_run, dateNow_run, bind_run; cbn [host ret];
    rewrite ?bind_run; cbn [withActions throw ret].
  all: try (eexists; split; [reflexivity | left; repeat split]).
  rewrite (localSet_fault _ env (ticked (localRead w)) msg) by exact Hset.
  eexists; split; [reflexivity | left; repeat split].
Qed.

Lemma getUsageStats_run env w :
  getUsageStats env w
  = (Return (match localFault env (localOps w) with
             | Some _ => defaultUsage
             | None => usageOf (localStore w)
             end), localRead w).
Proof.
  unfold getUsageStats. rewrite tryCatch_run, bind_run.
  destruct (localFault env (localOps w)) as [msg |] eqn:Hget.
  - unfold localGet, localCall. rewrite Hget. reflexivity.
  - destruct (usage_read env w Hget) as [-> Hfold]. cbv zeta. rewrite Hfold. reflexivity.
Qed.

Lemma lastHundred_min actions :
  List.length (lastHundred actions) = Nat.min 100 (List.length actions).
Proof.
  unfold lastHundred. destruct (100 <? List.length actions)%nat eqn:E.
  - apply Nat.ltb_lt in E. rewrite length_skipn. lia.
  - apply Nat.ltb_ge in E. lia.
Qed.

(** X6. Round trip.  On working storage, after [trackUsage (action)]
    over a ledger whose count is a safe integer, [|count| < 2^53], and
    whose actions are an array, [getUsageStats] returns the ledger with the
    count raised by one and the new entry last; the actions are the newest
    100, older ones dropped first, and every other field is kept. *)
Theorem trackUsage_then_getUsageStats page action env w fs n items :
  StorageWorks env ->
  usageOf (localStore w) = JObj fs ->
  field "count" fs = JNum n ->
  Z.abs n < 2 ^ 53 ->
  field "actions" fs = JArr items ->
  let entry := usageEntry action (toISOString env (clock env (clockReads w))) in
  exists w' ledger actions dropped,
    trackUsage page action env w = (Return tt, w')
    /\ getUsageStats env w' = (Return (JObj ledger), localRead w')
    /\ field "count" ledger = JNum (n + 1)
    /\ field "actions" ledger = JArr actions
    /\ items ++ [entry] = dropped ++ actions
    /\ List.length actions = Nat.min 100 (S (List.length items))
    /\ forall k, k <> "count" -> k <> "actions" -> field k ledger = field k fs.
Proof.
  intros Hstore Husage Hcount Hsafe Hactions entry.
  destruct (trackUsage_written page action env w fs items (Hstore _) (Hstore _) Husage Hactions)
    as (w' & Hrun & Hlocal & _).
  destruct (lastHundred_suffix (items ++ [entry])) as [dropped Hdropped].
  exists w'. eexists _, (lastHundred (items ++ [entry])), dropped.
  split; [exact Hrun |].
  rewrite getUsageStats_run, Hstore. unfold usageOf. rewrite Hlocal.
  cbn [localStore localWritten setItems foldr fst snd]. rewrite item_insert.
  unfold ledgerAfter. cbn [truthy]. split; [reflexivity |].
  rewrite field_setField_ne, field_setField, Hcount by discriminate.
  unfold addOne. rewrite (proj2 (Z.ltb_lt _ _) Hsafe).
  split; [reflexivity |]. rewrite field_setField. split; [reflexivity |].
  split; [exact Hdropped |]. split.
  - rewrite lastHundred_min, length_app. cbn [List.length]. f_equal. lia.
  - intros k Hk1 Hk2. rewrite !field_setField_ne by congruence. reflexivity.
Qed.

Lemma trackUsage_then_getUsageStats_witness :
  exists w' ledger actions dropped,
    trackUsage workerPage (JStr "summarization") offlineBrowser usedInstall = (Return tt, w')
    /\ getUsageStats offlineBrowser w' = (Return (JObj ledger), localRead w')
    /\ field "count" ledger = JNum (2 + 1)
    /\ field "actions" ledger = JArr actions
    /\ twoActions ++ [usageEntry (JStr "summarization") "1000"] = dropped ++ actions
    /\ List.length actions = Nat.min 100 (S (List.length twoActions))
    /\ forall k, k <> "count" -> k <> "actions" -> field k ledger = field k twoActionsLedger.
Proof.
  apply (trackUsage_then_getUsageStats workerPage (JStr "summarization") offlineBrowser
           usedInstall twoActionsLedger 2 twoActions).
  - apply browser_storage_works.
  - vm_compute. reflexivity.
  - reflexivity.
  - reflexivity.
  - reflexivity.
Defined.

(** X7. Bound.  However the call ends, a ledger of at most 100 actions
    stays one: [trackUsage] keeps [ledgerBounded]. *)
Theorem trackUsage_keeps_ledger_bounded page action :
  keeps ledgerBounded (trackUsage page action).
Proof.
  intros env w Hbounded.
  destruct (trackUsage_cases page action env w)
    as (w' & -> & [(Hlocal & _) | (fs & items & _ & _ & Hlocal & _)]);
    cbn [snd]; intros actions; rewrite Hlocal.
  - apply Hbounded.
  - cbn [localStore localWritten setItems foldr fst snd]. rewrite item_insert.
    unfold ledgerAfter. cbn [prop]. rewrite field_setField.
    intros [= <-]. apply lastHundred_length.
Qed.

Lemma trackUsage_keeps_ledger_bounded_witness :
  ledgerBounded usedInstall
  /\ ledgerBounded
       (snd (trackUsage workerPage (JStr "summarization") offlineBrowser usedInstall)).
Proof.
  assert (Hbounded : ledgerBounded usedInstall).
  { intros items H. vm_compute in H. injection H as <-. vm_compute. lia. }
  split; [exact Hbounded |].
  apply (trackUsage_keeps_ledger_bounded workerPage (JStr "summarization") offlineBrowser
           usedInstall Hbounded).
Defined.

(** X8. Isolation.  [trackUsage] never throws, and of local storage it
    can change the [usage] key only: the device token, the trial record,
    the subscription, sync storage and the status cache are what they
    were, whatever storage and network do. *)
Theorem trackUsage_touches_only_the_ledger page action env w :
  exists w',
    trackUsage page action env w = (Return tt, w')
    /\ (forall k, k <> USAGE_KEY -> localStore w' !! k = localStore w !! k)
    /\ syncStore w' = syncStore w
    /\ statusCache w' = statusCache w
    /\ cacheTimestamp w' = cacheTimestamp w.
Proof.
  destruct (trackUsage_cases page action env w)
    as (w' & Hrun & [(H1 & H2 & H3 & H4) | (fs & items & _ & _ & H1 & H2 & H3 & H4)]);
    exists w'; (split; [exact Hrun |]).
  - rewrite H1. auto.
  - rewrite H1. cbn [localStore localWritten setItems foldr fst snd].
    split; [| auto]. intros k Hk. apply lookup_insert_ne. congruence.
Qed.

(** X9. Reading the ledger.  [getUsageStats] never throws and never
    writes; it answers the empty ledger when storage rejects or holds
    nothing under [usage], and the stored value otherwise. *)
Theorem getUsageStats_defaults env w :
  exists stats,
    getUsageStats env w = (Return stats, localRead w)
    /\ truthy stats = true
    /\ (localFault env (localOps w) <> None -> stats = defaultUsage)
    /\ (truthy (item (localStore w) USAGE_KEY) = false -> stats = defaultUsage)
    /\ (localFault env (localOps w) = None ->
        truthy (item (localStore w) USAGE_KEY) = true ->
        stats = item (localStore w) USAGE_KEY).
Proof.
  eexists. split; [apply getUsageStats_run |].
  unfold usageOf.
  destruct (localFault env (localOps w)); destruct (truthy (item (localStore w) USAGE_KEY)) eqn:E;
    repeat split; try reflexivity; try congruence; auto.
Qed.

(** ** Restoring a purchase *)

(** An e-mail that cannot be encoded ends the call before any request. *)
Lemma restorePurchase_malformed email env w :
  encodeURIComponent env (strOf env email) = None ->
  restorePurchase email env w = (Throw (Error "URI malformed"), w).
Proof.
  intros Hencode. unfold restorePurchase.
  rewrite !tryCatch_run, bind_run, str_run, bind_run. unfold encode. rewrite Hencode.
  reflexivity.
Qed.

Lemma restorePurchase_start email env w encoded :
  encodeURIComponent env (strOf env email) = Some encoded ->
  restorePurchase email env w
  = tryCatch
      (let* response := fetch (restoreRequest encoded) in
       if negb (ok response) then throw (httpError response)
       else
         let* data := json response in
         let* active := getProp data "active" in
         (if truthy active then
            let* deviceToken := getDeviceToken in
            fetch (linkRequest deviceToken email) ;;;
            localSet [(SUBSCRIPTION_KEY, data)] ;;;
            clearStatusCache
          else ret tt) ;;;
         ret data)
      (fun error => throw error) env w.
Proof.
  intros Hencode. unfold restorePurchase.
  rewrite !tryCatch_run, bind_run, str_run, bind_run. unfold encode. rewrite Hencode.
  reflexivity.
Qed.

(** Whatever the answer, one request to [/restore] and no more. *)
Lemma restorePurchase_failed email env w encoded e :
  encodeURIComponent env (strOf env email) = Some encoded ->
  attemptOutcome (network env (fetches w) (restoreRequest encoded)) = Throw e ->
  restorePurchase email env w
  = (Throw e,
     networked 1
       [EvFetch (restoreRequest encoded)
          (network env (fetches w) (restoreRequest encoded))] w).
Proof.
  intros Hencode.
  rewrite (restorePurchase_start _ _ _ _ Hencode), tryCatch_run, bind_run.
  unfold fetch, attemptOutcome.
  destruct (network env (fetches w) (restoreRequest encoded)) as [msg | r]; cbv zeta.
  { intros [= <-]. reflexivity. }
  destruct (ok r); cbn [negb].
  2: { intros [= <-]. reflexivity. }
  rewrite bind_run. unfold json. destruct (body r); [discriminate |].
  intros [= <-]. reflexivity.
Qed.

Lemma restorePurchase_answered email env w encoded r data :
  encodeURIComponent env (strOf env email) = Some encoded ->
  network env (fetches w) (restoreRequest encoded) = Responded r ->
  ok r = true ->
  body r = BodyJson data ->
  restorePurchase email env w
  = tryCatch
      (let* active := getProp data "active" in
       (if truthy active then
          let* deviceToken := getDeviceToken in
          fetch (linkRequest deviceToken email) ;;;
          localSet [(SUBSCRIPTION_KEY, data)] ;;;
          clearStatusCache
        else ret tt) ;;;
       ret data)
      (fun error => throw error) env
      (networked 1 [EvFetch (restoreRequest encoded) (Responded r)] w).
Proof.
  intros Hencode Hnet Hok Hbody.
  rewrite (restorePurchase_start _ _ _ _ Hencode), !tryCatch_run, bind_run. unfold fetch.
  rewrite Hnet, Hok. cbv zeta. cbn [negb]. rewrite bind_run. unfold json. rewrite Hbody.
  reflexivity.
Qed.

(** The call whose [/restore] answer carries an active subscription, by
    the answer to [/link] and the fate of the write. *)
Lemma restorePurchase_active email env w encoded r data :
  encodeURIComponent env (strOf env email) = Some encoded ->
  network env (fetches w) (restoreRequest encoded) = Responded r ->
  ok r = true ->
  body r = BodyJson data ->
  truthy (prop data "active") = true ->
  let link := linkRequest (tokenOf env w) email in
  let w1 := localRead (networked 1 [EvFetch (restoreRequest encoded) (Responded r)] w) in
  let w2 := networked 1 [EvFetch link (network env (S (fetches w)) link)] w1 in
  restorePurchase email env w
  = match network env (S (fetches w)) link with
    | NetworkFailure msg => (Throw (Error msg), w2)
    | Responded _ =>
        match localFault env (S (localOps w)) with
        | Some msg => (Throw (Error msg), localRead w2)
        | None => (Return data, cacheCleared (localWritten [(SUBSCRIPTION_KEY, data)] w2))
        end
    end.
Proof.
  intros Hencode Hnet Hok Hbody Hactive. cbv zeta.
  rewrite (restorePurchase_answered _ _ _ _ _ _ Hencode Hnet Hok Hbody), tryCatch_run, bind_run.
  unfold getProp.
  assert (Hnn : nullish data = false) by (destruct data; try discriminate; reflexivity).
  rewrite Hnn. cbn [ret]. rewrite Hactive.
  rewrite bind_run, bind_run, getDeviceToken_run.
  cbn [localOps localStore networked]. fold (tokenOf env w).
  rewrite bind_run. unfold fetch. cbn [fetches localRead networked Nat.add].
  destruct (network env (S (fetches w)) (linkRequest (tokenOf env w) email)) as [msg | r2];
    cbv zeta.
  { reflexivity. }
  rewrite bind_run. unfold localSet, localCall. cbn [localOps localRead networked].
  destruct (localFault env (S (localOps w))); reflexivity.
Qed.

(** X10. What a restore can store.  However [restorePurchase] ends, it
    either left storage and the status cache as they were, or it returned
    the JSON body of a 2xx answer to its [/restore] request whose [active]
    is truthy, stored exactly that under [subscription] and emptied the
    status cache. *)
Theorem restorePurchase_stores_only_active_answers email env w :
  let res := fst (restorePurchase email env w) in
  let w' := snd (restorePurchase email env w) in
  sameState w w'
  \/ exists encoded r data,
       encodeURIComponent env (strOf env email) = Some encoded
       /\ network env (fetches w) (restoreRequest encoded) = Responded r
       /\ ok r = true
       /\ body r = BodyJson data
       /\ truthy (prop data "active") = true
       /\ res = Return data
       /\ localStore w' = <[SUBSCRIPTION_KEY := data]> (localStore w)
       /\ syncStore w' = syncStore w
       /\ statusCache w' = JNull
       /\ cacheTimestamp w' = 0.
Proof.
  cbv zeta.
  destruct (encodeURIComponent env (strOf env email)) as [encoded |] eqn:Hencode.
  2: { rewrite (restorePurchase_malformed _ _ _ Hencode). left. repeat split. }
  destruct (attemptOutcome (network env (fetches w) (restoreRequest encoded)))
    as [data | e] eqn:Hout.
  2: { rewrite (restorePurchase_failed _ _ _ _ _ Hencode Hout). left. repeat split. }
  apply attemptOutcome_Return in Hout as (r & Hnet & Hok & Hbody).
  destruct (truthy (prop data "active")) eqn:Hactive.
  - rewrite (restorePurchase_active _ _ _ _ _ _ Hencode Hnet Hok Hbody Hactive).
    destruct (network env (S (fetches w)) _) as [msg | r2]; [left; repeat split |].
    destruct (localFault env (S (localOps w))); [left; repeat split |].
    right. exists encoded, r, data. cbn [fst snd]. repeat split; assumption.
  - rewrite (restorePurchase_answered _ _ _ _ _ _ Hencode Hnet Hok Hbody), tryCatch_run, bind_run.
    unfold getProp. destruct (nullish data); cbn [ret throw]; [left; repeat split |].
    rewrite Hactive. left. repeat split.
Qed.

(** X11. The link is not checked.  Once the e-mail is encoded and
    [/restore] reports an active subscription, any HTTP answer to
    [POST /link], a 4xx or 5xx included, lets the subscription be stored
    and the cache be emptied; the link request carries whatever
    [getDeviceToken] returned, a missing token included. *)
Theorem restorePurchase_ignores_link_status email env w encoded r data r2 :
  encodeURIComponent env (strOf env email) = Some encoded ->
  network env (fetches w) (restoreRequest encoded) = Responded r ->
  ok r = true ->
  body r = BodyJson data ->
  truthy (prop data "active") = true ->
  network env (S (fetches w)) (linkRequest (tokenOf env w) email) = Responded r2 ->
  localFault env (S (localOps w)) = None ->
  exists w',
    restorePurchase email env w = (Return data, w')
    /\ localStore w' !! SUBSCRIPTION_KEY = Some data
    /\ statusCache w' = JNull
    /\ cacheTimestamp w' = 0
    /\ trace w'
       = EvLocalSet [(SUBSCRIPTION_KEY, data)]
         :: EvFetch (linkRequest (tokenOf env w) email) (Responded r2)
         :: EvFetch (restoreRequest encoded) (Responded r)
         :: trace w.
Proof.
  intros Hencode Hnet Hok Hbody Hactive Hlink Hset.
  rewrite (restorePurchase_active _ _ _ _ _ _ Hencode Hnet Hok Hbody Hactive). cbv zeta.
  rewrite Hlink, Hset. eexists. split; [reflexivity |].
  cbn [localStore trace statusCache cacheTimestamp cacheCleared withCache localWritten
       networked localRead setItems foldr fst snd app].
  split; [apply lookup_insert_eq |]. auto.
Qed.

Lemma restorePurchase_ignores_link_status_witness :
  exists w',
    restorePurchase buyer restoringBrowser newInstall = (Return proMonthly, w')
    /\ localStore w' !! SUBSCRIPTION_KEY = Some proMonthly
    /\ statusCache w' = JNull
    /\ cacheTimestamp w' = 0
    /\ trace w'
       = EvLocalSet [(SUBSCRIPTION_KEY, proMonthly)]
         :: EvFetch (linkRequest (JStr "device_1") buyer) (answer proMonthly)
         :: EvFetch (restoreRequest "user@example.com") (answer proMonthly)
         :: trace newInstall.
Proof.
  apply (restorePurchase_ignores_link_status buyer restoringBrowser newInstall
           "user@example.com"
           {| httpStatus := 200; statusText := "OK"; body := BodyJson proMonthly |} proMonthly
           {| httpStatus := 200; statusText := "OK"; body := BodyJson proMonthly |});
    reflexivity.
Defined.

(** X12. A lost link loses the restore.  When the e-mail is encoded and
    [/restore] reports an active subscription but the [POST /link] fetch
    fails in transport, the call throws that failure and nothing is
    stored: the subscription the server just confirmed is not kept. *)
Theorem restorePurchase_link_failure_stores_nothing email env w encoded r data msg :
  encodeURIComponent env (strOf env email) = Some encoded ->
  network env (fetches w) (restoreRequest encoded) = Responded r ->
  ok r = true ->
  body r = BodyJson data ->
  truthy (prop data "active") = true ->
  network env (S (fetches w)) (linkRequest (tokenOf env w) email) = NetworkFailure msg ->
  exists w',
    restorePurchase email env w = (Throw (Error msg), w')
    /\ sameState w w'
    /\ fetches w' = S (S (fetches w)).
Proof.
  intros Hencode Hnet Hok Hbody Hactive Hlink.
  rewrite (restorePurchase_active _ _ _ _ _ _ Hencode Hnet Hok Hbody Hactive). cbv zeta.
  rewrite Hlink. eexists. split; [reflexivity |]. repeat split.
Qed.

Lemma restorePurchase_link_failure_stores_nothing_witness :
  exists w',
    restorePurchase buyer restoringOnceBrowser newInstall
    = (Throw (Error "Failed to fetch"), w')
    /\ sameState newInstall w'
    /\ fetches w' = S (S (fetches newInstall)).
Proof.
  apply (restorePurchase_link_failure_stores_nothing buyer restoringOnceBrowser newInstall
           "user@example.com"
           {| httpStatus := 200; statusText := "OK"; body := BodyJson proMonthly |} proMonthly
           "Failed to fetch");
    reflexivity.
Defined.

(** X13. No retry.  Unlike a worker request, [restorePurchase] gives up
    at the first failure of the [/restore] request it sent for the encoded
    e-mail, be it the transport, a non-2xx status or an invalid body: it
    rethrows after one fetch and no wait. *)
Theorem restorePurchase_is_not_retried email env w encoded e :
  encodeURIComponent env (strOf env email) = Some encoded ->
  attemptOutcome (network env (fetches w) (restoreRequest encoded)) = Throw e ->
  exists w',
    restorePurchase email env w = (Throw e, w')
    /\ sameState w w'
    /\ attemptsOf (trace w')
       = attemptsOf (trace w)
         ++ [(restoreRequest encoded, network env (fetches w) (restoreRequest encoded))]
    /\ sleepsOf (trace w') = sleepsOf (trace w).
Proof.
  intros Hencode Hout. rewrite (restorePurchase_failed _ _ _ _ _ Hencode Hout).
  eexists. split; [reflexivity |]. split; [repeat split |].
  unfold attemptsOf, sleepsOf. cbn [trace networked app rev].
  rewrite !omap_app. cbn. rewrite app_nil_r. auto.
Qed.

Lemma restorePurchase_is_not_retried_witness :
  exists w',
    restorePurchase buyer offlineBrowser newInstall = (Throw (Error "Failed to fetch"), w')
    /\ sameState newInstall w'
    /\ attemptsOf (trace w')
       = attemptsOf (trace newInstall)
         ++ [(restoreRequest "user@example.com", NetworkFailure "Failed to fetch")]
    /\ sleepsOf (trace w') = sleepsOf (trace newInstall).
Proof.
  apply (restorePurchase_is_not_retried buyer offlineBrowser newInstall
           "user@example.com" (Error "Failed to fetch"));
    reflexivity.
Defined.

(** ** A local subscription and a dead network *)

Lemma networkDownSince_later env n m :
  NetworkDownSince env n -> (n <= m)%nat -> NetworkDownSince env m.
Proof. intros H Hle k req Hk. apply H. lia. Qed.

Lemma makeWorkerRequest_down endpoint options env w :
  NetworkDownSince env (fetches w) ->
  exists e evs,
    makeWorkerRequest endpoint options env w = (Throw e, networked 3 evs w)
    /\ Forall netEvent evs.
Proof.
  intros Hdown. rewrite makeWorkerRequest_unrolled. cbv zeta.
  set (req := workerRequest endpoint options).
  destruct (Hdown (fetches w) req) as [m1 ->]; [lia |].
  destruct (Hdown (S (fetches w)) req) as [m2 ->]; [lia |].
  destruct (Hdown (S (S (fetches w))) req) as [m3 ->]; [lia |].
  cbn [threeAttempts attemptOutcome]. eexists _, _. split; [reflexivity |].
  repeat constructor.
Qed.

Lemma networkOnly_refl w : networkOnly w w.
Proof. split; [repeat split |]. split; [lia |]. exists []. split; [reflexivity | constructor]. Qed.

Lemma networkOnly_trans w1 w2 w3 : networkOnly w1 w2 -> networkOnly w2 w3 -> networkOnly w1 w3.
Proof.
  intros ((A1 & A2 & A3 & A4) & Af & evs1 & A5 & A6) ((B1 & B2 & B3 & B4) & Bf & evs2 & B5 & B6).
  split; [repeat split; congruence |]. split; [lia |].
  exists (evs2 ++ evs1). split.
  - rewrite B5, A5. apply app_assoc.
  - apply Forall_app. split; assumption.
Qed.

Lemma networkOnly_networked n evs w : Forall netEvent evs -> networkOnly w (networked n evs w).
Proof.
  intros H. split; [repeat split |]. split; [cbn; lia |]. exists evs. split; [reflexivity | exact H].
Qed.

Lemma networkOnly_localRead w : networkOnly w (localRead w).
Proof. split; [repeat split |]. split; [cbn; lia |]. exists []. split; [reflexivity | constructor]. Qed.

Lemma networkOnly_ticked w : networkOnly w (ticked w).
Proof. split; [repeat split |]. split; [cbn; lia |]. exists []. split; [reflexivity | constructor]. Qed.

Lemma serverCheck_down env w :
  NetworkDownSince env (fetches w) -> StorageWorks env ->
  exists w1,
    tryCatch _checkServerStatus (fun _ => ret JNull) env w = (Return JNull, w1)
    /\ networkOnly w w1.
Proof.
  intros Hdown Hstore.
  unfold _checkServerStatus. rewrite tryCatch_run, bind_run, getDeviceToken_run, Hstore.
  destruct (truthy (item (localStore w) DEVICE_TOKEN_KEY)); cbn [negb].
  2: { eexists. split; [reflexivity | apply networkOnly_localRead]. }
  rewrite tryCatch_run, bind_run, str_run, bind_run.
  edestruct (makeWorkerRequest_down) as (e & evs & -> & Hevs); [exact Hdown |].
  eexists. split; [reflexivity |].
  eapply networkOnly_trans; [apply networkOnly_localRead | apply networkOnly_networked, Hevs].
Qed.

Lemma restore_down env w deviceToken :
  NetworkDownSince env (fetches w) ->
  exists w1,
    restoreTrialFromServer deviceToken env w = (Return None, w1)
    /\ networkOnly w w1.
Proof.
  intros Hdown. unfold restoreTrialFromServer.
  destruct (truthy deviceToken).
  2: { eexists. split; [reflexivity | apply networkOnly_refl]. }
  rewrite tryCatch_run, bind_run.
  edestruct (makeWorkerRequest_down) as (e & evs & -> & Hevs); [exact Hdown |].
  eexists. split; [reflexivity | apply networkOnly_networked, Hevs].
Qed.

(** With the network down and storage working, an active subscription in
    local storage is the status. *)
Lemma offline_subscription forceRefresh env w :
  cacheFresh forceRefresh env w = false ->
  NetworkDownSince env (fetches w) -> StorageWorks env ->
  truthy (andProp (item (localStore w) SUBSCRIPTION_KEY) "active") = true ->
  exists w1,
    getUnifiedSubscriptionStatus forceRefresh env w
    = (Return (item (localStore w) SUBSCRIPTION_KEY),
       cached (item (localStore w) SUBSCRIPTION_KEY) env w1)
    /\ networkOnly w w1.
Proof.
  intros Hmiss Hdown Hstore Hsub.
  rewrite (getUnified_miss _ _ _ Hmiss), tryCatch_run.
  fold refreshStatus. unfold refreshStatus. rewrite bind_run.
  destruct (serverCheck_down env (ticked w) Hdown Hstore) as (w1 & -> & N1).
  cbn [andProp truthy]. rewrite bind_run, getDeviceToken_run, Hstore, bind_run.
  edestruct (restore_down env (localRead w1)) as (w2 & -> & N2).
  { eapply networkDownSince_later; [exact Hdown |].
    destruct N1 as (_ & Hf & _). cbn [fetches localRead ticked] in *. exact Hf. }
  rewrite bind_run, getLocalData_run by apply Hstore.
  assert (N : networkOnly w (localRead w2)).
  { eapply networkOnly_trans; [apply networkOnly_ticked |].
    eapply networkOnly_trans; [exact N1 |].
    eapply networkOnly_trans; [apply networkOnly_localRead |].
    eapply networkOnly_trans; [exact N2 | apply networkOnly_localRead]. }
  cbn [fst snd]. cbv zeta.
  destruct N as ((Hlocal & Hrest) & Hfetches & Hevs).
  cbn [localStore localRead] in Hlocal. rewrite Hlocal, Hsub, cacheAndReturn_run.
  exists (localRead w2). split; [reflexivity |].
  split; [split; [exact Hlocal | exact Hrest] |]. split; assumption.
Qed.

(** X14. Offline subscriber.  When every fetch fails in transport and
    storage works, an active subscription kept in local storage is the
    status returned and cached, on a forced refresh too; storage is not
    written and only fetches and waits are logged. *)
Theorem offline_local_subscription_is_honoured forceRefresh env w subscription :
  cacheFresh forceRefresh env w = false ->
  NetworkDownSince env (fetches w) -> StorageWorks env ->
  localStore w !! SUBSCRIPTION_KEY = Some subscription ->
  truthy (andProp subscription "active") = true ->
  exists w',
    getUnifiedSubscriptionStatus forceRefresh env w = (Return subscription, w')
    /\ statusCache w' = subscription
    /\ localStore w' = localStore w
    /\ syncStore w' = syncStore w
    /\ exists evs, trace w' = evs ++ trace w /\ Forall netEvent evs.
Proof.
  intros Hmiss Hdown Hstore Hstored Hactive.
  assert (Hitem : item (localStore w) SUBSCRIPTION_KEY = subscription)
    by (unfold item; rewrite Hstored; reflexivity).
  destruct (offline_subscription forceRefresh env w Hmiss Hdown Hstore)
    as (w1 & Hrun & (Hlocal & Hsync & _) & _ & Hevs).
  { rewrite Hitem. exact Hactive. }
  rewrite Hitem in Hrun. eexists. split; [exact Hrun |].
  cbn [statusCache localStore syncStore trace cached]. auto.
Qed.

Lemma offline_local_subscription_is_honoured_witness :
  exists w',
    getUnifiedSubscriptionStatus true offlineBrowser subscriberInstall = (Return proMonthly, w')
    /\ statusCache w' = proMonthly
    /\ localStore w' = localStore subscriberInstall
    /\ syncStore w' = syncStore subscriberInstall
    /\ exists evs, trace w' = evs ++ trace subscriberInstall /\ Forall netEvent evs.
Proof.
  apply (offline_local_subscription_is_honoured true offlineBrowser subscriberInstall proMonthly).
  - reflexivity.
  - apply offline_down.
  - apply browser_storage_works.
  - vm_compute. reflexivity.
  - reflexivity.
Defined.

Lemma active_object v : truthy (prop v "active") = true -> truthy (andProp v "active") = true.
Proof. unfold andProp. destruct v; cbn; try discriminate. auto. Qed.

(** X15. Restore, then offline.  After a restore, for an e-mail that is
    encoded, that stored an active subscription, the next status call,
    forced or not, does not answer from an older cache entry: with the
    network gone it returns the restored subscription, and the usage gate
    opens for it. *)
Theorem restored_purchase_is_honoured_offline email forceRefresh env w encoded r data r2 :
  StorageWorks env ->
  encodeURIComponent env (strOf env email) = Some encoded ->
  network env (fetches w) (restoreRequest encoded) = Responded r ->
  ok r = true ->
  body r = BodyJson data ->
  truthy (prop data "active") = true ->
  network env (S (fetches w)) (linkRequest (tokenOf env w) email) = Responded r2 ->
  NetworkDownSince env (S (S (fetches w))) ->
  exists w1 w2,
    restorePurchase email env w = (Return data, w1)
    /\ getUnifiedSubscriptionStatus forceRefresh env w1 = (Return data, w2)
    /\ canUseExtension env w1
       = (Return {| canUse := true; reason := "subscription"; status := data |}, w2).
Proof.
  intros Hstore Hencode Hnet Hok Hbody Hactive Hlink Hdown.
  rewrite (restorePurchase_active _ _ _ _ _ _ Hencode Hnet Hok Hbody Hactive). cbv zeta.
  rewrite Hlink, Hstore.
  set (w1 := cacheCleared _).
  assert (Hitem : item (localStore w1) SUBSCRIPTION_KEY = data).
  { subst w1. cbn [localStore cacheCleared withCache localWritten setItems foldr fst snd].
    apply item_insert. }
  assert (Hmiss : forall force, cacheFresh force env w1 = false).
  { intros force. unfold cacheFresh. subst w1.
    cbn [statusCache cacheCleared withCache truthy]. rewrite andb_false_r. reflexivity. }
  destruct (offline_subscription forceRefresh env w1 (Hmiss _) Hdown Hstore)
    as (w2 & Hrun & _).
  { rewrite Hitem. apply active_object, Hactive. }
  rewrite Hitem in Hrun.
  exists w1. eexists. split; [reflexivity |]. split; [exact Hrun |].
  unfold canUseExtension.
  rewrite tryCatch_run, bind_run, (getUnified_miss false _ _ (Hmiss _)).
  rewrite <- (getUnified_miss forceRefresh _ _ (Hmiss _)), Hrun, bind_run.
  unfold getProp.
  assert (Hnn : nullish data = false) by (destruct data; try discriminate; reflexivity).
  rewrite Hnn. cbn [ret]. rewrite Hactive. reflexivity.
Qed.

Lemma restored_purchase_is_honoured_offline_witness :
  exists w1 w2,
    restorePurchase buyer restoringBrowser newInstall = (Return proMonthly, w1)
    /\ getUnifiedSubscriptionStatus false restoringBrowser w1 = (Return proMonthly, w2)
    /\ canUseExtension restoringBrowser w1
       = (Return {| canUse := true; reason := "subscription"; status := proMonthly |}, w2).
Proof.
  apply (restored_purchase_is_honoured_offline buyer false restoringBrowser newInstall
           "user@example.com"
           {| httpStatus := 200; statusText := "OK"; body := BodyJson proMonthly |} proMonthly
           {| httpStatus := 200; statusText := "OK"; body := BodyJson proMonthly |}).
  - apply browser_storage_works.
  - reflexivity.
  - reflexivity.
  - reflexivity.
  - reflexivity.
  - reflexivity.
  - reflexivity.
  - apply restoring_down.
Defined.

(** ** Time left in a trial *)

Lemma getUnified_returns forceRefresh env w :
  exists s w', getUnifiedSubscriptionStatus forceRefresh env w = (Return s, w').
Proof.
  unfold getUnifiedSubscriptionStatus. rewrite tryCatch_run.
  match goal with |- context [match ?m with _ => _ end] => destruct m as [[s | e] w1] end.
  - eauto.
  - rewrite cacheAndReturn_run. eauto.
Qed.

Lemma getTrialTimeRemaining_after env w status w1 :
  getUnifiedSubscriptionStatus false env w = (Return status, w1) ->
  getTrialTimeRemaining env w
  = if truthy (prop status "isTrialing") && truthy (prop status "trialEndsAt")
    then (Return (remainingAt env (prop status "trialEndsAt") (clock env (clockReads w1))),
          ticked w1)
    else (Return None, w1).
Proof.
  intros Hrun. pose proof (getUnified_caches _ _ _ _ _ Hrun) as [_ Htruthy].
  apply truthy_not_nullish in Htruthy.
  unfold getTrialTimeRemaining. rewrite tryCatch_run, bind_run, Hrun, bind_run.
  unfold getProp. rewrite Htruthy. cbn [ret].
  destruct (truthy (prop status "isTrialing")); cbn [negb andb]; [| reflexivity].
  rewrite bind_run. cbn [ret].
  destruct (truthy (prop status "trialEndsAt")); cbn [negb]; [| reflexivity].
  rewrite bind_run, dateNow_run, bind_run. cbn [host]. cbv zeta.
  unfold remainingAt.
  destruct (parseDate env (prop status "trialEndsAt")) as [trialEnd |]; cbn [option_map];
    [destruct (trialEnd - clock env (clockReads w1) <=? 0) |]; reflexivity.
Qed.

Lemma timeParts_sound r :
  0 < r ->
  exists d h m ms,
    days (timeParts (Some r)) = Some d
    /\ hours (timeParts (Some r)) = Some h
    /\ minutes (timeParts (Some r)) = Some m
    /\ r = d * 86400000 + h * 3600000 + m * 60000 + ms
    /\ 0 <= d /\ 0 <= h < 24 /\ 0 <= m < 60 /\ 0 <= ms < 60000.
Proof.
  intros Hr. unfold timeParts. cbn [days hours minutes option_map].
  change (1000 * 60 * 60 * 24) with 86400000.
  change (1000 * 60 * 60) with 3600000.
  change (1000 * 60) with 60000.
  eexists _, _, _, (r - r / 86400000 * 86400000
                      - Z.rem r 86400000 / 3600000 * 3600000
                      - Z.rem r 3600000 / 60000 * 60000).
  split; [reflexivity |]. split; [reflexivity |]. split; [reflexivity |].
  rewrite !Z.rem_mod_nonneg by lia.
  Z.to_euclidean_division_equations. lia.
Qed.

(** With a silent server, no active local subscription and a local trial
    record: the status, and the clock readings the call consumed. *)
Lemma local_trial_world env w record :
  cacheFresh false env w = false ->
  RemoteSilent env -> StorageWorks env ->
  inactive (item (localStore w) SUBSCRIPTION_KEY) ->
  localStore w !! TRIAL_KEY = Some record ->
  truthy record = true ->
  exists w1,
    getUnifiedSubscriptionStatus false env w
    = (Return (localTrialStatus env (clock env (S (clockReads w))) record),
       cached (localTrialStatus env (clock env (S (clockReads w))) record) env (ticked w1))
    /\ clockReads w1 = S (clockReads w).
Proof.
  intros Hmiss Hsilent Hstore Hsub Hrecord Htruthy.
  rewrite (getUnified_miss _ _ _ Hmiss), tryCatch_run.
  destruct (refresh_silent env (ticked w) Hsilent Hstore Hsub)
    as (w1 & (Htok & Htrial & _ & Hclock & Hevs) & ->).
  cbn [localStore ticked clockReads] in *.
  assert (Hitem : item (localStore w) TRIAL_KEY = record)
    by (unfold item; rewrite Hrecord; reflexivity).
  unfold fromLocalTrial. rewrite Hitem, Htruthy.
  rewrite (evaluateLocalTrial_run _ _ _ Htruthy), Hclock.
  exists w1. split; [reflexivity | exact Hclock].
Qed.

(** X16. The parts add up.  Whenever [getTrialTimeRemaining] returns an
    object whose [total] is a number, that number is positive and
    [days], [hours] and [minutes] are its whole days, the whole hours of
    the rest (under 24) and the whole minutes of that rest (under 60). *)
Theorem getTrialTimeRemaining_parts env w parts w' r :
  getTrialTimeRemaining env w = (Return (Some parts), w') ->
  total parts = Some r ->
  0 < r
  /\ exists d h m ms,
       days parts = Some d
       /\ hours parts = Some h
       /\ minutes parts = Some m
       /\ r = d * 86400000 + h * 3600000 + m * 60000 + ms
       /\ 0 <= d /\ 0 <= h < 24 /\ 0 <= m < 60 /\ 0 <= ms < 60000.
Proof.
  destruct (getUnified_returns false env w) as (status & w1 & Hrun).
  rewrite (getTrialTimeRemaining_after _ _ _ _ Hrun).
  destruct (truthy (prop status "isTrialing") && truthy (prop status "trialEndsAt"));
    [| discriminate].
  unfold remainingAt.
  destruct (parseDate env (prop status "trialEndsAt")) as [trialEnd |].
  - destruct (trialEnd - clock env (clockReads w1) <=? 0) eqn:Hleft; [discriminate |].
    intros [= <- _] [= <-]. apply Z.leb_gt in Hleft.
    split; [exact Hleft | apply timeParts_sound, Hleft].
  - intros [= <- _]. discriminate.
Qed.

Lemma getTrialTimeRemaining_parts_witness :
  0 < 199998997
  /\ exists d h m ms,
       days (timeParts (Some 199998997)) = Some d
       /\ hours (timeParts (Some 199998997)) = Some h
       /\ minutes (timeParts (Some 199998997)) = Some m
       /\ 199998997 = d * 86400000 + h * 3600000 + m * 60000 + ms
       /\ 0 <= d /\ 0 <= h < 24 /\ 0 <= m < 60 /\ 0 <= ms < 60000.
Proof.
  apply (getTrialTimeRemaining_parts offlineBrowser longTrialInstall
           (timeParts (Some 199998997))
           (snd (getTrialTimeRemaining offlineBrowser longTrialInstall)) 199998997).
  - vm_compute. reflexivity.
  - reflexivity.
Defined.

(** X17. Only while trialing.  [getTrialTimeRemaining] never throws, and
    it answers [null] unless the status it left in the cache is a trial:
    [isTrialing] and [trialEndsAt] are truthy, and the end, if it parses
    as a date, lies after the reading of the clock the call took last. *)
Theorem getTrialTimeRemaining_only_while_trialing env w :
  exists result w',
    getTrialTimeRemaining env w = (Return result, w')
    /\ (result <> None ->
        truthy (prop (statusCache w') "isTrialing") = true
        /\ truthy (prop (statusCache w') "trialEndsAt") = true
        /\ forall trialEnd,
             parseDate env (prop (statusCache w') "trialEndsAt") = Some trialEnd ->
             clock env (Nat.pred (clockReads w')) < trialEnd).
Proof.
  destruct (getUnified_returns false env w) as (status & w1 & Hrun).
  rewrite (getTrialTimeRemaining_after _ _ _ _ Hrun).
  pose proof (getUnified_caches _ _ _ _ _ Hrun) as [Hcache _].
  destruct (truthy (prop status "isTrialing")) eqn:H1;
    [destruct (truthy (prop status "trialEndsAt")) eqn:H2 |]; cbn [andb].
  2, 3: eexists _, _; split; [reflexivity | intros H; exfalso; apply H; reflexivity].
  eexists _, _. split; [reflexivity |].
  cbn [statusCache ticked clockReads Nat.pred]. rewrite Hcache.
  intros Hsome. split; [exact H1 |]. split; [exact H2 |].
  intros trialEnd Hparse. unfold remainingAt in Hsome. rewrite Hparse in Hsome.
  destruct (trialEnd - clock env (clockReads w1) <=? 0) eqn:Hleft; [contradiction |].
  apply Z.leb_gt in Hleft. lia.
Qed.

(** X18. A date that does not parse.  For a trialing status whose
    [trialEndsAt] is truthy but not a date, the call does not answer
    [null]: the difference is NaN, which is not [<= 0], and the object
    returned has NaN in every number and the text [NaNm]. *)
Theorem getTrialTimeRemaining_unparseable_end env w status w1 :
  getUnifiedSubscriptionStatus false env w = (Return status, w1) ->
  truthy (prop status "isTrialing") = true ->
  truthy (prop status "trialEndsAt") = true ->
  parseDate env (prop status "trialEndsAt") = None ->
  getTrialTimeRemaining env w
  = (Return (Some {| total := None; days := None; hours := None; minutes := None;
                     formatted := "NaNm" |}),
     ticked w1).
Proof.
  intros Hrun H1 H2 Hparse.
  rewrite (getTrialTimeRemaining_after _ _ _ _ Hrun), H1, H2. cbn [andb].
  unfold remainingAt. rewrite Hparse. reflexivity.
Qed.

Lemma getTrialTimeRemaining_unparseable_end_witness :
  getTrialTimeRemaining offlineBrowser undatedTrialCached
  = (Return (Some {| total := None; days := None; hours := None; minutes := None;
                     formatted := "NaNm" |}),
     ticked (ticked undatedTrialCached)).
Proof.
  apply (getTrialTimeRemaining_unparseable_end offlineBrowser undatedTrialCached undatedTrial
           (ticked undatedTrialCached));
    reflexivity.
Defined.

(** X19. The local trial, counted down.  With a silent server, working
    storage and a local trial record whose end parses, the time left is
    measured at the fourth reading of the clock, after the status call has
    compared the end with its second reading: the answer is [null] when
    either reading has reached the end. *)
Theorem getTrialTimeRemaining_local_trial env w record trialEnd :
  cacheFresh false env w = false ->
  RemoteSilent env -> StorageWorks env ->
  inactive (item (localStore w) SUBSCRIPTION_KEY) ->
  localStore w !! TRIAL_KEY = Some record ->
  truthy record = true ->
  truthy (prop record "trialEndsAt") = true ->
  parseDate env (prop record "trialEndsAt") = Some trialEnd ->
  let compared := clock env (S (clockReads w)) in
  let measured := clock env (S (S (S (clockReads w)))) in
  fst (getTrialTimeRemaining env w)
  = Return (if (compared <? trialEnd) && (measured <? trialEnd)
            then Some (timeParts (Some (trialEnd - measured)))
            else None).
Proof.
  intros Hmiss Hsilent Hstore Hsub Hrecord Htruthy Hends Hparse. cbv zeta.
  destruct (local_trial_world env w record Hmiss Hsilent Hstore Hsub Hrecord Htruthy)
    as (w1 & Hrun & Hclock).
  rewrite (getTrialTimeRemaining_after _ _ _ _ Hrun).
  unfold localTrialStatus. rewrite Hparse.
  destruct (clock env (S (clockReads w)) <? trialEnd); cbn [andb].
  - cbn [trialStatus prop field String.eqb Ascii.eqb Bool.eqb truthy andb fst].
    rewrite Hends. unfold remainingAt. rewrite Hparse.
    cbn [clockReads cached ticked]. rewrite Hclock.
    destruct (clock env (S (S (S (clockReads w)))) <? trialEnd) eqn:Hlt.
    + apply Z.ltb_lt in Hlt. rewrite (proj2 (Z.leb_gt _ _)) by lia. reflexivity.
    + apply Z.ltb_ge in Hlt. rewrite (proj2 (Z.leb_le _ _)) by lia. reflexivity.
  - reflexivity.
Qed.

Lemma getTrialTimeRemaining_local_trial_witness :
  fst (getTrialTimeRemaining offlineBrowser longTrialInstall)
  = Return (if (1001 <? 200000000) && (1003 <? 200000000)
            then Some (timeParts (Some (200000000 - 1003)))
            else None).
Proof.
  apply (getTrialTimeRemaining_local_trial offlineBrowser longTrialInstall
           (trialRecord (JNum 200000000)) 200000000).
  - reflexivity.
  - apply offline_silent.
  - apply browser_storage_works.
  - vm_compute. reflexivity.
  - vm_compute. reflexivity.
  - reflexivity.
  - reflexivity.
  - reflexivity.
Defined.

(** ** Checkout *)

(** X20. Checkout needs a token.  Without a truthy device token
    [generateCheckoutUrl] throws before it removes anything: storage, the
    status cache and the log are what they were. *)
Theorem generateCheckoutUrl_needs_token email plan env w :
  truthy (tokenOf env w) = false ->
  exists w',
    generateCheckoutUrl email plan env w
    = (Throw (Error "No device token available for checkout"), w')
    /\ sameState w w'
    /\ trace w' = trace w.
Proof.
  intros Htoken. unfold generateCheckoutUrl. rewrite bind_run, getDeviceToken_run.
  fold (tokenOf env w). rewrite Htoken. eexists. split; [reflexivity |]. repeat split.
Qed.

Lemma generateCheckoutUrl_needs_token_witness :
  exists w',
    generateCheckoutUrl buyer JUndef offlineBrowser firstInstall
    = (Throw (Error "No device token available for checkout"), w')
    /\ sameState firstInstall w'
    /\ trace w' = trace firstInstall.
Proof.
  apply (generateCheckoutUrl_needs_token buyer JUndef offlineBrowser firstInstall).
  reflexivity.
Defined.

(** The call past its guard, by the two encodings. *)
Lemma generateCheckoutUrl_run email plan env w :
  truthy (tokenOf env w) = true ->
  localFault env (S (localOps w)) = None ->
  exists w',
    generateCheckoutUrl email plan env w
    = (match encodeURIComponent env (strOf env email),
             encodeURIComponent env (strOf env (tokenOf env w)) with
       | Some encodedEmail, Some encodedToken =>
           Return (checkoutBaseUrl +:+ "?checkout[email]=" +:+ encodedEmail
                     +:+ "&checkout[custom][deviceToken]=" +:+ encodedToken)
       | _, _ => Throw (Error "URI malformed")
       end, w')
    /\ localStore w' = delete SUBSCRIPTION_KEY (localStore w)
    /\ syncStore w' = syncStore w
    /\ fetches w' = fetches w
    /\ trace w' = EvLocalRemove [SUBSCRIPTION_KEY] :: trace w
    /\ statusCache w' = JNull.
Proof.
  intros Htoken Hremove.
  unfold generateCheckoutUrl. rewrite bind_run, getDeviceToken_run.
  fold (tokenOf env w). rewrite Htoken. cbn [negb].
  rewrite bind_run. unfold localRemove, localCall. cbn [localOps localRead]. rewrite Hremove.
  rewrite bind_run. cbn [clearStatusCache bind setStatusCache setCacheTimestamp].
  rewrite bind_run, str_run, bind_run. unfold encode at 1.
  destruct (encodeURIComponent env (strOf env email)) as [encodedEmail |].
  2: { eexists. split; [reflexivity |]. repeat split. }
  rewrite bind_run, str_run, bind_run. unfold encode.
  destruct (encodeURIComponent env (strOf env (tokenOf env w))) as [encodedToken |];
    (eexists; split; [reflexivity |]; repeat split).
Qed.

(** X21. Checkout forgets the subscription.  With a device token and
    working storage, [generateCheckoutUrl] deletes the [subscription] key
    and nothing else, empties the status cache and sends nothing, so that
    the next status call, forced or not, cannot answer from the cache --
    and it has done so before it encodes its arguments: it returns the URL
    when the e-mail and the token can both be encoded, and throws the
    URIError otherwise, the subscription already forgotten. *)
Theorem generateCheckoutUrl_forgets_subscription email plan env w :
  truthy (tokenOf env w) = true ->
  localFault env (S (localOps w)) = None ->
  let res := fst (generateCheckoutUrl email plan env w) in
  let w' := snd (generateCheckoutUrl email plan env w) in
  localStore w' = delete SUBSCRIPTION_KEY (localStore w)
  /\ syncStore w' = syncStore w
  /\ fetches w' = fetches w
  /\ trace w' = EvLocalRemove [SUBSCRIPTION_KEY] :: trace w
  /\ (forall forceRefresh later, cacheFresh forceRefresh later w' = false)
  /\ res
     = match encodeURIComponent env (strOf env email),
             encodeURIComponent env (strOf env (tokenOf env w)) with
       | Some encodedEmail, Some encodedToken =>
           Return (checkoutBaseUrl +:+ "?checkout[email]=" +:+ encodedEmail
                     +:+ "&checkout[custom][deviceToken]=" +:+ encodedToken)
       | _, _ => Throw (Error "URI malformed")
       end.
Proof.
  intros Htoken Hremove. cbv zeta.
  destruct (generateCheckoutUrl_run email plan env w Htoken Hremove)
    as (w' & -> & Hlocal & Hsync & Hfetches & Htrace & Hcache).
  cbn [fst snd]. repeat split; try assumption.
  intros forceRefresh later. unfold cacheFresh. rewrite Hcache. cbn [truthy].
  rewrite andb_false_r. reflexivity.
Qed.

Lemma generateCheckoutUrl_forgets_subscription_witness :
  localStore (snd (generateCheckoutUrl buyer JUndef offlineBrowser subscriberInstall))
  = delete SUBSCRIPTION_KEY (localStore subscriberInstall)
  /\ syncStore (snd (generateCheckoutUrl buyer JUndef offlineBrowser subscriberInstall))
     = syncStore subscriberInstall
  /\ fetches (snd (generateCheckoutUrl buyer JUndef offlineBrowser subscriberInstall))
     = fetches subscriberInstall
  /\ trace (snd (generateCheckoutUrl buyer JUndef offlineBrowser subscriberInstall))
     = EvLocalRemove [SUBSCRIPTION_KEY] :: trace subscriberInstall
  /\ (forall forceRefresh later,
        cacheFresh forceRefresh later
          (snd (generateCheckoutUrl buyer JUndef offlineBrowser subscriberInstall)) = false)
  /\ fst (generateCheckoutUrl buyer JUndef offlineBrowser subscriberInstall)
     = Return (checkoutBaseUrl +:+ "?checkout[email]=" +:+ "user@example.com"
                 +:+ "&checkout[custom][deviceToken]=" +:+ "device_1").
Proof.
  apply (generateCheckoutUrl_forgets_subscription buyer JUndef offlineBrowser subscriberInstall);
    reflexivity.
Defined.

(** ** Issuing a trial *)

Lemma refusalMessage_pure trialCheck (w0 : World) :
  keeps (fun w => w = w0) (refusalMessage trialCheck).
Proof. unfold refusalMessage. repeat keeps_step. Qed.

(** A computation that ends in [throw] throws. *)
Lemma throws_at_end {A B} (m : Async A) (f : A -> Exn) env w :
  exists e, fst ((let* a := m in @throw B (f a)) env w) = Throw e.
Proof.
  rewrite bind_run. destruct (m env w) as [[a | e] w1]; cbn; eauto.
Qed.

Lemma attemptsOf_fetch req out log :
  attemptsOf (EvFetch req out :: log) = attemptsOf log ++ [(req, out)].
Proof. unfold attemptsOf. cbn [rev]. rewrite omap_app. reflexivity. Qed.

Lemma attemptsOf_localSet items log : attemptsOf (EvLocalSet items :: log) = attemptsOf log.
Proof. unfold attemptsOf. cbn [rev]. rewrite omap_app. cbn. apply app_nil_r. Qed.

Lemma attemptsOf_syncSet items log : attemptsOf (EvSyncSet items :: log) = attemptsOf log.
Proof. unfold attemptsOf. cbn [rev]. rewrite omap_app. cbn. apply app_nil_r. Qed.

(** However [startTrial] ends: it threw and stored nothing, or it stored
    and returned the record of the trial it announced to the server, after
    two requests that the server both approved. *)
Lemma startTrial_cases env w res w' :
  startTrial env w = (res, w') ->
  let token := tokenOf env w in
  let check := trialCheckRequest token in
  let register :=
    registerRequest token
      (toISOString env (addDays env (clock env (clockReads w)) TRIAL_DURATION_DAYS)) in
  (exists e, res = Throw e /\ sameState w w')
  \/ (res = Return (issuedTrial env w)
      /\ truthy token = true
      /\ localStore w'
         = <[TRIAL_KEY := issuedTrial env w]>
             (<[TRIAL_USED_FLAG := usedFlag env w]> (localStore w))
      /\ statusCache w' = statusCache w
      /\ cacheTimestamp w' = cacheTimestamp w
      /\ fetches w' = S (S (fetches w))
      /\ attemptsOf (trace w')
         = attemptsOf (trace w)
           ++ [(check, network env (fetches w) check);
               (register, network env (S (fetches w)) register)]
      /\ confirms "/trial/check" "allowed" token
           (EvFetch check (network env (fetches w) check))
      /\ confirms "/trial/register" "success" token
           (EvFetch register (network env (S (fetches w)) register))).
Proof.
  cbv zeta.
  unfold startTrial. rewrite tryCatch_run, bind_run, getDeviceToken_run.
  fold (tokenOf env w). set (token := tokenOf env w).
  destruct (truthy token) eqn:Htoken; cbn [negb].
  2: { intros [= <- <-]. left. eexists. split; [reflexivity | repeat split]. }
  rewrite bind_run. unfold fetch at 1. cbn [fetches localRead].
  destruct (network env (fetches w) (trialCheckRequest token)) as [msg | r1] eqn:Hcheck;
    cbv zeta.
  { intros [= <- <-]. left. eexists. split; [reflexivity | repeat split]. }
  destruct (ok r1) eqn:Hok1; cbn [negb].
  2: { intros [= <- <-]. left. eexists. split; [reflexivity | repeat split]. }
  rewrite bind_run. unfold json at 1.
  destruct (body r1) as [trialCheck | msg] eqn:Hbody1; cbn [ret throw].
  2: { intros [= <- <-]. left. eexists. split; [reflexivity | repeat split]. }
  rewrite bind_run. unfold getProp at 1. destruct (nullish trialCheck); cbn [ret throw].
  { intros [= <- <-]. left. eexists. split; [reflexivity | repeat split]. }
  destruct (truthy (prop trialCheck "allowed")) eqn:Hallowed; cbn [negb].
  2: { match goal with |- context [bind ?m ?f env ?w0] =>
         pose proof (throws_at_end (B := JVal) m Error env w0) as [e He];
         pose proof (keeps_bind _ m f (refusalMessage_pure trialCheck w0)
                       (fun a => keeps_throw _ _) env w0 eq_refl) as Hw;
         destruct (bind m f env w0) as [res0 w0'] eqn:E
       end.
       cbn [fst snd] in He, Hw. subst res0 w0'.
       intros [= <- <-]. left. eexists. split; [reflexivity | repeat split]. }
  rewrite bind_run, dateNow_run, bind_run. cbn [host]. rewrite bind_run.
  cbn [clockReads localRead networked ticked].
  set (trialEndsAt := toISOString env (addDays env (clock env (clockReads w)) TRIAL_DURATION_DAYS)).
  unfold fetch at 1. cbn [fetches localRead networked ticked Nat.add].
  destruct (network env (S (fetches w)) (registerRequest token trialEndsAt))
    as [msg | r2] eqn:Hregister; cbv zeta.
  { intros [= <- <-]. left. eexists. split; [reflexivity | repeat split]. }
  destruct (ok r2) eqn:Hok2; cbn [negb].
  2: { intros [= <- <-]. left. eexists. split; [reflexivity | repeat split]. }
  rewrite bind_run. unfold json at 1.
  destruct (body r2) as [registerResult | msg] eqn:Hbody2; cbn [ret throw].
  2: { intros [= <- <-]. left. eexists. split; [reflexivity | repeat split]. }
  rewrite bind_run. unfold getProp at 1.
  destruct (nullish registerResult) eqn:Hnn2; cbn [ret throw].
  { intros [= <- <-]. left. eexists. split; [reflexivity | repeat split]. }
  destruct (truthy (prop registerResult "success")) eqn:Hsuccess; cbn [negb].
  2: { rewrite bind_run. unfold getProp. rewrite Hnn2. cbn [ret].
       rewrite bind_run.
       destruct (truthy (prop registerResult "error")); [rewrite str_run |];
         intros [= <- <-]; left; eexists; (split; [reflexivity | repeat split]). }
  repeat (rewrite bind_run; first [rewrite dateNow_run | progress cbn [host]]).
  rewrite bind_run.
  destruct (localFault env (S (localOps w))) as [msg |] eqn:Hset.
  { rewrite localSet_fault with (msg := msg) by exact Hset.
    intros [= <- <-]. left. eexists. split; [reflexivity | repeat split]. }
  rewrite localSet_run by exact Hset.
  rewrite bind_run, tryCatch_run.
  repeat (rewrite bind_run; first [rewrite dateNow_run | progress cbn [host]]).
  unfold syncSet. cbn [syncOps ticked localWritten networked localRead].
  assert (Hallows : confirms "/trial/check" "allowed" token
            (EvFetch (trialCheckRequest token) (Responded r1))).
  { exists (trialCheckRequest token), r1, trialCheck.
    repeat split; assumption || reflexivity. }
  assert (Hconfirms : confirms "/trial/register" "success" token
            (EvFetch (registerRequest token trialEndsAt) (Responded r2))).
  { exists (registerRequest token trialEndsAt), r2, registerResult.
    repeat split; assumption || reflexivity. }
  destruct (syncFault env (syncOps w)); cbn [ret];
    intros [= <- <-]; right;
    cbn [localStore statusCache cacheTimestamp fetches trace setItems foldr fst snd
         localWritten ticked networked localRead Nat.add app];
    rewrite ?attemptsOf_syncSet, attemptsOf_localSet, !attemptsOf_fetch, <- app_assoc;
    repeat split; assumption.
Qed.

Lemma tokenOf_truthy env w :
  truthy (tokenOf env w) = true -> tokenOf env w = item (localStore w) DEVICE_TOKEN_KEY.
Proof. unfold tokenOf. destruct (localFault env (localOps w)); [discriminate | reflexivity]. Qed.

(** X22. What a started trial is.  When [startTrial] returns, the record
    it returns is the one now stored under [trial]: it carries the device
    token of local storage and ends [TRIAL_DURATION_DAYS] = 3 days after
    the first reading of the clock; the [trialEverUsed] flag is stored with
    it.  The call logged exactly two requests, in this order: the
    [/trial/check] for that token, which the network answered 2xx with a
    truthy [allowed], and the [/trial/register] for that token and that
    end, which the network answered 2xx with a truthy [success]. *)
Theorem startTrial_returns_what_it_stored env w trialData w' :
  startTrial env w = (Return trialData, w') ->
  let token := prop trialData "deviceToken" in
  let check := trialCheckRequest token in
  let register :=
    registerRequest token (toISOString env (addDays env (clock env (clockReads w)) 3)) in
  localStore w' !! TRIAL_KEY = Some trialData
  /\ token = item (localStore w) DEVICE_TOKEN_KEY
  /\ truthy token = true
  /\ prop trialData "trialEndsAt"
     = JStr (toISOString env (addDays env (clock env (clockReads w)) 3))
  /\ truthy (item (localStore w') TRIAL_USED_FLAG) = true
  /\ fetches w' = S (S (fetches w))
  /\ attemptsOf (trace w')
     = attemptsOf (trace w)
       ++ [(check, network env (fetches w) check);
           (register, network env (S (fetches w)) register)]
  /\ confirms "/trial/check" "allowed" token
       (EvFetch check (network env (fetches w) check))
  /\ confirms "/trial/register" "success" token
       (EvFetch register (network env (S (fetches w)) register)).
Proof.
  intros Hrun. apply startTrial_cases in Hrun. cbv zeta in Hrun.
  destruct Hrun
    as [(e & [=] & _)
       | ([= ->] & Htoken & Hlocal & _ & _ & Hfetches & Hattempts & Hallows & Hconfirms)].
  cbv zeta. rewrite Hlocal. unfold issuedTrial.
  cbn [prop field String.eqb Ascii.eqb Bool.eqb].
  split; [apply lookup_insert_eq |].
  split; [apply tokenOf_truthy, Htoken |].
  split; [exact Htoken |].
  split; [reflexivity |].
  split; [rewrite item_insert_ne, item_insert by discriminate; reflexivity |].
  split; [exact Hfetches |].
  split; [exact Hattempts |].
  split; [exact Hallows | exact Hconfirms].
Qed.

Lemma startTrial_returns_what_it_stored_witness :
  let trialData := issuedTrial grantingBrowser newInstall in
  let w' := snd (startTrial grantingBrowser newInstall) in
  let token := prop trialData "deviceToken" in
  let check := trialCheckRequest token in
  let register :=
    registerRequest token
      (toISOString grantingBrowser
         (addDays grantingBrowser (clock grantingBrowser (clockReads newInstall)) 3)) in
  localStore w' !! TRIAL_KEY = Some trialData
  /\ token = item (localStore newInstall) DEVICE_TOKEN_KEY
  /\ truthy token = true
  /\ prop trialData "trialEndsAt"
     = JStr (toISOString grantingBrowser
               (addDays grantingBrowser (clock grantingBrowser (clockReads newInstall)) 3))
  /\ truthy (item (localStore w') TRIAL_USED_FLAG) = true
  /\ fetches w' = S (S (fetches newInstall))
  /\ attemptsOf (trace w')
     = attemptsOf (trace newInstall)
       ++ [(check, network grantingBrowser (fetches newInstall) check);
           (register, network grantingBrowser (S (fetches newInstall)) register)]
  /\ confirms "/trial/check" "allowed" token
       (EvFetch check (network grantingBrowser (fetches newInstall) check))
  /\ confirms "/trial/register" "success" token
       (EvFetch register (network grantingBrowser (S (fetches newInstall)) register)).
Proof.
  apply (startTrial_returns_what_it_stored grantingBrowser newInstall).
  vm_compute. reflexivity.
Defined.

(** X23. A failed start stores nothing.  Whenever [startTrial] throws --
    no token, no network, a refusal, a failed registration, a storage
    fault -- local storage, sync storage and the status cache are what
    they were: no trial record and no [trialEverUsed] flag is left behind. *)
Theorem startTrial_failure_stores_nothing env w e w' :
  startTrial env w = (Throw e, w') -> sameState w w'.
Proof.
  intros Hrun. apply startTrial_cases in Hrun. cbv zeta in Hrun.
  destruct Hrun as [(e' & _ & Hsame) | ([=] & _)].
  exact Hsame.
Qed.

Lemma startTrial_failure_stores_nothing_witness :
  sameState newInstall (snd (startTrial offlineBrowser newInstall)).
Proof.
  apply (startTrial_failure_stores_nothing offlineBrowser newInstall (Error "Failed to fetch")).
  vm_compute. reflexivity.
Defined.

(** X24. No token, no request.  Without a truthy device token
    [startTrial] throws before it contacts the server. *)
Theorem startTrial_needs_token env w :
  truthy (tokenOf env w) = false ->
  exists w',
    startTrial env w = (Throw (Error "No device token available"), w')
    /\ fetches w' = fetches w
    /\ trace w' = trace w
    /\ sameState w w'.
Proof.
  intros Htoken. unfold startTrial. rewrite tryCatch_run, bind_run, getDeviceToken_run.
  fold (tokenOf env w). rewrite Htoken. eexists. split; [reflexivity |]. repeat split.
Qed.

Lemma startTrial_needs_token_witness :
  exists w',
    startTrial grantingBrowser firstInstall = (Throw (Error "No device token available"), w')
    /\ fetches w' = fetches firstInstall
    /\ trace w' = trace firstInstall
    /\ sameState firstInstall w'.
Proof.
  apply (startTrial_needs_token grantingBrowser firstInstall). reflexivity.
Defined.

(** ** The usage gate *)

(** X25. The gate's answers.  Over a cache that is empty or holds a
    status this service produced, [canUseExtension] never throws and never
    takes its [catch]: it answers with the status now in the cache and one
    of three reasons -- [subscription] when the status is active, else
    [trial] when it is trialing, else [trial_expired] -- and allows use for
    the first two only.  A refused trial is reported as [trial_expired];
    [trial_denied], [trial_fallback] and [error] do not occur. *)
Theorem canUseExtension_reasons env w :
  (truthy (statusCache w) = true -> gateClosed (statusCache w)) ->
  exists permission w',
    canUseExtension env w = (Return permission, w')
    /\ status permission = statusCache w'
    /\ reason permission
       = (if truthy (prop (statusCache w') "active") then "subscription"
          else if truthy (prop (statusCache w') "isTrialing") then "trial"
          else "trial_expired")
    /\ canUse permission
       = truthy (prop (statusCache w') "active")
         || truthy (prop (statusCache w') "isTrialing").
Proof.
  intros Hcache. unfold canUseExtension. rewrite tryCatch_run, bind_run.
  destruct (getUnified_returns false env w) as (s & w1 & Hrun). rewrite Hrun.
  pose proof (getUnified_caches _ _ _ _ _ Hrun) as [Hs Htruthy].
  pose proof (getUnified_gateClosed _ _ _ _ _ Hcache Hrun) as Hclosed.
  rewrite bind_run. unfold getProp. rewrite (truthy_not_nullish _ Htruthy). cbn [ret].
  destruct (truthy (prop s "active")) eqn:Hactive.
  { eexists _, _. split; [reflexivity |]. cbn [status reason canUse].
    rewrite Hs, Hactive. auto. }
  rewrite bind_run. cbn [ret].
  destruct (truthy (prop s "isTrialing")) eqn:Htrial.
  { eexists _, _. split; [reflexivity |]. cbn [status reason canUse].
    rewrite Hs, Hactive, Htrial. auto. }
  repeat (rewrite bind_run; cbn [ret]).
  destruct Hclosed as [Hclosed | Hclosed]; [congruence |].
  rewrite Hclosed, andb_false_r.
  eexists _, _. split; [reflexivity |]. cbn [status reason canUse].
  rewrite Hs, Hactive, Htrial. auto.
Qed.

Lemma canUseExtension_reasons_witness :
  exists permission w',
    canUseExtension refusingBrowser newInstall = (Return permission, w')
    /\ status permission = statusCache w'
    /\ reason permission
       = (if truthy (prop (statusCache w') "active") then "subscription"
          else if truthy (prop (statusCache w') "isTrialing") then "trial"
          else "trial_expired")
    /\ canUse permission
       = truthy (prop (statusCache w') "active")
         || truthy (prop (statusCache w') "isTrialing").
Proof.
  apply (canUseExtension_reasons refusingBrowser newInstall).
  intros H. discriminate H.
Defined.

(** ** Which keys a call can change *)

Section KeyKept.
Context (key : string) (v : option JVal).

Lemma keeps_key_dateNow : keeps (keyHolds key v) dateNow.
Proof. intros env w H. exact H. Qed.

Lemma keeps_key_setStatusCache s : keeps (keyHolds key v) (setStatusCache s).
Proof. intros env w H. exact H. Qed.

Lemma keeps_key_setCacheTimestamp t : keeps (keyHolds key v) (setCacheTimestamp t).
Proof. intros env w H. exact H. Qed.

Lemma keeps_key_readCache : keeps (keyHolds key v) readCache.
Proof. intros env w H. exact H. Qed.

Lemma keeps_key_cacheAndReturn result : keeps (keyHolds key v) (cacheAndReturn result).
Proof. intros env w H. exact H. Qed.

Lemma keeps_key_fetch req : keeps (keyHolds key v) (fetch req).
Proof. intros env w H. unfold fetch. destruct (network env (fetches w) req); exact H. Qed.

Lemma keeps_key_sleep ms : keeps (keyHolds key v) (sleep ms).
Proof. intros env w H. exact H. Qed.

Lemma keeps_key_syncSet items : keeps (keyHolds key v) (syncSet items).
Proof. intros env w H. unfold syncSet. destruct (syncFault env (syncOps w)); exact H. Qed.

Lemma keeps_key_localGet keys : keeps (keyHolds key v) (localGet keys).
Proof.
  intros env w H. unfold localGet, localCall.
  destruct (localFault env (localOps w)); exact H.
Qed.

Lemma keeps_key_localSet items :
  assoc key items = None -> keeps (keyHolds key v) (localSet items).
Proof.
  intros Hother env w H. unfold localSet, localCall.
  destruct (localFault env (localOps w)); [exact H |].
  unfold keyHolds. cbn [snd localStore]. rewrite setItems_lookup, Hother. exact H.
Qed.

Lemma keeps_key_makeWorkerRequest endpoint options :
  keeps (keyHolds key v) (makeWorkerRequest endpoint options).
Proof.
  intros env w H.
  destruct (makeWorkerRequest endpoint options env w) as [res w'] eqn:E.
  apply makeWorkerRequest_inv in E as (n & evs & -> & _). exact H.
Qed.

Lemma keeps_key_getDeviceToken : keeps (keyHolds key v) getDeviceToken.
Proof. intros env w H. rewrite getDeviceToken_run. exact H. Qed.

Lemma assoc_other k (d : JVal) : key <> k -> assoc key [(k, d)] = None.
Proof. intros H. cbn [assoc]. destruct (String.eqb_spec key k); [contradiction | reflexivity]. Qed.

Lemma assoc_others k1 k2 (d1 d2 : JVal) :
  key <> k1 -> key <> k2 -> assoc key [(k1, d1); (k2, d2)] = None.
Proof.
  intros H1 H2. cbn [assoc].
  destruct (String.eqb_spec key k1); [contradiction |].
  destruct (String.eqb_spec key k2); [contradiction | reflexivity].
Qed.

#[local] Hint Resolve keeps_key_dateNow keeps_key_setStatusCache keeps_key_setCacheTimestamp
  keeps_key_readCache keeps_key_cacheAndReturn keeps_key_fetch keeps_key_sleep
  keeps_key_syncSet keeps_key_localGet keeps_key_makeWorkerRequest keeps_key_getDeviceToken
  keeps_key_localSet assoc_other assoc_others : keeps.

Lemma keeps_key_getLocalData : keeps (keyHolds key v) _getLocalData.
Proof. unfold _getLocalData. repeat keeps_step. Qed.

Lemma keeps_key_evaluateLocalTrial localTrial :
  keeps (keyHolds key v) (evaluateLocalTrial localTrial).
Proof. unfold evaluateLocalTrial. repeat keeps_step. Qed.

Lemma keeps_key_preCheckTrial deviceToken :
  keeps (keyHolds key v) (preCheckTrial deviceToken).
Proof. unfold preCheckTrial. repeat keeps_step. Qed.

Lemma keeps_key_refusalMessage trialCheck :
  keeps (keyHolds key v) (refusalMessage trialCheck).
Proof. unfold refusalMessage. repeat keeps_step. Qed.

Context (Hnot_trial : key <> TRIAL_KEY) (Hnot_flag : key <> TRIAL_USED_FLAG).

Lemma keeps_key_restoreTrialFromServer deviceToken :
  keeps (keyHolds key v) (restoreTrialFromServer deviceToken).
Proof. unfold restoreTrialFromServer. repeat keeps_step. Qed.

#[local] Hint Resolve keeps_key_refusalMessage : keeps.

Lemma keeps_key_startTrial : keeps (keyHolds key v) startTrial.
Proof. unfold startTrial. repeat keeps_step. Qed.

#[local] Hint Resolve keeps_key_startTrial : keeps.

Lemma keeps_key_issueTrial : keeps (keyHolds key v) issueTrial.
Proof. unfold issueTrial. repeat keeps_step. Qed.

(** The status function past its server check. *)
Lemma keeps_key_afterServerCheck serverStatus :
  keeps (keyHolds key v)
    (if truthy (andProp serverStatus "active") then cacheAndReturn serverStatus
     else
       let* deviceToken := getDeviceToken in
       let* restored := restoreTrialFromServer deviceToken in
       match restored with
       | Some result => ret result
       | None =>
           let* localData := _getLocalData in
           let localSubscription := fst localData in
           let localTrial := snd localData in
           if truthy (andProp localSubscription "active") then
             cacheAndReturn localSubscription
           else if truthy localTrial then evaluateLocalTrial localTrial
           else
             let* denied := preCheckTrial deviceToken in
             match denied with
             | Some result => ret result
             | None => issueTrial
             end
       end).
Proof.
  pose proof keeps_key_restoreTrialFromServer. pose proof keeps_key_getLocalData.
  pose proof keeps_key_evaluateLocalTrial. pose proof keeps_key_preCheckTrial.
  pose proof keeps_key_issueTrial.
  cbv zeta. repeat keeps_step.
Qed.

End KeyKept.

(** However the server check ends: it stored nothing, or it returned the
    JSON body of a 2xx answer to its [/check] request and stored it. *)
Lemma checkServerStatus_cases env w res w' :
  _checkServerStatus env w = (res, w') ->
  ((exists e, res = Throw e) /\ localStore w' = localStore w)
  \/ exists data,
       res = Return data
       /\ answered env (checkRequest env w) data
       /\ localStore w' = <[SUBSCRIPTION_KEY := data]> (localStore w).
Proof.
  unfold _checkServerStatus. rewrite bind_run, getDeviceToken_run.
  destruct (localFault env (localOps w)) as [msg |] eqn:Hget; cbn [truthy negb].
  { intros [= <- <-]. left. split; [eauto | reflexivity]. }
  destruct (truthy (item (localStore w) DEVICE_TOKEN_KEY)); cbn [negb].
  2: { intros [= <- <-]. left. split; [eauto | reflexivity]. }
  rewrite tryCatch_run, bind_run, str_run, bind_run.
  destruct (makeWorkerRequest _ noOptions env (localRead w)) as [[data | e] w1] eqn:E;
    apply makeWorkerRequest_events in E as (n & evs & -> & _ & Hres).
  2: { intros [= <- <-]. left. split; [eauto | reflexivity]. }
  destruct (Hres data eq_refl) as (k & r & Hnet & Hok & Hbody).
  rewrite bind_run.
  destruct (localFault env (localOps (networked n evs (localRead w)))) as [msg |] eqn:Hset.
  { rewrite localSet_fault with (msg := msg) by exact Hset.
    intros [= <- <-]. left. split; [eauto | reflexivity]. }
  rewrite localSet_run by exact Hset.
  intros [= <- <-]. right. exists data. split; [reflexivity |].
  split; [exists k, r; auto | reflexivity].
Qed.

(** X26. Where a subscription record comes from.  After a status call,
    forced or not and however it went, local storage holds under
    [subscription] what it held before, or the JSON body of a 2xx answer
    the server gave to the [/check] request for the stored device token:
    no other step of the call writes that key. *)
Theorem subscription_record_comes_from_server forceRefresh env w :
  let w' := snd (getUnifiedSubscriptionStatus forceRefresh env w) in
  localStore w' !! SUBSCRIPTION_KEY = localStore w !! SUBSCRIPTION_KEY
  \/ exists data,
       answered env (checkRequest env w) data
       /\ localStore w' !! SUBSCRIPTION_KEY = Some data.
Proof.
  cbv zeta.
  destruct (cacheFresh forceRefresh env w) eqn:Hfresh.
  { destruct forceRefresh; [discriminate |].
    rewrite (getUnified_hit _ _ Hfresh). left. reflexivity. }
  rewrite (getUnified_miss _ _ _ Hfresh).
  assert (Hrest : forall v (m : Async JVal) w0,
            keeps (keyHolds SUBSCRIPTION_KEY v) m ->
            keyHolds SUBSCRIPTION_KEY v w0 ->
            keyHolds SUBSCRIPTION_KEY v
              (snd (tryCatch m (fun _ => cacheAndReturn errorStatus) env w0))).
  { intros v m w0 Hm Hw0.
    apply (keeps_tryCatch _ m _ Hm (fun _ => keeps_key_cacheAndReturn _ _ _) env w0 Hw0). }
  unfold refreshStatus.
  set (rest := fun serverStatus : JVal => if truthy (andProp serverStatus "active") then _ else _).
  assert (Hkeeps : forall v serverStatus, keeps (keyHolds SUBSCRIPTION_KEY v) (rest serverStatus)).
  { intros v serverStatus. apply keeps_key_afterServerCheck; discriminate. }
  rewrite tryCatch_run, bind_run, tryCatch_run.
  destruct (_checkServerStatus env (ticked w)) as [res w1] eqn:E.
  apply checkServerStatus_cases in E
    as [[[e ->] Hlocal] | (data & -> & Hanswered & Hlocal)]; cbn [ret].
  - left.
    pose proof (Hrest (localStore w !! SUBSCRIPTION_KEY) (rest JNull) w1 (Hkeeps _ _)) as H.
    rewrite tryCatch_run in H. apply H. unfold keyHolds. rewrite Hlocal. reflexivity.
  - right. exists data. split; [exact Hanswered |].
    pose proof (Hrest (Some data) (rest data) w1 (Hkeeps _ _)) as H.
    rewrite tryCatch_run in H. apply H. unfold keyHolds. rewrite Hlocal.
    apply lookup_insert_eq.
Qed.

Lemma keeps_key_checkServerStatus key v :
  key <> SUBSCRIPTION_KEY -> keeps (keyHolds key v) _checkServerStatus.
Proof.
  intros Hkey env w H.
  destruct (_checkServerStatus env w) as [res w'] eqn:E.
  apply checkServerStatus_cases in E as [[_ Hlocal] | (data & _ & _ & Hlocal)];
    unfold keyHolds; cbn [snd]; rewrite Hlocal; [exact H |].
  rewrite lookup_insert_ne by congruence. exact H.
Qed.

(** X27. The keys a status call can write.  Whatever the browser does,
    a status call leaves every key of local storage other than
    [subscription], [trial] and [trialEverUsed] as it was: the device
    token and the usage ledger are never touched by it. *)
Theorem status_call_writes_three_keys_only forceRefresh env w key :
  key <> SUBSCRIPTION_KEY -> key <> TRIAL_KEY -> key <> TRIAL_USED_FLAG ->
  localStore (snd (getUnifiedSubscriptionStatus forceRefresh env w)) !! key
  = localStore w !! key.
Proof.
  intros Hsub Htrial Hflag.
  change (keyHolds key (localStore w !! key)
            (snd (getUnifiedSubscriptionStatus forceRefresh env w))).
  apply keeps_at; [| reflexivity].
  unfold getUnifiedSubscriptionStatus.
  apply keeps_tryCatch; [| intros; apply keeps_key_cacheAndReturn].
  apply keeps_bind; [apply keeps_key_dateNow | intros now].
  apply keeps_bind; [apply keeps_key_readCache | intros cached].
  destruct (negb forceRefresh && truthy (fst cached) && (now - snd cached <? CACHE_DURATION));
    [apply keeps_ret |].
  apply keeps_bind.
  { apply keeps_tryCatch; [apply keeps_key_checkServerStatus, Hsub | intros; apply keeps_ret]. }
  intros serverStatus. apply keeps_key_afterServerCheck; assumption.
Qed.

Lemma status_call_writes_three_keys_only_witness :
  localStore (snd (getUnifiedSubscriptionStatus false grantingBrowser newInstall))
    !! DEVICE_TOKEN_KEY
  = localStore newInstall !! DEVICE_TOKEN_KEY.
Proof.
  apply (status_call_writes_three_keys_only false grantingBrowser newInstall DEVICE_TOKEN_KEY);
    discriminate.
Defined.

(** X28. The server check writes through.  When [_checkServerStatus]
    returns, what it returns is the JSON body of a 2xx answer to [/check]
    and is what local storage now holds under [subscription], an inactive
    answer included; when it throws, local storage is what it was. *)
Theorem checkServerStatus_writes_through env w :
  match _checkServerStatus env w with
  | (Return data, w') =>
      answered env (checkRequest env w) data
      /\ localStore w' = <[SUBSCRIPTION_KEY := data]> (localStore w)
  | (Throw _, w') => localStore w' = localStore w
  end.
Proof.
  destruct (_checkServerStatus env w) as [res w'] eqn:E.
  apply checkServerStatus_cases in E as [[[e ->] Hlocal] | (data & -> & Hanswered & Hlocal)];
    auto.
Qed.

(** ** Notifications and analytics *)

(** The request [checkForActivationNotification] sends. *)
Lemma checkForActivationNotification_run env w :
  let req :=
    plainRequest (WORKER_URL +:+ "/notifications?token=" +:+ strOf env (tokenOf env w)) in
  checkForActivationNotification env w
  = if truthy (tokenOf env w) then
      (Return match attemptOutcome (network env (fetches w) req) with
              | Return data => data
              | Throw _ => JNull
              end,
       networked 1 [EvFetch req (network env (fetches w) req)] (localRead w))
    else (Return JNull, localRead w).
Proof.
  cbv zeta. unfold checkForActivationNotification.
  rewrite tryCatch_run, bind_run, getDeviceToken_run. fold (tokenOf env w).
  destruct (truthy (tokenOf env w)); cbn [negb]; [| reflexivity].
  rewrite bind_run, str_run, bind_run. unfold fetch, attemptOutcome.
  cbn [fetches localRead].
  destruct (network env (fetches w) _) as [msg | r]; cbv zeta; [reflexivity |].
  destruct (ok r); cbn [negb]; [| reflexivity].
  unfold json. destruct (body r); reflexivity.
Qed.

(** X29. Asking for a notification.  [checkForActivationNotification]
    never throws and changes neither storage nor the cache.  Without a
    truthy device token it answers [null] and sends nothing.  With one it
    sends exactly one request, [GET /notifications?token=<token>], never a
    second; it answers the JSON body when the answer is 2xx and parses,
    and [null] on a transport failure, a non-2xx status or a body that
    does not parse. *)
Theorem checkForActivationNotification_is_quiet env w :
  let req :=
    plainRequest (WORKER_URL +:+ "/notifications?token=" +:+ strOf env (tokenOf env w)) in
  let out := network env (fetches w) req in
  exists result w',
    checkForActivationNotification env w = (Return result, w')
    /\ sameState w w'
    /\ if truthy (tokenOf env w) then
         trace w' = EvFetch req out :: trace w
         /\ fetches w' = S (fetches w)
         /\ (forall r data,
               out = Responded r -> ok r = true -> body r = BodyJson data -> result = data)
         /\ (forall msg, out = NetworkFailure msg -> result = JNull)
         /\ (forall r, out = Responded r -> ok r = false -> result = JNull)
         /\ (forall r msg, out = Responded r -> body r = BodyInvalid msg -> result = JNull)
       else
         result = JNull /\ trace w' = trace w /\ fetches w' = fetches w.
Proof.
  cbv zeta. rewrite checkForActivationNotification_run. cbv zeta.
  destruct (truthy (tokenOf env w)).
  2: { eexists _, _. split; [reflexivity |]. split; [repeat split |]. repeat split. }
  eexists _, _. split; [reflexivity |]. split; [repeat split |].
  split; [reflexivity |]. split; [reflexivity |].
  unfold attemptOutcome.
  destruct (network env (fetches w) _) as [msg | r].
  - repeat split; intros; try discriminate; reflexivity.
  - destruct (ok r) eqn:Hok; [destruct (body r) as [data | msg] eqn:Hbody |].
    + repeat split; intros; try discriminate; try congruence.
    + repeat split; intros; try discriminate; try congruence; reflexivity.
    + repeat split; intros; try discriminate; try congruence; reflexivity.
Qed.

(** X30. Analytics are best effort.  [trackUsageAnalytics] never throws
    and changes neither storage nor the cache; it sends at most one
    request, to [/analytics], and where no [window] is defined, as in the
    extension's service worker, it sends none at all. *)
Theorem trackUsageAnalytics_is_best_effort page action metadata env w :
  exists w',
    trackUsageAnalytics page action metadata env w = (Return tt, w')
    /\ sameState w w'
    /\ exists evs,
         trace w' = evs ++ trace w
         /\ (List.length evs <= 1)%nat
         /\ Forall analyticsEvent evs
         /\ fetches w' = (List.length evs + fetches w)%nat
         /\ (windowLocation page = None -> evs = []).
Proof. apply trackUsageAnalytics_run. Qed.
